(** * Chat-Bot orchestration core: conversation store, tool registry build,
      tool-activity tracking, execution and teardown.

    Shallow embedding of [src/Chat-Bot/mcp_client.py] (with the task table of
    [src/Chat-Bot/websocket_server.py] and the activity collection of
    [src/Chat-Bot/mongodb_manager.py]).

    Conventions of the embedding:
    - [datetime] values are integers counting microseconds; every call of
      [datetime.now()] in the source is an explicit clock reading passed in;
    - Python dictionaries are [gmap]s, Python lists are lists;
    - awaited external collaborators (tool-server processes, the agent, the
      exit stack) are represented by the outcome they produce;
    - an exception leaving a function is returned as a value ([Raise e], or
      [Some e] next to the state the function leaves behind). *)

From Stdlib Require Import ZArith Lia Ascii String.
From stdpp Require Import gmap strings list fin_maps.

Local Open Scope string_scope.
Local Open Scope list_scope.

(** ** Python helpers *)

(** The line feed used by ["\n".join(...)] and the f-strings. *)
Definition nl : string := String "010"%char EmptyString.

(** Truthiness of an optional string ([None] and [""] are falsy). *)
Definition truthy (o : option string) : bool :=
  match o with
  | Some s => negb (String.eqb s "")
  | None => false
  end.

(** Truthiness of a string. *)
Definition nonempty (s : string) : bool := negb (String.eqb s "").

(** [l[-k:]]: the last [k] elements; [l[-0:]] is [l[0:]], the whole list. *)
Definition slice_last {A : Type} (k : nat) (l : list A) : list A :=
  match k with
  | O => l
  | S _ => drop (length l - k) l
  end.

(** The characters that open the printed warnings and the "no tools" error
    in the source file, a mis-encoded emoji each, as their UTF-8 bytes. *)
Definition warning_sign : string :=
  string_of_list_ascii
    (map ascii_of_nat [195; 162; 197; 161; 194; 160; 195; 175; 194; 184])%nat.

Definition cross_mark : string :=
  string_of_list_ascii (map ascii_of_nat [195; 162; 197; 146])%nat.

(** [a or b] on optional strings. *)
Definition py_or (a b : option string) : option string :=
  if truthy a then a else b.

(** ** Conversation history (mcp_client.py, lines 44-294) *)

Definition MAX_CONVERSATION_MESSAGES : nat := 10.
Definition CONVERSATION_CLEANUP_HOURS : Z := 24.

(** [timedelta(hours=h)] in microseconds. *)
Definition timedelta_hours (h : Z) : Z := (h * 3600 * 1000000)%Z.

Record ConversationMessage := mkMessage {
  role : string;
  content : string;
  agent_type : option string;
  timestamp : Z
}.

Record ConversationSession := mkSession {
  session_id : string;
  messages : list ConversationMessage;
  created_at : Z;
  last_activity : Z
}.

(** [ConversationSession.__init__]: two clock readings. *)
Definition new_session (sid : string) (t_created t_active : Z) : ConversationSession :=
  {| session_id := sid; messages := []; created_at := t_created;
     last_activity := t_active |}.

(** [ConversationSession.add_message]: [t_msg] is the reading taken by the
    message constructor, [t_act] the one stored in [last_activity]. *)
Definition add_message (r c : string) (a : option string) (t_msg t_act : Z)
    (s : ConversationSession) : ConversationSession :=
  let message := mkMessage r c a t_msg in
  let appended := messages s ++ [message] in
  let kept :=
    if (MAX_CONVERSATION_MESSAGES <? length appended)%nat
    then slice_last MAX_CONVERSATION_MESSAGES appended
    else appended in
  {| session_id := session_id s; messages := kept;
     created_at := created_at s; last_activity := t_act |}.

(** One line of the transcript (body of the loop of [get_context_string]). *)
Definition context_line (msg : ConversationMessage) : string :=
  if String.eqb (role msg) "user" then
    "User: " +:+ content msg
  else
    let agent_info :=
      match agent_type msg with
      | Some a => if nonempty a then " (" +:+ a +:+ " agent)" else ""
      | None => ""
      end in
    "Assistant" +:+ agent_info +:+ ": " +:+ content msg.

(** [ConversationSession.get_context_string]. *)
Definition get_context_string (s : ConversationSession) : string :=
  match messages s with
  | [] => ""
  | _ :: _ =>
      let context_parts := ["Previous conversation context:"] in
      let context_parts :=
        fold_left (fun parts msg => parts ++ [context_line msg])
                  (slice_last MAX_CONVERSATION_MESSAGES (messages s))
                  context_parts in
      let context_parts := context_parts ++ ["---"] in
      String.concat nl context_parts
  end.

(** [ConversationSession.is_expired] at clock reading [now]. *)
Definition is_expired (now : Z) (s : ConversationSession) : bool :=
  bool_decide (now - last_activity s > timedelta_hours CONVERSATION_CLEANUP_HOURS)%Z.

(** [ConversationManager]: the [sessions] dictionary. *)
Record ConversationManager := mkConversationManager {
  sessions : gmap string ConversationSession
}.

Definition conversation_manager_init : ConversationManager :=
  {| sessions := ∅ |}.

(** [ConversationManager.get_or_create_session]. *)
Definition get_or_create_session (sid : string) (t_created t_active : Z)
    (cm : ConversationManager) : ConversationManager * ConversationSession :=
  match sessions cm !! sid with
  | Some s => (cm, s)
  | None =>
      let s := new_session sid t_created t_active in
      ({| sessions := <[sid := s]> (sessions cm) |}, s)
  end.

(** The list comprehension of [cleanup_expired_sessions]. *)
Definition expired_sessions (now : Z) (cm : ConversationManager) : list string :=
  map fst (List.filter (fun item => is_expired now (snd item))
                       (map_to_list (sessions cm))).

(** [ConversationManager.cleanup_expired_sessions]: delete each listed id. *)
Definition cleanup_expired_sessions (now : Z) (cm : ConversationManager)
    : ConversationManager :=
  {| sessions := fold_left (fun m sid => delete sid m)
                           (expired_sessions now cm) (sessions cm) |}.

(** ** Exceptions and awaited calls *)

(** The exception classes the source distinguishes: [asyncio.TimeoutError],
    any other subclass of [Exception] (with its [str(e)]), and
    [asyncio.CancelledError], which is a [BaseException] and is therefore not
    caught by [except Exception]. *)
Inductive PyException :=
  | TimeoutError
  | Exception (msg : string)
  | CancelledError.

(** What an awaited call delivers to the awaiting code. *)
Inductive Awaited (A : Type) :=
  | Return (a : A)
  | Raise (e : PyException).
Arguments Return {A} a.
Arguments Raise {A} e.

(** ** Tool activities collection (mongodb_manager.py, lines 401-510) *)

Record ActivityDocument := mkActivity {
  act_agent_id : Z;
  act_workspace_id : Z;
  tool_called : string;
  tool_input : string;
  status : string;
  tool_output : option string
}.

(** The activities collection. A document id is the position of the document
    in [documents]. [reachable] stands for "the manager is connected or
    reconnects, and the collection calls do not raise"; [update_log] keeps the
    successful [update_one] calls in order. *)
Record ActivityStore := mkStore {
  reachable : bool;
  documents : list ActivityDocument;
  update_log : list (nat * string)
}.

(** [MongoDBManager.create_tool_activity]. *)
Definition create_tool_activity (aid wid : Z) (tool args : string)
    (st : ActivityStore) : ActivityStore * option nat :=
  if reachable st then
    let activity_document := mkActivity aid wid tool args "running" None in
    ({| reachable := reachable st;
        documents := documents st ++ [activity_document];
        update_log := update_log st |},
     Some (length (documents st)))
  else (st, None).

(** [MongoDBManager.update_tool_activity]. *)
Definition mongo_update_tool_activity (activity_id : nat) (output st_new : string)
    (st : ActivityStore) : ActivityStore * bool :=
  if reachable st then
    match documents st !! activity_id with
    | None => (st, false)
    | Some original_doc =>
        let updated :=
          mkActivity (act_agent_id original_doc) (act_workspace_id original_doc)
                     (tool_called original_doc) (tool_input original_doc)
                     st_new (Some output) in
        ({| reachable := reachable st;
            documents := <[activity_id := updated]> (documents st);
            update_log := update_log st ++ [(activity_id, st_new)] |},
         true)
    end
  else (st, false).

(** ** ToolUseLogger (mcp_client.py, lines 48-211) *)

Record ToolUseLogger := mkLogger {
  tools_used : list string;
  tool_activities : gmap string nat;
  logger_agent_id : option Z;
  logger_workspace_id : option Z
}.

Definition logger_init : ToolUseLogger :=
  {| tools_used := []; tool_activities := ∅;
     logger_agent_id := None; logger_workspace_id := None |}.

(** [ToolUseLogger.set_context]. *)
Definition set_context (aid wid : Z) (lg : ToolUseLogger) : ToolUseLogger :=
  {| tools_used := tools_used lg; tool_activities := tool_activities lg;
     logger_agent_id := Some aid; logger_workspace_id := Some wid |}.

(** [ToolUseLogger.reset]: the context fields are kept. *)
Definition reset (lg : ToolUseLogger) : ToolUseLogger :=
  {| tools_used := []; tool_activities := ∅;
     logger_agent_id := logger_agent_id lg;
     logger_workspace_id := logger_workspace_id lg |}.

(** The logger together with the collection it writes to. *)
Definition Tracking : Type := ToolUseLogger * ActivityStore.

(** [ToolUseLogger._create_tool_activity]. *)
Definition _create_tool_activity (tool_name tool_args : string)
    (ts : Tracking) : Tracking :=
  let '(lg, st) := ts in
  match logger_agent_id lg, logger_workspace_id lg with
  | Some aid, Some wid =>
      if negb (aid =? 0)%Z && negb (wid =? 0)%Z then
        match create_tool_activity aid wid tool_name tool_args st with
        | (st', Some activity_id) =>
            ({| tools_used := tools_used lg;
                tool_activities := <[tool_name := activity_id]> (tool_activities lg);
                logger_agent_id := logger_agent_id lg;
                logger_workspace_id := logger_workspace_id lg |}, st')
        | (st', None) => (lg, st')
        end
      else ts
  | _, _ => ts
  end.

(** [ToolUseLogger.update_tool_activity]. *)
Definition update_tool_activity (tool_name output st_new : string)
    (ts : Tracking) : Tracking :=
  let '(lg, st) := ts in
  match tool_activities lg !! tool_name with
  | None => ts
  | Some activity_id =>
      match mongo_update_tool_activity activity_id output st_new st with
      | (st', true) =>
          ({| tools_used := tools_used lg;
              tool_activities := delete tool_name (tool_activities lg);
              logger_agent_id := logger_agent_id lg;
              logger_workspace_id := logger_workspace_id lg |}, st')
      | (st', false) => (lg, st')
      end
  end.

(** [ToolUseLogger.on_tool_end]; [name] is the tool name found in [kwargs]. *)
Definition on_tool_end (output : string) (name : option string)
    (ts : Tracking) : Tracking :=
  match name with
  | Some tool_name =>
      if nonempty tool_name && bool_decide (is_Some (tool_activities ts.1 !! tool_name))
      then update_tool_activity tool_name output "completed" ts
      else ts
  | None => ts
  end.

(** [ToolUseLogger.on_tool_error]. *)
Definition on_tool_error (error : string) (name : option string)
    (ts : Tracking) : Tracking :=
  match name with
  | Some tool_name =>
      if nonempty tool_name && bool_decide (is_Some (tool_activities ts.1 !! tool_name))
      then update_tool_activity tool_name error "failed" ts
      else ts
  | None => ts
  end.

(** A [function_call] / [tool_calls[i]['function']] payload: the name when the
    key ['name'] is present, and the raw arguments. *)
Record FunctionCall := mkCall {
  fc_name : option string;
  fc_arguments : string
}.

(** The [additional_kwargs] of one generation's message. Entries of
    [tool_calls] that are not dictionaries with a ['function'] key are skipped
    by the source and do not appear here. *)
Record Generation := mkGeneration {
  function_call : option FunctionCall;
  tool_calls : list FunctionCall
}.

(** The shared body of both branches of [on_llm_end] for one detected call. *)
Definition record_tool_call (fc : FunctionCall) (ts : Tracking) : Tracking :=
  match fc_name fc with
  | None => ts
  | Some tool_name =>
      let '(lg, st) := ts in
      let lg' :=
        if bool_decide (tool_name ∈ tools_used lg) then lg
        else {| tools_used := tools_used lg ++ [tool_name];
                tool_activities := tool_activities lg;
                logger_agent_id := logger_agent_id lg;
                logger_workspace_id := logger_workspace_id lg |} in
      _create_tool_activity tool_name (fc_arguments fc) (lg', st)
  end.

Definition on_generation (g : Generation) (ts : Tracking) : Tracking :=
  let ts :=
    match function_call g with
    | Some fc => record_tool_call fc ts
    | None => ts
    end in
  fold_left (fun acc fc => record_tool_call fc acc) (tool_calls g) ts.

(** [ToolUseLogger.on_llm_end] over [response.generations]. *)
Definition on_llm_end (generations : list (list Generation))
    (ts : Tracking) : Tracking :=
  fold_left (fun acc generation_list =>
               fold_left (fun acc' g => on_generation g acc') generation_list acc)
            generations ts.

(** [MCPClientManager._update_pending_tool_activities]. *)
Definition _update_pending_tool_activities (st_new output : string)
    (ts : Tracking) : Tracking :=
  fold_left (fun acc tool_name => update_tool_activity tool_name output st_new acc)
            (map fst (map_to_list (tool_activities ts.1))) ts.

(** ** Agent execution (mcp_client.py, lines 698-891) *)

(** The value [agent.ainvoke] returns: a dictionary with its [output],
    [content] and [text] entries, or an object with those attributes
    ([None] when the key or attribute is absent); [repr] is [str(result)]. *)
Inductive AgentResult :=
  | ResultDict (output content text : option string) (repr : string)
  | ResultObject (content output text : option string) (repr : string).

(** [MCPClientManager._extract_response_content]. *)
Definition _extract_response_content (result : AgentResult) : string :=
  match result with
  | ResultDict output content text repr =>
      match py_or (py_or output content) text with
      | Some s => if nonempty s then s else repr
      | None => repr
      end
  | ResultObject content output text repr =>
      match content, output, text with
      | Some s, _, _ => s
      | None, Some s, _ => s
      | None, None, Some s => s
      | None, None, None => repr
      end
  end.

(** [MCPClientManager._get_agent_type]. *)
Definition _get_agent_type : string := "user_agent".

(** The callbacks the agent framework delivers to the tool logger. *)
Inductive CallbackEvent :=
  | LlmEnd (generations : list (list Generation))
  | ToolEnd (output : string) (name : option string)
  | ToolError (error : string) (name : option string).

Definition on_event (ev : CallbackEvent) (ts : Tracking) : Tracking :=
  match ev with
  | LlmEnd generations => on_llm_end generations ts
  | ToolEnd output name => on_tool_end output name ts
  | ToolError error name => on_tool_error error name ts
  end.

Definition run_callbacks (evs : list CallbackEvent) (ts : Tracking) : Tracking :=
  fold_left (fun acc ev => on_event ev acc) evs ts.

(** One run of [asyncio.wait_for(self._execute_agent_isolated(agent, q), 60.0)]
    as seen by the caller: the callbacks delivered while it ran, then what the
    [await] produced ([Raise TimeoutError] when the 60 second deadline
    elapsed and the inner call was cancelled). *)
Record AgentRun := mkRun {
  callbacks : list CallbackEvent;
  outcome : Awaited AgentResult
}.

(** The policy engine: a black box from the query it is given to a run. *)
Definition Agent : Type := string -> AgentRun.

(** The module-level and per-manager state an execution reads and writes. *)
Record ExecState := mkExec {
  exec_logger : ToolUseLogger;
  exec_activities : ActivityStore;
  exec_conversations : ConversationManager
}.

(** Four consecutive readings of [datetime.now()]: two for a session that has
    to be created, one for the message, one for [last_activity]. *)
Record Readings := mkReadings {
  r_created : Z;
  r_active : Z;
  r_msg : Z;
  r_act : Z
}.

(** [conversation_manager.get_or_create_session(sid)] followed by
    [session.add_message(...)]; the session object is shared with the
    dictionary, so the mutation is visible under [sid]. *)
Definition session_add_message (sid r c : string) (a : option string)
    (clk : Readings) (cm : ConversationManager)
    : ConversationManager * ConversationSession :=
  let '(cm1, session) := get_or_create_session sid (r_created clk) (r_active clk) cm in
  let session' := add_message r c a (r_msg clk) (r_act clk) session in
  ({| sessions := <[sid := session']> (sessions cm1) |}, session').

(** Lines 736-743: the query handed to the agent. *)
Definition contextual_query_of (context query : string) : string :=
  if nonempty context
  then context +:+ nl +:+ nl +:+ "Current user message: " +:+ query
  else query.

(** Lines 700-743: everything before the agent is awaited. The writes of the
    chat transcript to MongoDB are wrapped in [try/except Exception] and have
    no effect on the state modelled here. *)
Definition prepare_execution (query : string) (sid : option string)
    (agent_id workspace_id : option Z) (clk : Readings) (es : ExecState)
    : ExecState * string :=
  let lg := reset (exec_logger es) in
  let lg :=
    match agent_id, workspace_id with
    | Some aid, Some wid =>
        if negb (aid =? 0)%Z && negb (wid =? 0)%Z then set_context aid wid lg else lg
    | _, _ => lg
    end in
  match sid with
  | Some session_id =>
      if nonempty session_id then
        let '(cm, session) :=
          session_add_message session_id "user" query None clk (exec_conversations es) in
        let context := get_context_string session in
        (mkExec lg (exec_activities es) cm, contextual_query_of context query)
      else (mkExec lg (exec_activities es) (exec_conversations es), query)
  | None => (mkExec lg (exec_activities es) (exec_conversations es), query)
  end.

(** What [execute_agent_with_context] returns on success: the agent's result
    with the list stored under [_extracted_tools_used]. *)
Record ExecResult := mkExecResult {
  result : AgentResult;
  _extracted_tools_used : list string
}.

(** Lines 745-818: the handlers around the awaited agent call and the
    bookkeeping after it. *)
Definition finish_execution (sid : option string) (run : AgentRun)
    (clk : Readings) (es : ExecState) : ExecState * Awaited ExecResult :=
  let ts := run_callbacks (callbacks run) (exec_logger es, exec_activities es) in
  match outcome run with
  | Raise TimeoutError =>
      let '(lg, st) := _update_pending_tool_activities "failed" "Execution timeout" ts in
      (mkExec lg st (exec_conversations es),
       Raise (Exception "Agent execution timed out after 60 seconds"))
  | Raise CancelledError =>
      let '(lg, st) := _update_pending_tool_activities "failed" "Execution cancelled" ts in
      (mkExec lg st (exec_conversations es), Raise CancelledError)
  | Raise (Exception e) =>
      let '(lg, st) := _update_pending_tool_activities "failed" e ts in
      (mkExec lg st (exec_conversations es), Raise (Exception e))
  | Return res =>
      let response_content := _extract_response_content res in
      let '(lg, st) :=
        if bool_decide (tool_activities ts.1 = ∅) then ts
        else _update_pending_tool_activities "completed" response_content ts in
      let tools := tools_used lg in
      let cm :=
        match sid with
        | Some session_id =>
            if nonempty session_id && nonempty response_content then
              (session_add_message session_id "assistant" response_content
                 (Some _get_agent_type) clk (exec_conversations es)).1
            else exec_conversations es
        | None => exec_conversations es
        end in
      (mkExec lg st cm, Return (mkExecResult res tools))
  end.

(** [MCPClientManager.execute_agent_with_context]. *)
Definition execute_agent_with_context (agent : Agent) (query : string)
    (sid : option string) (agent_id workspace_id : option Z)
    (clk_user clk_bot : Readings) (es : ExecState)
    : ExecState * Awaited ExecResult :=
  let '(es1, contextual_query) :=
    prepare_execution query sid agent_id workspace_id clk_user es in
  finish_execution sid (agent contextual_query) clk_bot es1.

(** ** Tool registry build and manager lifecycle (mcp_client.py, lines 361-696) *)

(** A tool as loaded by [load_mcp_tools]. *)
Record Tool := mkTool {
  name : string;
  description : string
}.

(** One entry of [get_mcp_servers()]. *)
Record ServerConfig := mkConfig {
  cfg_id : string;
  command : string;
  args : list string;
  env : list (string * string)
}.

(** What the tool-server process behind a config does when the loop of
    [initialize] reaches it:
    - [SpawnFails]: [stdio_client] raises, nothing enters the exit stack;
    - [HandshakeFails]: the process is on the exit stack, then the
      [ClientSession] or [session.initialize()] raises;
    - [LoadFails]: the session is up and [load_mcp_tools] raises;
    - [Loads tools]: [load_mcp_tools] returns [tools]. *)
Inductive ServerBehaviour :=
  | SpawnFails (e : string)
  | HandshakeFails (e : string)
  | LoadFails (e : string)
  | Loads (tools : list Tool).

Definition Servers : Type := ServerConfig -> ServerBehaviour.

(** The agents built over a tool list ([create_sub_agents],
    [initialize_agent]). *)
Record AgentHandle := mkAgentHandle {
  agent_tools : list Tool
}.

(** [MCPClientManager]. [stack] lists the ids of the processes entered into
    the [AsyncExitStack] ([None] when [self.stack] is [None]). The fields
    [temperature] and [model] only parameterise the language model and are
    left out. *)
Record MCPClientManager := mkManager {
  stack : option (list string);
  server_tools : gmap string (list Tool);
  all_tools : list Tool;
  sub_agents : option AgentHandle;
  agent : option AgentHandle;
  _is_initializing : bool;
  tool_logger : ToolUseLogger
}.

(** [MCPClientManager.__init__]. *)
Definition manager_init : MCPClientManager :=
  {| stack := None; server_tools := ∅; all_tools := []; sub_agents := None;
     agent := None; _is_initializing := false; tool_logger := logger_init |}.

Definition with_stack (s : option (list string)) (m : MCPClientManager) : MCPClientManager :=
  mkManager s (server_tools m) (all_tools m) (sub_agents m) (agent m)
            (_is_initializing m) (tool_logger m).

Definition with_flag (b : bool) (m : MCPClientManager) : MCPClientManager :=
  mkManager (stack m) (server_tools m) (all_tools m) (sub_agents m) (agent m)
            b (tool_logger m).

(** The four assignments under the comment "Reset all state". *)
Definition reset_state (m : MCPClientManager) : MCPClientManager :=
  mkManager (stack m) ∅ [] None None (_is_initializing m) (tool_logger m).

(** [MCPClientManager._force_cleanup]. [exit] is what
    [await asyncio.wait_for(self.stack.__aexit__(None, None, None), 5.0)]
    produces. The result carries the printed lines and the exception that
    leaves the function, if any. *)
Definition _force_cleanup (exit : Awaited unit) (m : MCPClientManager)
    : MCPClientManager * list string * option PyException :=
  match stack m with
  | None => (m, [], None)
  | Some _ =>
      let m' := with_stack None m in
      match exit with
      | Return _ => (m', [], None)
      | Raise TimeoutError =>
          (m', [warning_sign +:+ " Stack cleanup timed out after 5 seconds"], None)
      | Raise (Exception e) =>
          (m', [warning_sign +:+ " Warning during stack cleanup: " +:+ e], None)
      | Raise CancelledError => (m', [], Some CancelledError)
      end
  end.

(** The processes one pass of the loop puts on the exit stack. *)
Definition spawns_of (servers : Servers) (cfg : ServerConfig) : list string :=
  match servers cfg with
  | SpawnFails _ => []
  | _ => [cfg_id cfg]
  end.

(** One pass of the loop at lines 587-611. *)
Definition load_server (servers : Servers) (m : MCPClientManager)
    (cfg : ServerConfig) : MCPClientManager :=
  let entered := with_stack (option_map (fun l => l ++ spawns_of servers cfg) (stack m)) m in
  match servers cfg with
  | SpawnFails _ => m
  | HandshakeFails _ => entered
  | LoadFails _ => entered
  | Loads tools =>
      mkManager (stack entered)
                (<[cfg_id cfg := tools]> (server_tools entered))
                (all_tools entered ++ tools)
                (sub_agents entered) (agent entered)
                (_is_initializing entered) (tool_logger entered)
  end.

(** The whole loop. *)
Definition load_servers (servers : Servers) (mcp_servers : list ServerConfig)
    (m : MCPClientManager) : MCPClientManager :=
  fold_left (load_server servers) mcp_servers m.

Definition no_tools_message : string :=
  cross_mark +:+ " No tools loaded from any MCP server.".

(** Line 613: the emptiness check after the loop. *)
Definition check_tools (m : MCPClientManager) : Awaited unit :=
  match all_tools m with
  | [] => Raise (Exception no_tools_message)
  | _ :: _ => Return tt
  end.

(** Lines 578-614 on a manager whose state was just reset: a fresh exit
    stack, the loop, and the emptiness check. This is the registry build. *)
Definition build_registry (servers : Servers) (mcp_servers : list ServerConfig)
    (m : MCPClientManager) : MCPClientManager * Awaited unit :=
  let m := load_servers servers mcp_servers (with_stack (Some []) m) in
  (m, check_tools m).

(** The three constructors called after the emptiness check, in program
    order: [ChatOpenAI] (line 617), [create_sub_agents] (line 625, assigned
    to [self.sub_agents]) and [initialize_agent] (line 628, assigned to
    [self.agent]). *)
Inductive AgentStep :=
  | AtModel
  | AtSubAgents
  | AtAgent.

(** What one call of [initialize] meets outside the manager.
    [env_exit_prior] and [env_exit_failed] are the outcomes of the two
    awaited exits of the stack (before the build, and in the handler after a
    failed build); [env_agents] is the constructor that raises while the
    language model and the agents are built, with the text of its error, if
    any. *)
Record InitEnv := mkInitEnv {
  env_servers : Servers;
  env_mcp_servers : list ServerConfig;
  env_exit_prior : Awaited unit;
  env_exit_failed : Awaited unit;
  env_agents : option (AgentStep * string)
}.

(** Lines 387-394. *)
Definition init_reset (e : InitEnv) (m : MCPClientManager)
    : MCPClientManager * option PyException :=
  match _force_cleanup (env_exit_prior e) m with
  | (m', _, Some exc) => (m', Some exc)
  | (m', _, None) => (reset_state m', None)
  end.

(** The inner [except Exception] handler and [finally] (lines 640-644) for an
    exception [exc] raised by the build. *)
Definition init_failed (e : InitEnv) (exc : PyException) (m : MCPClientManager)
    : MCPClientManager * Awaited unit :=
  match _force_cleanup (env_exit_failed e) m with
  | (m', _, Some exc') => (with_flag false m', Raise exc')
  | (m', _, None) => (with_flag false m', Raise exc)
  end.

(** Line 625 once [create_sub_agents] has returned. *)
Definition with_sub_agents (h : AgentHandle) (m : MCPClientManager) : MCPClientManager :=
  mkManager (stack m) (server_tools m) (all_tools m) (Some h) (agent m)
            (_is_initializing m) (tool_logger m).

(** Line 628 once [initialize_agent] has returned. *)
Definition with_agent (h : AgentHandle) (m : MCPClientManager) : MCPClientManager :=
  mkManager (stack m) (server_tools m) (all_tools m) (sub_agents m) (Some h)
            (_is_initializing m) (tool_logger m).

(** Lines 613-644 after the loop. An error of [ChatOpenAI] or
    [create_sub_agents] reaches the handler before [self.sub_agents] is
    assigned; an error of [initialize_agent] reaches it after. *)
Definition init_finish (e : InitEnv) (m : MCPClientManager)
    : MCPClientManager * Awaited unit :=
  match check_tools m with
  | Raise exc => init_failed e exc m
  | Return _ =>
      let handle := mkAgentHandle (all_tools m) in
      match env_agents e with
      | Some (AtModel, err) => init_failed e (Exception err) m
      | Some (AtSubAgents, err) => init_failed e (Exception err) m
      | Some (AtAgent, err) =>
          init_failed e (Exception err) (with_sub_agents handle m)
      | None =>
          (with_flag false (with_agent handle (with_sub_agents handle m)), Return tt)
      end
  end.

(** [MCPClientManager.initialize], the body run while the lock is held. *)
Definition initialize (e : InitEnv) (m : MCPClientManager)
    : MCPClientManager * Awaited unit :=
  if _is_initializing m then (m, Return tt)
  else
    match init_reset e (with_flag true m) with
    | (m1, Some exc) => (m1, Raise exc)
    | (m1, None) =>
        init_finish e (build_registry (env_servers e) (env_mcp_servers e) m1).1
    end.

(** A task of the event loop as [cleanup] reads it from
    [asyncio.all_tasks()]: its name and whether it is done. The calling task
    is not in the list. *)
Record LoopTask := mkTask {
  task_name : string;
  task_done : bool
}.

(** [str.lower] on a task name (names are taken to be ASCII). *)
Definition lower_char (c : ascii) : ascii :=
  let n := nat_of_ascii c in
  if (65 <=? n)%nat && (n <=? 90)%nat then ascii_of_nat (n + 32) else c.

Fixpoint lower (s : string) : string :=
  match s with
  | EmptyString => EmptyString
  | String c s' => String (lower_char c) (lower s')
  end.

(** ['mcp' in task.get_name().lower()]. *)
Definition names_mcp (t : LoopTask) : bool :=
  match String.index 0 "mcp" (lower (task_name t)) with
  | Some _ => true
  | None => false
  end.

(** Line 671: the other tasks that are not done. *)
Definition unfinished (tasks : list LoopTask) : list LoopTask :=
  List.filter (fun t => negb (task_done t)) tasks.

(** Lines 674-676: the tasks on which [cancel()] is called. *)
Definition cancelled_tasks (tasks : list LoopTask) : list string :=
  map task_name (List.filter names_mcp (unfinished tasks)).

(** Lines 672-681: the wait after the cancellations, made only when some
    other task is not done. [sleep] is how [await asyncio.sleep(0.1)] ends.
    The result is the warning printed and the exception that leaves the
    [try], if any. *)
Definition cleanup_sleep (tasks : list LoopTask) (sleep : Awaited unit)
    : list string * option PyException :=
  match unfinished tasks with
  | [] => ([], None)
  | _ :: _ =>
      match sleep with
      | Return _ => ([], None)
      | Raise CancelledError => ([], Some CancelledError)
      | Raise TimeoutError => ([warning_sign +:+ " Warning cancelling tasks: "], None)
      | Raise (Exception e) =>
          ([warning_sign +:+ " Warning cancelling tasks: " +:+ e], None)
      end
  end.

(** [MCPClientManager.cleanup], the body run once the lock is acquired and
    the sweep that follows its release, at clock reading [now]. The result
    is the manager, the conversation store, the names of the tasks
    cancelled, the warnings printed, and the exception that leaves the
    function, if any. [asyncio.current_task()] is the task that runs the
    coroutine, so the test on it holds; of the lines printed only the
    warnings are kept. *)
Definition cleanup (tasks : list LoopTask) (sleep exit : Awaited unit) (now : Z)
    (m : MCPClientManager) (cm : ConversationManager)
    : MCPClientManager * ConversationManager * list string * list string
      * option PyException :=
  let cancelled := cancelled_tasks tasks in
  match cleanup_sleep tasks sleep with
  | (warned, Some exc) => (m, cm, cancelled, warned, Some exc)
  | (warned, None) =>
      match _force_cleanup exit m with
      | (m', printed, Some exc) => (m', cm, cancelled, warned ++ printed, Some exc)
      | (m', printed, None) =>
          (reset_state m', cleanup_expired_sessions now cm, cancelled,
           warned ++ printed, None)
      end
  end.


(** ** In-flight task table (websocket_server.py, lines 821-872) *)

(** [ConnectionManager.connection_tasks]; a task is known by its name. *)
Record ConnectionManager := mkConnectionManager {
  connection_tasks : gmap string string
}.

(** [ConnectionManager.register_task]. *)
Definition register_task (sid task : string) (c : ConnectionManager) : ConnectionManager :=
  {| connection_tasks := <[sid := task]> (connection_tasks c) |}.

(** [ConnectionManager.cleanup_task]. *)
Definition cleanup_task (sid : string) (c : ConnectionManager) : ConnectionManager :=
  {| connection_tasks := delete sid (connection_tasks c) |}.

(** A session has an in-flight execution when a task is registered for it. *)
Definition in_flight (sid : string) (c : ConnectionManager) : Prop :=
  is_Some (connection_tasks c !! sid).

(** ** Two calls of [initialize] on one manager under cooperative scheduling *)

(** Where a call of [initialize] stands. Control only changes hands at an
    [await]; the points below are the [await]s of the coroutine plus the
    flag test, in program order:
    - [PcAcquire]: at [async with self._initialization_lock];
    - [PcCheck]: lock held, before the test of [_is_initializing];
    - [PcCleanup]: flag set, at [await self._force_cleanup()];
    - [PcLoad i]: in the loop, before the [await]s for the [i]-th config;
    - [PcFinish]: after the loop, before the check, the agents and [finally];
    - [PcRelease early]: leaving the [async with] block;
    - [PcDone early]: returned; [early] tells whether it returned at the
      flag test. *)
Inductive InitPc :=
  | PcAcquire
  | PcCheck
  | PcCleanup
  | PcLoad (i : nat)
  | PcFinish
  | PcRelease (early : bool)
  | PcDone (early : bool).

(** The manager shared by the calls, its lock, and a record of what was
    created: [stacks_created] counts the executions of line 579, [spawned]
    lists the processes put on an exit stack, in order. *)
Record Shared := mkShared {
  lock : bool;
  mgr : MCPClientManager;
  stacks_created : nat;
  spawned : list string
}.

Definition shared_init : Shared :=
  {| lock := false; mgr := manager_init; stacks_created := 0; spawned := [] |}.

(** One scheduling slice of a call standing at [pc]; [None] when the call
    cannot run (it waits for the lock, or it has returned). *)
Definition step_call (e : InitEnv) (sh : Shared) (pc : InitPc) : option (Shared * InitPc) :=
  match pc with
  | PcAcquire =>
      if lock sh then None
      else Some (mkShared true (mgr sh) (stacks_created sh) (spawned sh), PcCheck)
  | PcCheck =>
      if _is_initializing (mgr sh) then Some (sh, PcRelease true)
      else Some (mkShared (lock sh) (with_flag true (mgr sh))
                          (stacks_created sh) (spawned sh), PcCleanup)
  | PcCleanup =>
      match init_reset e (mgr sh) with
      | (m, Some _) =>
          Some (mkShared (lock sh) m (stacks_created sh) (spawned sh), PcRelease false)
      | (m, None) =>
          Some (mkShared (lock sh) (with_stack (Some []) m)
                         (S (stacks_created sh)) (spawned sh), PcLoad 0)
      end
  | PcLoad i =>
      match env_mcp_servers e !! i with
      | Some cfg =>
          Some (mkShared (lock sh) (load_server (env_servers e) (mgr sh) cfg)
                         (stacks_created sh)
                         (spawned sh ++ spawns_of (env_servers e) cfg),
                PcLoad (S i))
      | None => Some (sh, PcFinish)
      end
  | PcFinish =>
      Some (mkShared (lock sh) (init_finish e (mgr sh)).1
                     (stacks_created sh) (spawned sh), PcRelease false)
  | PcRelease early =>
      Some (mkShared false (mgr sh) (stacks_created sh) (spawned sh), PcDone early)
  | PcDone _ => None
  end.

(** Two calls issued on the same manager. *)
Record Duo := mkDuo {
  shared : Shared;
  first : InitPc;
  second : InitPc
}.

Definition duo_init : Duo :=
  {| shared := shared_init; first := PcAcquire; second := PcAcquire |}.

(** The scheduler picks a call ([true] the first, [false] the second); a call
    that cannot run leaves everything as it is. *)
Definition schedule_one (e : InitEnv) (d : Duo) (pick : bool) : Duo :=
  if pick then
    match step_call e (shared d) (first d) with
    | Some (sh, pc) => mkDuo sh pc (second d)
    | None => d
    end
  else
    match step_call e (shared d) (second d) with
    | Some (sh, pc) => mkDuo sh (first d) pc
    | None => d
    end.

Definition run_schedule (e : InitEnv) (picks : list bool) (d : Duo) : Duo :=
  fold_left (schedule_one e) picks d.

Definition returned (pc : InitPc) : bool :=
  match pc with
  | PcDone _ => true
  | _ => false
  end.

Definition returned_early (pc : InitPc) : bool :=
  match pc with
  | PcDone early => early
  | _ => false
  end.

(** The processes one full pass over the configs spawns. *)
Definition spawn_set (e : InitEnv) : list string :=
  flat_map (spawns_of (env_servers e)) (env_mcp_servers e).

(** ** A call of [cleanup] beside a call of [initialize] *)




(** ** Sequences of appends *)

(** The arguments of one [add_message] call with its two clock readings. *)
Record Append := mkAppend {
  ap_role : string;
  ap_content : string;
  ap_agent_type : option string;
  ap_t_msg : Z;
  ap_t_act : Z
}.

(** The message an append constructs. *)
Definition message_of (a : Append) : ConversationMessage :=
  mkMessage (ap_role a) (ap_content a) (ap_agent_type a) (ap_t_msg a).

Definition append_one (s : ConversationSession) (a : Append) : ConversationSession :=
  add_message (ap_role a) (ap_content a) (ap_agent_type a) (ap_t_msg a) (ap_t_act a) s.

Definition append_all (aps : list Append) (s : ConversationSession) : ConversationSession :=
  fold_left append_one aps s.

(** ** Concrete scenarios *)

(** Eleven user messages numbered by their clock readings. *)
Definition eleven_appends : list Append :=
  map (fun t => mkAppend "user" "hello" None t (t + 1)%Z)
      [0; 10; 20; 30; 40; 50; 60; 70; 80; 90; 100]%Z.

(** A session holding one earlier exchange. *)
Definition chatted : ConversationManager :=
  {| sessions :=
       {[ "s1" := mkSession "s1"
                    [mkMessage "user" "hi" None 1;
                     mkMessage "assistant" "hello" (Some "user_agent") 2] 0 2 ]} |}.

(** The session of that exchange on its own. *)
Definition one_exchange : ConversationSession :=
  mkSession "s1"
    [mkMessage "user" "hi" None 1;
     mkMessage "assistant" "hello" (Some "user_agent") 2] 0 2.

(** Six exchanges, twelve appends: questions [q1] to [q6] with their
    answers [a1] to [a6]. *)
Definition twelve_appends : list Append :=
  flat_map (fun '(t, q, a) =>
              [mkAppend "user" q None t (t + 1)%Z;
               mkAppend "assistant" a (Some "user_agent") (t + 2) (t + 3)%Z])
           [(0, "q1", "a1"); (10, "q2", "a2"); (20, "q3", "a3");
            (30, "q4", "a4"); (40, "q5", "a5"); (50, "q6", "a6")]%Z.

Definition idle_state : ExecState :=
  {| exec_logger := logger_init;
     exec_activities := mkStore true [] [];
     exec_conversations := chatted |}.

Definition noon : Readings := mkReadings 10 11 12 13.
Definition later : Readings := mkReadings 20 21 22 23.

(** An agent that answers at once without calling any tool. *)
Definition echo_agent : Agent :=
  fun q => mkRun [] (Return (ResultDict (Some "done") None None "{...}")).

(** A session last active at time 0 whose query is still being processed. *)
Definition stale : ConversationManager :=
  {| sessions := {[ "s1" := mkSession "s1" [mkMessage "user" "hi" None 0] 0 0 ]} |}.

Definition busy : ConnectionManager :=
  register_task "s1" "Task-7" (mkConnectionManager ∅).

(** Twenty-five hours after time 0. *)
Definition next_day : Z := timedelta_hours 25.

(** The tools a config contributes to the aggregate: those it loads, none
    when connecting, the handshake or the loading fails. *)
Definition discovered (servers : Servers) (cfg : ServerConfig) : list Tool :=
  match servers cfg with
  | Loads tools => tools
  | _ => []
  end.

(** How often a tool name occurs in a tool list. *)
Definition occurrences (n : string) (tools : list Tool) : nat :=
  length (filter (fun t => name t = n) tools).

Definition cfg_a : ServerConfig := mkConfig "a" "python" ["a_server.py"] [].
Definition cfg_b : ServerConfig := mkConfig "b" "python" ["b_server.py"] [].

Definition send_tool : Tool := mkTool "send" "Send a message".
Definition ping_tool : Tool := mkTool "ping" "Ping".

(** Both servers start and both expose a tool named [send]. *)
Definition two_senders : Servers :=
  fun cfg => Loads [send_tool].

(** Server [a] does not start, server [b] exposes [ping]. *)
Definition a_down_b_pings : Servers :=
  fun cfg => if String.eqb (cfg_id cfg) "a" then SpawnFails "no such file"
             else Loads [ping_tool].


(** The environment of an [initialize] call in which server [a] is down and
    server [b] exposes [ping]; both stack exits complete, the agents build. *)
Definition half_up : InitEnv :=
  mkInitEnv a_down_b_pings [cfg_a; cfg_b] (Return tt) (Return tt) None.

(** The manager after a successful [initialize]. *)
Definition ready : MCPClientManager := (initialize half_up manager_init).1.

(** The other tasks of the loop at a teardown: an unfinished worker whose
    name mentions MCP, an unfinished request task, and a finished task. *)
Definition loop_tasks : list LoopTask :=
  [mkTask "MCP-worker" false; mkTask "Task-7" false; mkTask "mcp-old" true].

(** ** Well-formed tracking state *)

(** Every tracked tool name points to a document that is still ["running"],
    and no two names point to the same document. *)
Definition tracking_ok (ts : Tracking) : Prop :=
  (forall n id, tool_activities ts.1 !! n = Some id ->
     exists doc, documents ts.2 !! id = Some doc /\ status doc = "running") /\
  (forall n1 n2 id, tool_activities ts.1 !! n1 = Some id ->
     tool_activities ts.1 !! n2 = Some id -> n1 = n2).

(** The document [update_one] leaves behind. *)
Definition resolved (doc : ActivityDocument) (st_new output : string) : ActivityDocument :=
  mkActivity (act_agent_id doc) (act_workspace_id doc) (tool_called doc)
             (tool_input doc) st_new (Some output).

(** Well-formed tracking over a collection that answers. *)
Definition tracking_sound (ts : Tracking) : Prop :=
  tracking_ok ts /\ reachable ts.2 = true.

(** ** Concrete executions *)

Definition send_call : FunctionCall := mkCall (Some "send") "{}".

(** The model asks for [send] once; the deadline elapses before the tool
    returns. *)
Definition slow_agent : Agent :=
  fun q => mkRun [LlmEnd [[mkGeneration (Some send_call) []]]] (Raise TimeoutError).

(** The model asks for [send] twice in one response ([tool_calls] with two
    entries); the deadline elapses before either returns. *)
Definition double_send_timeout : Agent :=
  fun q => mkRun [LlmEnd [[mkGeneration None [send_call; send_call]]]]
                 (Raise TimeoutError).

(** The same two calls; both tools finish and the agent returns an answer. *)
Definition double_send_success : Agent :=
  fun q => mkRun [LlmEnd [[mkGeneration None [send_call; send_call]]];
                  ToolEnd "sent" (Some "send"); ToolEnd "sent" (Some "send")]
                 (Return (ResultDict (Some "both sent") None None "{...}")).

(** ** Reading the scheduling model *)

(** The call holds the lock. *)
Definition holds_lock (pc : InitPc) : bool :=
  match pc with
  | PcAcquire | PcDone _ => false
  | _ => true
  end.

(** The call has set [_is_initializing] and not yet reached [finally]. *)
Definition has_flag (pc : InitPc) : bool :=
  match pc with
  | PcCleanup | PcLoad _ | PcFinish => true
  | _ => false
  end.

(** The call has created its exit stack. *)
Definition started (pc : InitPc) : nat :=
  match pc with
  | PcLoad _ | PcFinish | PcRelease false | PcDone false => 1
  | _ => 0
  end.

(** The processes the call has spawned so far. *)
Definition progress (e : InitEnv) (pc : InitPc) : list string :=
  match pc with
  | PcLoad i => flat_map (spawns_of (env_servers e)) (take i (env_mcp_servers e))
  | PcFinish | PcRelease false | PcDone false => spawn_set e
  | _ => []
  end.

(** The call left (or is leaving) through the [return] at the flag test. *)
Definition leaves_early (pc : InitPc) : bool :=
  match pc with
  | PcRelease early | PcDone early => early
  | _ => false
  end.

(** What holds of two calls at every point of every schedule: the lock is
    held by exactly the call inside the block, the flag is set exactly while
    that call is between setting and clearing it, no call has taken the early
    return, and the created stacks and spawned processes are those of the two
    calls, the one inside the block last. *)
Record duo_inv (e : InitEnv) (d : Duo) : Prop := mkDuoInv {
  inv_lock : lock (shared d) = holds_lock (first d) || holds_lock (second d);
  inv_excl : holds_lock (first d) && holds_lock (second d) = false;
  inv_flag : _is_initializing (mgr (shared d))
             = has_flag (first d) || has_flag (second d);
  inv_early : leaves_early (first d) || leaves_early (second d) = false;
  inv_stacks : stacks_created (shared d) = (started (first d) + started (second d))%nat;
  inv_spawned : spawned (shared d)
                = if holds_lock (first d)
                  then progress e (second d) ++ progress e (first d)
                  else progress e (first d) ++ progress e (second d)
}.

(** The second call is scheduled while the first is inside the block. *)
Definition interleaved : list bool :=
  [true; true; false; true; false; true; false; true; true; true; true;
   false; false; false; false; false; false; false; false].

(** ** Reading the callbacks *)

(** The calls one [on_llm_end] callback detects, in the order the loops of
    the source visit them; the other callbacks detect none. *)
Definition calls_of (ev : CallbackEvent) : list FunctionCall :=
  match ev with
  | LlmEnd generations =>
      flat_map (flat_map (fun g =>
                  match function_call g with
                  | Some fc => [fc]
                  | None => []
                  end ++ tool_calls g)) generations
  | _ => []
  end.

(** Adding a detected tool name to [tools_used] unless it is there. *)
Definition note_tool (used : list string) (fc : FunctionCall) : list string :=
  match fc_name fc with
  | Some n => if bool_decide (n ∈ used) then used else used ++ [n]
  | None => used
  end.

(** The context the logger works with during an execution called with
    [agent_id] and [workspace_id]: the pair passed when both are truthy,
    otherwise whatever an earlier execution left in the logger. *)
Definition effective_context (agent_id workspace_id : option Z) (lg : ToolUseLogger)
    : option Z * option Z :=
  match agent_id, workspace_id with
  | Some aid, Some wid =>
      if negb (aid =? 0)%Z && negb (wid =? 0)%Z then (Some aid, Some wid)
      else (logger_agent_id lg, logger_workspace_id lg)
  | _, _ => (logger_agent_id lg, logger_workspace_id lg)
  end.

(** [_create_tool_activity] goes ahead only with a truthy pair. *)
Definition context_set (ctx : option Z * option Z) : bool :=
  match ctx with
  | (Some aid, Some wid) => negb (aid =? 0)%Z && negb (wid =? 0)%Z
  | _ => false
  end.

(** The part of [prepare_execution] that concerns the conversation store:
    the store after lines 707-710 and the query of lines 736-743. *)
Definition prepare_conversation (query : string) (sid : option string)
    (clk : Readings) (cm : ConversationManager) : ConversationManager * string :=
  match sid with
  | Some session_id =>
      if nonempty session_id then
        let '(cm', session) := session_add_message session_id "user" query None clk cm in
        (cm', contextual_query_of (get_context_string session) query)
      else (cm, query)
  | None => (cm, query)
  end.

(** A model response asking for [send], then [ping], then [send] again. *)
Definition three_calls_agent : Agent :=
  fun q => mkRun [LlmEnd [[mkGeneration (Some send_call)
                             [mkCall (Some "ping") "{}"; send_call]]];
                  ToolEnd "sent" (Some "send"); ToolEnd "pong" (Some "ping")]
                 (Return (ResultDict (Some "ok") None None "{...}")).

(** The status and output the handlers of [execute_agent_with_context] give
    to the activities still tracked when the awaited call ends. *)
Definition resolution_of (o : Awaited AgentResult) : string * string :=
  match o with
  | Return res => ("completed", _extract_response_content res)
  | Raise TimeoutError => ("failed", "Execution timeout")
  | Raise CancelledError => ("failed", "Execution cancelled")
  | Raise (Exception e) => ("failed", e)
  end.

(** The tracking state in which the awaited agent call of an execution ends:
    the callbacks of the run applied to the prepared logger and collection. *)
Definition tracking_at_end (agent : Agent) (query : string) (sid : option string)
    (aid wid : option Z) (clk : Readings) (es : ExecState) : Tracking :=
  let prepared := prepare_execution query sid aid wid clk es in
  run_callbacks (callbacks (agent prepared.2))
                (exec_logger prepared.1, exec_activities prepared.1).

(** The model asks for [send]; the calling task is cancelled before the tool
    returns. *)
Definition cancelled_agent : Agent :=
  fun q => mkRun [LlmEnd [[mkGeneration (Some send_call) []]]] (Raise CancelledError).

(** What holds of the tracking state during an execution that started on
    the documents [d0], with the logger context [ctx] and a collection whose
    [reachable] flag is [r0]: the earlier documents are in place, every later
    one was created under [ctx], and only later ones are tracked. *)
Record created_under (d0 : list ActivityDocument) (ctx : option Z * option Z)
    (r0 : bool) (ts : Tracking) : Prop := mkCreatedUnder {
  cu_agent : logger_agent_id ts.1 = ctx.1;
  cu_workspace : logger_workspace_id ts.1 = ctx.2;
  cu_reachable : reachable ts.2 = r0;
  cu_prior : forall i doc, d0 !! i = Some doc -> documents ts.2 !! i = Some doc;
  cu_created : forall i doc,
    (length d0 <= i)%nat -> documents ts.2 !! i = Some doc ->
    Some (act_agent_id doc) = ctx.1 /\ Some (act_workspace_id doc) = ctx.2 /\
    context_set ctx = true /\ r0 = true;
  cu_tracked : forall n id,
    tool_activities ts.1 !! n = Some id -> (length d0 <= id)%nat
}.

(** A state whose logger still holds the context of an earlier execution. *)
Definition sticky_state : ExecState :=
  {| exec_logger := set_context 7 3 logger_init;
     exec_activities := mkStore true [] [];
     exec_conversations := chatted |}.

(** A collection holding one activity that failed earlier, tracked by no
    one. *)
Definition one_failed : Tracking :=
  (set_context 7 3 logger_init,
   mkStore true [mkActivity 7 3 "send" "{}" "failed" (Some "boom")] []).

(** ** Reading the conversation store *)

(** Every session is stored under its own id. *)
Definition keyed (cm : ConversationManager) : Prop :=
  forall k s, sessions cm !! k = Some s -> session_id s = k.

(** ** Reading the manager *)

(** The manager in which the loop of [initialize] ends: the fields are those
    of a reset manager with a fresh exit stack and the flag set, loaded with
    the configs of [e]; of the earlier manager only the tool logger is
    left. *)
Definition loaded (e : InitEnv) (lg : ToolUseLogger) : MCPClientManager :=
  load_servers (env_servers e) (env_mcp_servers e)
    (mkManager (Some []) ∅ [] None None true lg).

(** The exit of the earlier stack is cancelled; everything else goes well. *)
Definition cancelled_exit : InitEnv :=
  mkInitEnv a_down_b_pings [cfg_a; cfg_b] (Raise CancelledError) (Return tt) None.

(** Both servers load their tools, the sub-agents are built, and
    [initialize_agent] raises. *)
Definition last_step_fails : InitEnv :=
  mkInitEnv two_senders [cfg_a; cfg_b] (Return tt) (Return tt)
            (Some (AtAgent, "no API key")).

(** ** ConnectionManager in full (websocket_server.py, lines 821-885) *)

(** The three dictionaries of [ConnectionManager]. A WebSocket object is
    known by a name; [conn_tasks] is the task table modelled above. *)
Record Connections := mkConnections {
  active_connections : gmap string string;
  connection_sessions : gmap string string;
  conn_tasks : ConnectionManager
}.

Definition connections_init : Connections :=
  {| active_connections := ∅; connection_sessions := ∅;
     conn_tasks := mkConnectionManager ∅ |}.

(** [ConnectionManager.connect] once the socket is accepted; [uuid] is the
    value of [str(uuid.uuid4())]. Returns the session id. *)
Definition connect (websocket : string) (client_id : option string) (uuid : string)
    (c : Connections) : Connections * string :=
  let sessions' := <[websocket := uuid]> (connection_sessions c) in
  let active' :=
    match client_id with
    | Some cid => if nonempty cid then <[cid := websocket]> (active_connections c)
                  else active_connections c
    | None => active_connections c
    end in
  (mkConnections active' sessions' (conn_tasks c), uuid).

(** [ConnectionManager.disconnect]. [done] tells which tasks have finished
    ([task.done()]). The second component is the task on which [cancel()]
    was called, if any. [websocket] is [None] when the caller passes
    [None], as [send_personal_message] does. *)
Definition disconnect (done : string -> bool) (websocket client_id : option string)
    (c : Connections) : Connections * option string :=
  let '(sessions', tasks', cancelled) :=
    match websocket with
    | Some ws =>
        match connection_sessions c !! ws with
        | Some session_id =>
            let sessions' := delete ws (connection_sessions c) in
            match connection_tasks (conn_tasks c) !! session_id with
            | Some task =>
                (sessions', cleanup_task session_id (conn_tasks c),
                 if done task then None else Some task)
            | None => (sessions', conn_tasks c, None)
            end
        | None => (connection_sessions c, conn_tasks c, None)
        end
    | None => (connection_sessions c, conn_tasks c, None)
    end in
  let active' :=
    match client_id with
    | Some cid =>
        if nonempty cid && bool_decide (is_Some (active_connections c !! cid))
        then delete cid (active_connections c)
        else active_connections c
    | None => active_connections c
    end in
  (mkConnections active' sessions' tasks', cancelled).

(** [ConnectionManager.get_session_id]. *)
Definition get_session_id (websocket : string) (c : Connections) : option string :=
  connection_sessions c !! websocket.

(** [ConnectionManager.send_personal_message]; [send_text ws] is how the
    awaited [send_text] on socket [ws] ends. The second component is the
    socket written to, if any. *)
Definition send_personal_message (send_text : string -> Awaited unit)
    (client_id : string) (c : Connections)
    : Connections * option string * Awaited unit :=
  match active_connections c !! client_id with
  | Some ws =>
      match send_text ws with
      | Return _ => (c, Some ws, Return tt)
      | Raise CancelledError => (c, Some ws, Raise CancelledError)
      | Raise _ =>
          ((disconnect (fun _ => false) None (Some client_id) c).1, Some ws, Return tt)
      end
  | None => (c, None, Return tt)
  end.

(** ** Query processing (websocket_server.py, lines 890-1052) *)

(** The messages [StreamingCallbackHandler] hands to [send_message]. The
    [timestamp] field (the event loop's clock) is left out, and so is the
    [message] text of a routing notification, which repeats the agent
    name. A failure to deliver is caught inside [send_message]. *)
Inductive WsMessage :=
  | StatusMsg (status message : string)
  | AgentRoutingMsg (agent : string)
  | FinalResponseMsg (content agent : string)
  | ErrorMsg (message : string).

(** The dictionary a processed query returns (token usage left out). *)
Record QueryResponse := mkQueryResponse {
  response : ExecResult;
  agent_used : string;
  response_message : string;
  response_session_id : option string
}.

(** [str(e)] of a caught exception. *)
Definition py_str (e : PyException) : string :=
  match e with
  | Exception msg => msg
  | _ => ""
  end.

(** The keys of [manager.sub_agents]: the dictionary built by
    [create_sub_agents] has the single key ["user_agent"]. *)
Definition has_sub_agent (m : MCPClientManager) (key : string) : bool :=
  match sub_agents m with
  | Some _ => String.eqb key "user_agent"
  | None => false
  end.

(** The result object as [process_query_with_streaming] sees it: lines
    781-786 have attached the extracted fields to it, so [str(result)] may
    have changed; [r] is its value now. *)
Definition with_repr (r : string) (res : AgentResult) : AgentResult :=
  match res with
  | ResultDict output content text _ => ResultDict output content text r
  | ResultObject content output text _ => ResultObject content output text r
  end.

(** The result carries a text of its own, so that
    [_extract_response_content] does not fall back on [str(result)]. *)
Definition has_text (res : AgentResult) : bool :=
  match res with
  | ResultDict output content text _ => truthy output || truthy content || truthy text
  | ResultObject content output text _ =>
      match content, output, text with
      | None, None, None => false
      | _, _, _ => true
      end
  end.

(** Lines 990-1040: from the "executing" status on, for the selected agent
    type; [shown_repr] is [str(result)] of the returned result. The billing
    update is a fire-and-forget database task. *)
Definition run_selected (shown_repr : string) (agent : Agent)
    (agent_type query : string)
    (sid : option string) (aid wid : option Z) (clk_user clk_bot : Readings)
    (sent : list WsMessage) (es : ExecState)
    : list WsMessage * ExecState * Awaited (option QueryResponse) :=
  let sent := sent ++ [StatusMsg "executing"
                         ("Executing with " +:+ agent_type +:+ " agent...")] in
  match execute_agent_with_context agent query sid aid wid clk_user clk_bot es with
  | (es', Return res) =>
      let response_text :=
        _extract_response_content (with_repr shown_repr (result res)) in
      (sent ++ [FinalResponseMsg response_text agent_type;
                StatusMsg "completed"
                  ("Query completed by " +:+ agent_type +:+ " agent")],
       es',
       Return (Some (mkQueryResponse res agent_type
                       ("Response generated by " +:+ agent_type +:+ " agent") sid)))
  | (es', Raise CancelledError) =>
      (sent ++ [StatusMsg "cancelled" "Query processing was cancelled"],
       es', Raise CancelledError)
  | (es', Raise e) =>
      (sent ++ [ErrorMsg ("Error processing query: " +:+ py_str e)], es', Return None)
  end.

(** The text of the [TypeError] CPython raises for [x in None]. *)
Definition none_not_iterable : string :=
  "argument of type 'NoneType' is not iterable".

(** [process_query_with_streaming] for a manager [m] whose selected agent
    behaves as [agent]; [shown_repr] as in [run_selected]. The result is the
    messages handed to [send_message], the state left, and what the
    coroutine returns ([Return None] for [return None]) or raises. A
    cancellation reaches the coroutine, if at all, while the agent call is
    awaited, as in [execute_agent_with_context]. *)
Definition process_query_with_streaming (shown_repr : string) (agent : Agent)
    (m : MCPClientManager) (query : string) (agent_type sid : option string) (aid wid : option Z)
    (clk_user clk_bot : Readings) (es : ExecState)
    : list WsMessage * ExecState * Awaited (option QueryResponse) :=
  let sent := [StatusMsg "processing" "Processing your query..."] in
  if truthy agent_type then
    let ty := default "" agent_type in
    match sub_agents m with
    | None =>
        (sent ++ [ErrorMsg ("Error processing query: " +:+ none_not_iterable)],
         es, Return None)
    | Some _ =>
        if has_sub_agent m ty then
          run_selected shown_repr agent ty query sid aid wid clk_user clk_bot
            (sent ++ [AgentRoutingMsg ty]) es
        else
          (sent ++ [ErrorMsg ("Agent '" +:+ ty +:+ "' not found")], es, Return None)
    end
  else
    let sent := sent ++ [StatusMsg "routing" "Routing to your personalized agent..."] in
    if has_sub_agent m "user_agent" then
      run_selected shown_repr agent "user_agent" query sid aid wid clk_user clk_bot
        (sent ++ [AgentRoutingMsg "user_agent"]) es
    else (sent ++ [ErrorMsg "User agent not initialized"], es, Return None).

(** The messages that close a query: the final response, an error, or the
    notice of cancellation. *)
Definition is_terminal (msg : WsMessage) : bool :=
  match msg with
  | FinalResponseMsg _ _ | ErrorMsg _ => true
  | StatusMsg status _ => String.eqb status "cancelled"
  | AgentRoutingMsg _ => false
  end.

(** An agent that fails with an error of its own. *)
Definition failing_agent : Agent :=
  fun q => mkRun [] (Raise (Exception "rate limited")).

(** One socket with a running task for its session, and a second socket. *)
Definition two_sockets : Connections :=
  mkConnections ∅ {[ "ws1" := "s1"; "ws2" := "s2" ]}
                (register_task "s2" "Task-9" (register_task "s1" "Task-7"
                   (mkConnectionManager ∅))).

(** A socket on which every write fails. *)
Definition closed_socket : string -> Awaited unit :=
  fun _ => Raise (Exception "connection closed").

(** The active-connection table after [disconnect]. *)
Definition active_after (cid : option string) (c : Connections) : gmap string string :=
  match cid with
  | Some k =>
      if nonempty k && bool_decide (is_Some (active_connections c !! k))
      then delete k (active_connections c)
      else active_connections c
  | None => active_connections c
  end.

(** * Properties *)

(** ** Bounded history *)

Section BoundedHistory.
Context {A : Type}.
Implicit Types l : list A.

Lemma slice_last_drop k l :
  (0 < k)%nat -> slice_last k l = drop (length l - k) l.
Proof. intros Hk. destruct k; [lia|done]. Qed.

Lemma slice_last_short k l : (length l <= k)%nat -> slice_last k l = l.
Proof.
  intros Hle. destruct k as [|k]; [done|].
  rewrite slice_last_drop by lia.
  replace (length l - S k)%nat with 0%nat by lia. done.
Qed.

Lemma slice_last_length k l :
  (0 < k)%nat -> length (slice_last k l) = Nat.min k (length l).
Proof.
  intros Hk. rewrite slice_last_drop by done.
  rewrite length_drop. lia.
Qed.

Lemma slice_last_app_slice k l l' :
  (0 < k)%nat -> slice_last k (slice_last k l ++ l') = slice_last k (l ++ l').
Proof.
  intros Hk. rewrite !slice_last_drop by done.
  rewrite !length_app, length_drop.
  destruct (decide (length l <= k)%nat) as [Hle|Hgt].
  - replace (length l - k)%nat with 0%nat by lia. simpl.
    by rewrite Nat.sub_0_r.
  - replace (length l - (length l - k) + length l' - k)%nat
      with (length l') by lia.
    replace (length l + length l' - k)%nat
      with ((length l - k) + length l')%nat by lia.
    rewrite <- drop_drop. rewrite (drop_app_le l l') by lia. done.
Qed.

End BoundedHistory.

Lemma add_message_messages r c a t_msg t_act s :
  messages (add_message r c a t_msg t_act s)
  = slice_last MAX_CONVERSATION_MESSAGES (messages s ++ [mkMessage r c a t_msg]).
Proof.
  unfold add_message. cbn [messages].
  destruct (Nat.ltb_spec MAX_CONVERSATION_MESSAGES
              (length (messages s ++ [mkMessage r c a t_msg]))) as [Hlt|Hge].
  - done.
  - by rewrite slice_last_short.
Qed.

Lemma append_all_messages aps s :
  messages (append_all aps s)
  = match aps with
    | [] => messages s
    | _ :: _ => slice_last MAX_CONVERSATION_MESSAGES (messages s ++ map message_of aps)
    end.
Proof.
  revert s. induction aps as [|a aps IH]; intros s; [done|].
  change (append_all (a :: aps) s) with (append_all aps (append_one s a)).
  rewrite IH. unfold append_one at 1 2. rewrite add_message_messages.
  fold (message_of a).
  destruct aps as [|b aps]; [done|].
  rewrite slice_last_app_slice by (unfold MAX_CONVERSATION_MESSAGES; lia).
  by rewrite <- app_assoc.
Qed.

Lemma append_all_snoc aps a s :
  append_all (aps ++ [a]) s = append_one (append_all aps s) a.
Proof. unfold append_all. by rewrite fold_left_app. Qed.

Lemma append_all_bounded aps s :
  (length (messages s) <= MAX_CONVERSATION_MESSAGES)%nat ->
  (length (messages (append_all aps s)) <= MAX_CONVERSATION_MESSAGES)%nat.
Proof.
  intros Hs. rewrite append_all_messages. destruct aps; [done|].
  rewrite slice_last_length by (unfold MAX_CONVERSATION_MESSAGES; lia). lia.
Qed.

(** C6. A session that starts within the capacity K = 10 (every session
    starts empty) never holds more than K messages, whatever is appended
    and at every point of the sequence; each append stores its clock reading
    in [last_activity]; and after more than K appends the session holds
    exactly K messages, the K most recently appended ones in their order. *)
Theorem bounded_history (s : ConversationSession) (aps : list Append) :
  (length (messages s) <= MAX_CONVERSATION_MESSAGES)%nat ->
  (forall n, (length (messages (append_all (take n aps) s))
              <= MAX_CONVERSATION_MESSAGES)%nat) /\
  (forall n a, aps !! n = Some a ->
     last_activity (append_all (take (S n) aps) s) = ap_t_act a) /\
  ((MAX_CONVERSATION_MESSAGES < length aps)%nat ->
     length (messages (append_all aps s)) = MAX_CONVERSATION_MESSAGES /\
     messages (append_all aps s)
     = drop (length aps - MAX_CONVERSATION_MESSAGES) (map message_of aps)).
Proof.
  intros Hs. split; [|split].
  - intros n. by apply append_all_bounded.
  - intros n a Hn. rewrite (take_S_r _ _ _ Hn), append_all_snoc. done.
  - intros Hlen. rewrite append_all_messages.
    destruct aps as [|a0 aps0] eqn:E; [simpl in Hlen; lia|]. rewrite <- E in *.
    assert (HK : (0 < MAX_CONVERSATION_MESSAGES)%nat)
      by (unfold MAX_CONVERSATION_MESSAGES; lia).
    split.
    + rewrite slice_last_length by done.
      rewrite length_app, length_map. lia.
    + rewrite slice_last_drop by done.
      rewrite length_app, length_map.
      replace (length (messages s) + length aps - MAX_CONVERSATION_MESSAGES)%nat
        with (length (messages s) + (length aps - MAX_CONVERSATION_MESSAGES))%nat
        by lia.
      rewrite <- drop_drop. rewrite drop_app_length. done.
Qed.

Lemma bounded_history_witness :
  (length (messages (new_session "s" 0 0)) <= MAX_CONVERSATION_MESSAGES)%nat /\
  length (messages (append_all eleven_appends (new_session "s" 0 0)))
  = MAX_CONVERSATION_MESSAGES /\
  messages (append_all eleven_appends (new_session "s" 0 0))
  = drop 1 (map message_of eleven_appends).
Proof.
  split; [simpl; lia|].
  apply (bounded_history (new_session "s" 0 0) eleven_appends);
    [simpl; lia | vm_compute; lia].
Defined.

(** ** Context rendering *)

Lemma fold_left_snoc_map {A B : Type} (f : A -> B) (l : list A) (acc : list B) :
  fold_left (fun parts x => parts ++ [f x]) l acc = acc ++ map f l.
Proof.
  revert acc. induction l as [|x l IH]; intros acc; simpl.
  - by rewrite app_nil_r.
  - rewrite IH. by rewrite <- app_assoc.
Qed.

Lemma get_context_string_render s :
  messages s <> [] ->
  get_context_string s
  = String.concat nl
      (["Previous conversation context:"]
       ++ map context_line
              (drop (length (messages s) - MAX_CONVERSATION_MESSAGES) (messages s))
       ++ ["---"]).
Proof.
  intros Hne. unfold get_context_string.
  destruct (messages s) as [|m ms] eqn:E; [done|].
  rewrite fold_left_snoc_map.
  rewrite slice_last_drop by (unfold MAX_CONVERSATION_MESSAGES; lia).
  by rewrite <- app_assoc.
Qed.

Lemma nonempty_true s : nonempty s = true <-> s <> "".
Proof.
  unfold nonempty. destruct (String.eqb_spec s ""); simpl; split; congruence.
Qed.

Lemma get_context_string_nonempty s :
  messages s <> [] -> get_context_string s <> "".
Proof.
  intros Hne. unfold get_context_string.
  destruct (messages s) as [|m ms] eqn:E; [done|].
  rewrite fold_left_snoc_map. cbn [app String.concat].
  destruct (map context_line _ ++ ["---"]) eqn:E'.
  - by destruct (map context_line _).
  - discriminate.
Qed.

Lemma session_add_message_lookup sid r c a clk cm :
  sessions (session_add_message sid r c a clk cm).1 !! sid
  = Some (session_add_message sid r c a clk cm).2.
Proof.
  unfold session_add_message.
  destruct (get_or_create_session _ _ _ _) as [cm1 session].
  cbn. by rewrite lookup_insert_eq.
Qed.

(** The session object [session_add_message] works on: the one stored
    under [sid], or a fresh one. *)
Lemma session_add_message_messages sid r c a clk cm :
  messages (session_add_message sid r c a clk cm).2
  = slice_last MAX_CONVERSATION_MESSAGES
      (match sessions cm !! sid with
       | Some s => messages s
       | None => []
       end ++ [mkMessage r c a (r_msg clk)]).
Proof.
  unfold session_add_message, get_or_create_session.
  destruct (sessions cm !! sid) eqn:E; cbn [fst snd];
    by rewrite add_message_messages.
Qed.

Lemma slice_last_app_tail {A : Type} (k : nat) (l t : list A) :
  (0 < k)%nat -> (length t <= k)%nat ->
  exists pre, slice_last k (l ++ t) = pre ++ t.
Proof.
  intros Hk Ht. rewrite slice_last_drop by done. rewrite length_app.
  exists (drop (length l + length t - k) l).
  apply drop_app_le. lia.
Qed.

Lemma session_add_message_ends sid r c a clk cm :
  exists pre,
    messages (session_add_message sid r c a clk cm).2
    = pre ++ [mkMessage r c a (r_msg clk)].
Proof.
  rewrite session_add_message_messages.
  apply slice_last_app_tail; unfold MAX_CONVERSATION_MESSAGES; simpl; lia.
Qed.

Lemma prepare_execution_with_session query sid aid wid clk es :
  nonempty sid = true ->
  let session :=
    (session_add_message sid "user" query None clk (exec_conversations es)).2 in
  exec_conversations (prepare_execution query (Some sid) aid wid clk es).1
  = (session_add_message sid "user" query None clk (exec_conversations es)).1 /\
  (prepare_execution query (Some sid) aid wid clk es).2
  = contextual_query_of (get_context_string session) query.
Proof.
  intros Hsid. unfold prepare_execution. rewrite Hsid.
  destruct (session_add_message _ _ _ _ _ _) as [cm session]. done.
Qed.

Lemma string_app_assoc (a b c : string) : (a +:+ b) +:+ c = a +:+ (b +:+ c).
Proof.
  induction a as [|x a IH]; [done|].
  change (String x ((a +:+ b) +:+ c) = String x (a +:+ (b +:+ c))). by rewrite IH.
Qed.

(** The line of a message, spelled out. *)
Lemma context_line_spelled msg :
  context_line msg
  = if String.eqb (role msg) "user" then "User: " +:+ content msg
    else
      match agent_type msg with
      | Some a =>
          if String.eqb a "" then "Assistant: " +:+ content msg
          else "Assistant (" +:+ a +:+ " agent): " +:+ content msg
      | None => "Assistant: " +:+ content msg
      end.
Proof.
  unfold context_line, nonempty. destruct (String.eqb (role msg) "user"); [done|].
  destruct (agent_type msg) as [a|]; [|done].
  destruct (String.eqb a ""); [done|]. cbn [negb].
  rewrite !string_app_assoc. reflexivity.
Qed.

(** C8, as the code has it. [get_context_string] is the empty string for a
    session without messages; otherwise it is the header line
    ["Previous conversation context:"], one line for each of the last ten
    messages in their order (["User: "] and the content for a message of
    role ["user"]; otherwise ["Assistant"], the agent type in the form
    [" (... agent)"] when there is one, [": "] and the content), and the
    closing line ["---"], joined by line feeds. When
    [execute_agent_with_context] is called with a non-empty session id, the
    user's message is appended to the session first, so the rendered context
    is never empty and already ends with that message; the agent is invoked
    on that context string, two line feeds, the text
    ["Current user message: "] and the user's query. *)
Theorem context_prepended (s : ConversationSession) (agent : Agent)
    (query sid : string) (aid wid : option Z) (clk_user clk_bot : Readings)
    (es : ExecState) :
  (messages s = [] -> get_context_string s = "") /\
  (messages s <> [] ->
     get_context_string s
     = String.concat nl
         (["Previous conversation context:"]
          ++ map (fun msg =>
                  if String.eqb (role msg) "user" then "User: " +:+ content msg
                  else
                    match agent_type msg with
                    | Some a =>
                        if String.eqb a "" then "Assistant: " +:+ content msg
                        else "Assistant (" +:+ a +:+ " agent): " +:+ content msg
                    | None => "Assistant: " +:+ content msg
                    end)
               (drop (length (messages s) - 10) (messages s))
          ++ ["---"])) /\
  (nonempty sid = true ->
     let prepared := prepare_execution query (Some sid) aid wid clk_user es in
     exists session,
       sessions (exec_conversations prepared.1) !! sid = Some session /\
       (exists pre,
          messages session = pre ++ [mkMessage "user" query None (r_msg clk_user)]) /\
       get_context_string session <> "" /\
       let q := get_context_string session +:+ nl +:+ nl
                +:+ "Current user message: " +:+ query in
       prepared.2 = q /\
       execute_agent_with_context agent query (Some sid) aid wid clk_user clk_bot es
       = finish_execution (Some sid) (agent q) clk_bot prepared.1).
Proof.
  split; [|split].
  - intros E. unfold get_context_string. by rewrite E.
  - intros Hne. rewrite (get_context_string_render s Hne). do 2 f_equal.
    f_equal. apply map_ext. intros msg. apply context_line_spelled.
  - intros Hsid prepared.
    destruct (prepare_execution_with_session query sid aid wid clk_user es Hsid)
      as [Hcm Hq].
    set (session := (session_add_message sid "user" query None clk_user
                       (exec_conversations es)).2) in *.
    destruct (session_add_message_ends sid "user" query None clk_user
                (exec_conversations es)) as [pre Hpre].
    fold session in Hpre.
    assert (Hctx : get_context_string session <> "").
    { apply get_context_string_nonempty. rewrite Hpre. by destruct pre. }
    exists session. split; [|split; [by exists pre|split; [exact Hctx|]]].
    + subst prepared. rewrite Hcm. apply session_add_message_lookup.
    + intros q.
      assert (Hq' : prepared.2 = q).
      { subst prepared q. rewrite Hq. unfold contextual_query_of.
        apply nonempty_true in Hctx. by rewrite Hctx. }
      split; [done|].
      unfold execute_agent_with_context. fold prepared.
      destruct prepared as [es1 q1]. simpl in Hq'. by subst q1.
Qed.

Lemma context_prepended_witness :
  get_context_string one_exchange
  = "Previous conversation context:" +:+ nl +:+ "User: hi" +:+ nl
    +:+ "Assistant (user_agent agent): hello" +:+ nl +:+ "---" /\
  (prepare_execution "and now?" (Some "s1") None None noon idle_state).2
  = "Previous conversation context:" +:+ nl +:+ "User: hi" +:+ nl
    +:+ "Assistant (user_agent agent): hello" +:+ nl +:+ "User: and now?" +:+ nl
    +:+ "---" +:+ nl +:+ nl +:+ "Current user message: and now?".
Proof.
  destruct (context_prepended one_exchange echo_agent "and now?" "s1"
              None None noon later idle_state) as (_ & H2 & H3).
  split.
  - rewrite H2 by discriminate. vm_compute. reflexivity.
  - destruct (H3 eq_refl) as (session & Hs & _ & _ & Hq & _).
    rewrite Hq.
    assert (E : session
                = mkSession "s1"
                    [mkMessage "user" "hi" None 1;
                     mkMessage "assistant" "hello" (Some "user_agent") 2;
                     mkMessage "user" "and now?" None 12] 0 13).
    { assert (E' : sessions (exec_conversations
                     (prepare_execution "and now?" (Some "s1") None None noon
                        idle_state).1) !! "s1"
                   = Some (mkSession "s1"
                             [mkMessage "user" "hi" None 1;
                              mkMessage "assistant" "hello" (Some "user_agent") 2;
                              mkMessage "user" "and now?" None 12] 0 13))
        by (vm_compute; reflexivity).
      rewrite E' in Hs. by injection Hs as <-. }
    rewrite E. vm_compute. reflexivity.
Defined.

(** C8, as stated, fails: the query given to the agent is not the context
    string directly followed by the user's query. For the query
    ["and now?"] in a session holding one exchange, the context already
    holds the line of the query itself, and the agent receives the context,
    two line feeds, the text ["Current user message: "] and the query. *)
Lemma context_is_followed_by_a_separator :
  (prepare_execution "and now?" (Some "s1") None None noon idle_state).2
  = "Previous conversation context:" +:+ nl +:+ "User: hi" +:+ nl
    +:+ "Assistant (user_agent agent): hello" +:+ nl +:+ "User: and now?" +:+ nl
    +:+ "---" +:+ nl +:+ nl +:+ "Current user message: and now?" /\
  from_option get_context_string ""
    (sessions (exec_conversations
                 (prepare_execution "and now?" (Some "s1") None None noon
                    idle_state).1) !! "s1")
  = "Previous conversation context:" +:+ nl +:+ "User: hi" +:+ nl
    +:+ "Assistant (user_agent agent): hello" +:+ nl +:+ "User: and now?" +:+ nl
    +:+ "---" /\
  (prepare_execution "and now?" (Some "s1") None None noon idle_state).2
  <> from_option get_context_string ""
       (sessions (exec_conversations
                    (prepare_execution "and now?" (Some "s1") None None noon
                       idle_state).1) !! "s1")
     +:+ "and now?".
Proof.
  assert (E1 : (prepare_execution "and now?" (Some "s1") None None noon idle_state).2
               = "Previous conversation context:" +:+ nl +:+ "User: hi" +:+ nl
                 +:+ "Assistant (user_agent agent): hello" +:+ nl
                 +:+ "User: and now?" +:+ nl
                 +:+ "---" +:+ nl +:+ nl +:+ "Current user message: and now?")
    by (vm_compute; reflexivity).
  assert (E2 : from_option get_context_string ""
                 (sessions (exec_conversations
                              (prepare_execution "and now?" (Some "s1") None None
                                 noon idle_state).1) !! "s1")
               = "Previous conversation context:" +:+ nl +:+ "User: hi" +:+ nl
                 +:+ "Assistant (user_agent agent): hello" +:+ nl
                 +:+ "User: and now?" +:+ nl +:+ "---")
    by (vm_compute; reflexivity).
  split; [exact E1|]. split; [exact E2|].
  rewrite E1, E2. vm_compute. discriminate.
Qed.

(** ** Expiry sweep *)

Lemma fold_left_delete_lookup {V : Type} (l : list string) (m : gmap string V) k :
  fold_left (fun acc sid => delete sid acc) l m !! k
  = if bool_decide (k ∈ l) then None else m !! k.
Proof.
  revert m. induction l as [|x l IH]; intros m; simpl.
  - done.
  - rewrite IH. destruct (decide (k = x)) as [->|Hne].
    + rewrite lookup_delete_eq.
      rewrite (bool_decide_eq_true_2 (x ∈ x :: l)); [|by left].
      by destruct (bool_decide (x ∈ l)).
    + rewrite lookup_delete_ne by done.
      destruct (decide (k ∈ l)) as [Hin|Hnin].
      * rewrite !bool_decide_eq_true_2; [done|by right|done].
      * rewrite !bool_decide_eq_false_2; [done| |done].
        intros Hin. apply elem_of_cons in Hin as [?|?]; done.
Qed.

Lemma elem_of_expired_sessions now cm sid :
  sid ∈ expired_sessions now cm
  <-> exists s, sessions cm !! sid = Some s /\ is_expired now s = true.
Proof.
  unfold expired_sessions. rewrite list_elem_of_In, in_map_iff. split.
  - intros ([k s] & <- & Hin). apply filter_In in Hin as [Hin Hexp].
    apply list_elem_of_In, elem_of_map_to_list in Hin. eauto.
  - intros (s & Hs & Hexp). exists (sid, s). split; [done|].
    apply filter_In. split; [|done].
    by apply list_elem_of_In, elem_of_map_to_list.
Qed.

Lemma cleanup_expired_sessions_lookup now cm sid :
  sessions (cleanup_expired_sessions now cm) !! sid
  = match sessions cm !! sid with
    | Some s => if is_expired now s then None else Some s
    | None => None
    end.
Proof.
  unfold cleanup_expired_sessions. cbn [sessions].
  rewrite fold_left_delete_lookup.
  destruct (sessions cm !! sid) as [s|] eqn:E.
  - destruct (is_expired now s) eqn:Hexp.
    + rewrite bool_decide_eq_true_2; [done|].
      apply elem_of_expired_sessions. eauto.
    + rewrite bool_decide_eq_false_2; [done|].
      rewrite elem_of_expired_sessions. intros (s' & Hs' & Hexp'). congruence.
  - rewrite bool_decide_eq_false_2; [done|].
    rewrite elem_of_expired_sessions. intros (s' & Hs' & _). congruence.
Qed.

(** C9, as the code has it. The sweep removes exactly the sessions whose
    [last_activity] lies more than 24 hours before the clock reading, and
    keeps every other session unchanged; the table of in-flight tasks is not
    consulted, so a registered task does not protect an expired session. *)
Theorem sweep_removes_exactly_expired (now : Z) (cm : ConversationManager)
    (c : ConnectionManager) (sid : string) :
  sessions (cleanup_expired_sessions now cm) !! sid
  = match sessions cm !! sid with
    | Some s =>
        if bool_decide (now - last_activity s > timedelta_hours 24)%Z
        then None else Some s
    | None => None
    end
  /\ (forall s, sessions cm !! sid = Some s ->
        (now - last_activity s > timedelta_hours 24)%Z ->
        in_flight sid c ->
        sessions (cleanup_expired_sessions now cm) !! sid = None).
Proof.
  split.
  - apply cleanup_expired_sessions_lookup.
  - intros s Hs Hold _. rewrite cleanup_expired_sessions_lookup, Hs.
    unfold is_expired. by rewrite bool_decide_eq_true_2.
Qed.

(** C9, as stated, fails: a session with a registered in-flight task and a
    [last_activity] older than 24 hours is removed by the sweep. *)
Lemma sweep_removes_in_flight_session :
  in_flight "s1" busy /\
  is_Some (sessions stale !! "s1") /\
  sessions (cleanup_expired_sessions next_day stale) !! "s1" = None.
Proof.
  split; [|split].
  - unfold in_flight, busy, register_task. cbn. rewrite lookup_insert_eq. eauto.
  - unfold stale. cbn. rewrite lookup_singleton_eq. eauto.
  - rewrite cleanup_expired_sessions_lookup. unfold stale. cbn.
    rewrite lookup_singleton_eq. reflexivity.
Qed.

Lemma sweep_removes_exactly_expired_witness :
  sessions stale !! "s1" = Some (mkSession "s1" [mkMessage "user" "hi" None 0] 0 0) /\
  (next_day - 0 > timedelta_hours 24)%Z /\
  in_flight "s1" busy /\
  sessions (cleanup_expired_sessions next_day stale) !! "s1" = None.
Proof.
  assert (Hs : sessions stale !! "s1"
               = Some (mkSession "s1" [mkMessage "user" "hi" None 0] 0 0))
    by (unfold stale; cbn; apply lookup_singleton_eq).
  assert (Hf : in_flight "s1" busy)
    by (unfold in_flight, busy, register_task; cbn;
        rewrite lookup_insert_eq; eauto).
  split; [exact Hs|]. split; [vm_compute; reflexivity|]. split; [exact Hf|].
  apply (proj2 (sweep_removes_exactly_expired next_day stale busy "s1") _ Hs);
    [vm_compute; reflexivity | exact Hf].
Defined.

(** ** Registry build *)

Lemma load_server_all_tools servers m cfg :
  all_tools (load_server servers m cfg) = all_tools m ++ discovered servers cfg.
Proof.
  unfold load_server, discovered.
  destruct (servers cfg); cbn; by rewrite ?app_nil_r.
Qed.

Lemma load_server_stack servers m cfg :
  stack (load_server servers m cfg)
  = option_map (fun l => l ++ spawns_of servers cfg) (stack m).
Proof.
  unfold load_server, spawns_of.
  destruct (servers cfg); cbn; try done.
  destruct (stack m); cbn; by rewrite ?app_nil_r.
Qed.

Lemma load_server_flag servers m cfg :
  _is_initializing (load_server servers m cfg) = _is_initializing m.
Proof. unfold load_server. by destruct (servers cfg). Qed.

Lemma load_servers_all_tools servers cfgs m :
  all_tools (load_servers servers cfgs m)
  = all_tools m ++ flat_map (discovered servers) cfgs.
Proof.
  revert m. induction cfgs as [|cfg cfgs IH]; intros m; simpl.
  - by rewrite app_nil_r.
  - unfold load_servers in *. simpl. rewrite IH, load_server_all_tools.
    by rewrite <- app_assoc.
Qed.

Lemma load_servers_stack servers cfgs m :
  stack (load_servers servers cfgs m)
  = option_map (fun l => l ++ flat_map (spawns_of servers) cfgs) (stack m).
Proof.
  revert m. induction cfgs as [|cfg cfgs IH]; intros m; simpl.
  - destruct (stack m); cbn; by rewrite ?app_nil_r.
  - unfold load_servers in *. simpl. rewrite IH, load_server_stack.
    destruct (stack m); cbn; by rewrite <- ?app_assoc.
Qed.

Lemma build_registry_all_tools servers cfgs m :
  all_tools (build_registry servers cfgs (reset_state m)).1
  = flat_map (discovered servers) cfgs.
Proof. unfold build_registry. cbn [fst]. by rewrite load_servers_all_tools. Qed.

Lemma build_registry_outcome servers cfgs m :
  (build_registry servers cfgs (reset_state m)).2
  = match flat_map (discovered servers) cfgs with
    | [] => Raise (Exception no_tools_message)
    | _ :: _ => Return tt
    end.
Proof.
  unfold build_registry, check_tools. cbn [snd].
  by rewrite load_servers_all_tools.
Qed.





(** ** Duplicate operation names *)

Lemma occurrences_app n l1 l2 :
  occurrences n (l1 ++ l2) = (occurrences n l1 + occurrences n l2)%nat.
Proof. unfold occurrences. by rewrite filter_app, length_app. Qed.

Lemma occurrences_pos n tools :
  n ∈ map name tools -> (1 <= occurrences n tools)%nat.
Proof.
  unfold occurrences. induction tools as [|t tools IH]; simpl.
  - intros H. by apply elem_of_nil in H.
  - intros H. rewrite filter_cons. apply elem_of_cons in H as [->|H].
    + rewrite decide_True by done. simpl. lia.
    + specialize (IH H). destruct (decide (name t = n)); simpl; lia.
Qed.

Lemma occurrences_flat_map_lookup servers cfgs i cfg n :
  cfgs !! i = Some cfg ->
  occurrences n (flat_map (discovered servers) cfgs)
  = (occurrences n (flat_map (discovered servers) (take i cfgs))
     + occurrences n (discovered servers cfg)
     + occurrences n (flat_map (discovered servers) (drop (S i) cfgs)))%nat.
Proof.
  intros Hi. rewrite <- (take_drop_middle cfgs i cfg Hi) at 1.
  rewrite flat_map_app. simpl. rewrite !occurrences_app. lia.
Qed.

Lemma occurrences_two servers cfgs i j ci cj n :
  (i < j)%nat ->
  cfgs !! i = Some ci -> cfgs !! j = Some cj ->
  (occurrences n (discovered servers ci) + occurrences n (discovered servers cj)
   <= occurrences n (flat_map (discovered servers) cfgs))%nat.
Proof.
  intros Hij Hi Hj.
  rewrite (occurrences_flat_map_lookup servers cfgs i ci n Hi).
  assert (Hj' : drop (S i) cfgs !! (j - S i)%nat = Some cj).
  { rewrite lookup_drop. replace (S i + (j - S i))%nat with j by lia. done. }
  rewrite (occurrences_flat_map_lookup servers (drop (S i) cfgs) _ cj n Hj').
  lia.
Qed.

(** C3, as the code has it. The build has no duplicate check: when two
    different configs both load a tool with the same name, the build
    succeeds and the aggregate holds every loaded tool, so that name occurs
    in it at least twice. *)
Theorem duplicate_names_are_aggregated (servers : Servers)
    (cfgs : list ServerConfig) (m : MCPClientManager)
    (i j : nat) (ci cj : ServerConfig) (ti tj : list Tool) (n : string) :
  i <> j ->
  cfgs !! i = Some ci -> cfgs !! j = Some cj ->
  servers ci = Loads ti -> servers cj = Loads tj ->
  n ∈ map name ti -> n ∈ map name tj ->
  let built := build_registry servers cfgs (reset_state m) in
  built.2 = Return tt /\
  all_tools built.1 = flat_map (discovered servers) cfgs /\
  (2 <= occurrences n (all_tools built.1))%nat.
Proof.
  intros Hij Hi Hj Hci Hcj Hni Hnj built. subst built.
  rewrite build_registry_all_tools, build_registry_outcome.
  assert (Hdi : discovered servers ci = ti) by (unfold discovered; by rewrite Hci).
  assert (Hdj : discovered servers cj = tj) by (unfold discovered; by rewrite Hcj).
  assert (Hocc : (2 <= occurrences n (flat_map (discovered servers) cfgs))%nat).
  { pose proof (occurrences_pos n ti Hni). pose proof (occurrences_pos n tj Hnj).
    destruct (Nat.lt_total i j) as [Hlt|[Heq|Hgt]]; [|done|].
    - pose proof (occurrences_two servers cfgs i j ci cj n Hlt Hi Hj).
      rewrite Hdi, Hdj in *. lia.
    - pose proof (occurrences_two servers cfgs j i cj ci n Hgt Hj Hi).
      rewrite Hdi, Hdj in *. lia. }
  split; [|split; [done|exact Hocc]].
  destruct (flat_map (discovered servers) cfgs); [|done].
  unfold occurrences in Hocc. simpl in Hocc. lia.
Qed.

Lemma duplicate_names_are_aggregated_witness :
  (build_registry two_senders [cfg_a; cfg_b] (reset_state manager_init)).2 = Return tt /\
  (2 <= occurrences "send"
          (all_tools (build_registry two_senders [cfg_a; cfg_b]
                        (reset_state manager_init)).1))%nat.
Proof.
  destruct (duplicate_names_are_aggregated two_senders [cfg_a; cfg_b] manager_init
              0 1 cfg_a cfg_b [send_tool] [send_tool] "send") as (H1 & _ & H2);
    [lia | reflexivity | reflexivity | reflexivity | reflexivity
     | simpl; by left | simpl; by left | ].
  split; [exact H1 | exact H2].
Defined.

(** C3, as stated, fails: with two configs that both expose [send], the build
    returns normally and the aggregate holds both tools; no exception is
    raised. *)
Lemma duplicate_send_is_not_rejected :
  build_registry two_senders [cfg_a; cfg_b] (reset_state manager_init)
  = (mkManager (Some ["a"; "b"])
               (<["b" := [send_tool]]> (<["a" := [send_tool]]> ∅))
               [send_tool; send_tool] None None false logger_init,
     Return tt).
Proof. reflexivity. Qed.

(** ** Teardown *)

Lemma force_cleanup_stack exit m : stack (_force_cleanup exit m).1.1 = None.
Proof.
  unfold _force_cleanup. destruct (stack m) eqn:E; [|done].
  destruct exit as [?|[| |]]; done.
Qed.

Lemma force_cleanup_swallows exit m :
  exit <> Raise CancelledError -> (_force_cleanup exit m).2 = None.
Proof.
  intros Hexit. unfold _force_cleanup. destruct (stack m); [|done].
  destruct exit as [?|[| |]]; done.
Qed.

Lemma force_cleanup_frame exit m :
  let m' := (_force_cleanup exit m).1.1 in
  server_tools m' = server_tools m /\ all_tools m' = all_tools m /\
  sub_agents m' = sub_agents m /\ agent m' = agent m /\
  _is_initializing m' = _is_initializing m /\ tool_logger m' = tool_logger m.
Proof.
  unfold _force_cleanup. destruct (stack m); [|done].
  destruct exit as [?|[| |]]; done.
Qed.






Lemma cleanup_sleep_swallows tasks sleep :
  sleep <> Raise CancelledError -> (cleanup_sleep tasks sleep).2 = None.
Proof.
  intros Hsleep. unfold cleanup_sleep. destruct (unfinished tasks); [done|].
  destruct sleep as [?|[| |]]; done.
Qed.

(** [cleanup] when neither the wait nor the stack exit is cancelled. *)
Lemma cleanup_swallowed tasks sleep exit now m cm :
  sleep <> Raise CancelledError ->
  exit <> Raise CancelledError ->
  cleanup tasks sleep exit now m cm
  = (reset_state (_force_cleanup exit m).1.1, cleanup_expired_sessions now cm,
     cancelled_tasks tasks,
     (cleanup_sleep tasks sleep).1 ++ (_force_cleanup exit m).1.2, None).
Proof.
  intros Hsleep Hexit. unfold cleanup.
  pose proof (cleanup_sleep_swallows tasks sleep Hsleep) as Hs.
  pose proof (force_cleanup_swallows exit m Hexit) as Hnone.
  destruct (cleanup_sleep tasks sleep) as [warned raised].
  cbn [snd fst] in *. subst raised.
  destruct (_force_cleanup exit m) as [[m' printed] raised].
  cbn [snd fst] in *. by subst raised.
Qed.

(** Nothing of [cleanup] touches the flag. *)
Lemma cleanup_flag tasks sleep exit now m cm :
  _is_initializing (cleanup tasks sleep exit now m cm).1.1.1.1 = _is_initializing m.
Proof.
  unfold cleanup.
  destruct (cleanup_sleep tasks sleep) as [warned [exc|]]; [done|].
  pose proof (force_cleanup_frame exit m) as (_ & _ & _ & _ & Hf & _).
  destruct (_force_cleanup exit m) as [[m' printed] [exc|]]; cbn in *; exact Hf.
Qed.







(** ** The conversation store across an execution *)

(** Appending to a session whose history ends with [m] keeps [m] right
    before the new message: the capacity is at least two. *)
Lemma session_add_message_after sid r c a clk cm s pre m :
  sessions cm !! sid = Some s ->
  messages s = pre ++ [m] ->
  exists pre',
    messages (session_add_message sid r c a clk cm).2
    = pre' ++ [m; mkMessage r c a (r_msg clk)].
Proof.
  intros Hs Hm. rewrite session_add_message_messages, Hs, Hm.
  rewrite <- app_assoc. cbn [app].
  apply slice_last_app_tail; unfold MAX_CONVERSATION_MESSAGES; simpl; lia.
Qed.

Lemma finish_execution_raise sid run clk es e :
  outcome run = Raise e ->
  exec_conversations (finish_execution sid run clk es).1 = exec_conversations es /\
  (finish_execution sid run clk es).2
  = Raise (match e with
           | TimeoutError => Exception "Agent execution timed out after 60 seconds"
           | _ => e
           end).
Proof.
  intros Ho. unfold finish_execution. rewrite Ho.
  destruct e; destruct (_update_pending_tool_activities _ _ _); done.
Qed.

Lemma finish_execution_return sid run clk es res :
  outcome run = Return res ->
  exec_conversations (finish_execution (Some sid) run clk es).1
  = (if nonempty sid && nonempty (_extract_response_content res)
     then (session_add_message sid "assistant" (_extract_response_content res)
             (Some _get_agent_type) clk (exec_conversations es)).1
     else exec_conversations es) /\
  exists tools,
    (finish_execution (Some sid) run clk es).2 = Return (mkExecResult res tools).
Proof.
  intros Ho. unfold finish_execution. rewrite Ho.
  destruct (if bool_decide _ then _ else _) as [lg st]. cbn [fst snd].
  split; [done|]. eauto.
Qed.

(** C10. With a session id, the user's query is the last message of the
    session when the agent is invoked. If the awaited agent call raises
    (timeout, cancellation or any other exception) the execution raises and
    the conversation store is exactly the one the agent was invoked on, user
    message included. If it returns, the assistant's answer is appended right
    after the user message when the extracted response content is not empty,
    and nothing is appended when it is empty. *)
Theorem user_message_is_kept (agent : Agent) (query sid : string)
    (aid wid : option Z) (clk_user clk_bot : Readings) (es : ExecState) :
  nonempty sid = true ->
  let prepared := prepare_execution query (Some sid) aid wid clk_user es in
  let run := agent prepared.2 in
  let final := execute_agent_with_context agent query (Some sid) aid wid
                 clk_user clk_bot es in
  let user_message := mkMessage "user" query None (r_msg clk_user) in
  final = finish_execution (Some sid) run clk_bot prepared.1 /\
  (exists s pre,
     sessions (exec_conversations prepared.1) !! sid = Some s /\
     messages s = pre ++ [user_message]) /\
  (forall e, outcome run = Raise e ->
     (exists e', final.2 = Raise e') /\
     exec_conversations final.1 = exec_conversations prepared.1) /\
  (forall res, outcome run = Return res ->
     (exists tools, final.2 = Return (mkExecResult res tools)) /\
     let response_content := _extract_response_content res in
     if nonempty response_content then
       exists s pre,
         sessions (exec_conversations final.1) !! sid = Some s /\
         messages s
         = pre ++ [user_message;
                   mkMessage "assistant" response_content (Some "user_agent")
                             (r_msg clk_bot)]
     else exec_conversations final.1 = exec_conversations prepared.1).
Proof.
  intros Hsid prepared run final user_message.
  destruct (prepare_execution_with_session query sid aid wid clk_user es Hsid)
    as [Hcm _]. fold prepared in Hcm.
  assert (Hfinal : final = finish_execution (Some sid) run clk_bot prepared.1).
  { subst final run. unfold execute_agent_with_context. fold prepared.
    by destruct prepared. }
  assert (Hprep : exists s pre,
             sessions (exec_conversations prepared.1) !! sid = Some s /\
             messages s = pre ++ [user_message]).
  { rewrite Hcm.
    destruct (session_add_message_ends sid "user" query None clk_user
                (exec_conversations es)) as [pre Hpre].
    eexists _, pre. split; [apply session_add_message_lookup|exact Hpre]. }
  split; [exact Hfinal|]. split; [exact Hprep|]. split.
  - intros e He. rewrite Hfinal.
    destruct (finish_execution_raise (Some sid) run clk_bot prepared.1 e He)
      as [Hc Hr].
    split; [eauto|exact Hc].
  - intros res Hres. rewrite Hfinal.
    destruct (finish_execution_return sid run clk_bot prepared.1 res Hres)
      as [Hc Hr].
    split; [exact Hr|]. intros response_content. fold response_content in Hc.
    rewrite Hsid in Hc. cbn [andb] in Hc.
    destruct (nonempty response_content) eqn:Hne; [|exact Hc].
    destruct Hprep as (s & pre & Hs & Hm).
    destruct (session_add_message_after sid "assistant" response_content
                (Some _get_agent_type) clk_bot (exec_conversations prepared.1)
                s pre user_message Hs Hm) as [pre' Hpre'].
    eexists _, pre'. rewrite Hc.
    split; [apply session_add_message_lookup|exact Hpre'].
Qed.

Lemma user_message_is_kept_witness :
  nonempty "s1" = true /\
  exists s pre,
    sessions (exec_conversations
                (execute_agent_with_context echo_agent "and now?" (Some "s1")
                   None None noon later idle_state).1) !! "s1" = Some s /\
    messages s
    = pre ++ [mkMessage "user" "and now?" None 12;
              mkMessage "assistant" "done" (Some "user_agent") 22].
Proof.
  split; [reflexivity|].
  destruct (user_message_is_kept echo_agent "and now?" "s1" None None noon later
              idle_state eq_refl) as (_ & _ & _ & H).
  destruct (H (ResultDict (Some "done") None None "{...}") eq_refl) as [_ H'].
  exact H'.
Defined.

(** ** Tool-activity tracking *)

Lemma fold_left_preserves {A B : Type} (P : A -> Prop) (f : A -> B -> A)
    (l : list B) (a : A) :
  (forall a b, P a -> P (f a b)) -> P a -> P (fold_left f l a).
Proof.
  intros Hf. revert a. induction l as [|b l IH]; intros a Ha; simpl; auto.
Qed.

Lemma create_tool_activity_ok n args ts :
  tracking_ok ts -> tracking_ok (_create_tool_activity n args ts).
Proof.
  destruct ts as [lg st]. intros [Hdoc Hinj]. unfold _create_tool_activity.
  destruct (logger_agent_id lg) as [aid|]; [|done].
  destruct (logger_workspace_id lg) as [wid|]; [|done].
  destruct (negb (aid =? 0)%Z && negb (wid =? 0)%Z); [|done].
  unfold create_tool_activity. destruct (reachable st) eqn:Hr; [|done].
  cbn in Hdoc, Hinj. split; cbn.
  - intros n' id Hl. destruct (decide (n = n')) as [->|Hne].
    + rewrite lookup_insert_eq in Hl. injection Hl as <-.
      exists (mkActivity aid wid n' args "running" None). split; [|done].
      rewrite lookup_app_r by lia. by rewrite Nat.sub_diag.
    + rewrite lookup_insert_ne in Hl by done.
      destruct (Hdoc n' id Hl) as (doc & Hd & Hs).
      exists doc. split; [|done]. by apply lookup_app_l_Some.
  - intros n1 n2 id H1 H2.
    destruct (decide (n = n1)) as [E1|Hne1]; destruct (decide (n = n2)) as [E2|Hne2].
    + congruence.
    + subst n1. rewrite lookup_insert_eq in H1. injection H1 as <-.
      rewrite lookup_insert_ne in H2 by done.
      destruct (Hdoc n2 _ H2) as (doc & Hd & _).
      apply lookup_lt_Some in Hd. lia.
    + subst n2. rewrite lookup_insert_eq in H2. injection H2 as <-.
      rewrite lookup_insert_ne in H1 by done.
      destruct (Hdoc n1 _ H1) as (doc & Hd & _).
      apply lookup_lt_Some in Hd. lia.
    + rewrite lookup_insert_ne in H1, H2 by done. eauto.
Qed.

Lemma create_tool_activity_reachable n args ts :
  reachable (_create_tool_activity n args ts).2 = reachable ts.2.
Proof.
  destruct ts as [lg st]. unfold _create_tool_activity.
  destruct (logger_agent_id lg) as [aid|]; [|done].
  destruct (logger_workspace_id lg) as [wid|]; [|done].
  destruct (negb (aid =? 0)%Z && negb (wid =? 0)%Z); [|done].
  unfold create_tool_activity. by destruct (reachable st) eqn:Hr.
Qed.

(** What a successful [update_tool_activity] does: the tracked document is
    resolved in place and the name is forgotten. *)
Lemma update_tool_activity_tracked n out st_new lg st id doc :
  reachable st = true ->
  tool_activities lg !! n = Some id ->
  documents st !! id = Some doc ->
  update_tool_activity n out st_new (lg, st)
  = (mkLogger (tools_used lg) (delete n (tool_activities lg))
              (logger_agent_id lg) (logger_workspace_id lg),
     mkStore true (<[id := resolved doc st_new out]> (documents st))
             (update_log st ++ [(id, st_new)])).
Proof.
  intros Hr Hn Hd. unfold update_tool_activity, mongo_update_tool_activity.
  by rewrite Hn, Hr, Hd.
Qed.

Lemma update_tool_activity_untracked n out st_new ts :
  tool_activities ts.1 !! n = None ->
  update_tool_activity n out st_new ts = ts.
Proof.
  destruct ts as [lg st]. cbn. intros Hn.
  unfold update_tool_activity. by rewrite Hn.
Qed.

Lemma update_tool_activity_ok n out st_new ts :
  tracking_ok ts -> tracking_ok (update_tool_activity n out st_new ts).
Proof.
  destruct ts as [lg st]. intros [Hdoc Hinj]. cbn in Hdoc, Hinj.
  destruct (tool_activities lg !! n) as [id|] eqn:Hn;
    [|by rewrite update_tool_activity_untracked].
  destruct (reachable st) eqn:Hr.
  2:{ unfold update_tool_activity, mongo_update_tool_activity.
      rewrite Hn, Hr. by split. }
  destruct (Hdoc n id Hn) as (doc & Hd & _).
  rewrite (update_tool_activity_tracked n out st_new lg st id doc) by done.
  split; cbn.
  - intros n' id' Hl. apply lookup_delete_Some in Hl as [Hne Hl].
    destruct (Hdoc n' id' Hl) as (doc' & Hd' & Hs').
    exists doc'. split; [|done].
    rewrite list_lookup_insert_ne; [done|].
    intros ->. apply Hne. eauto.
  - intros n1 n2 id' H1 H2.
    apply lookup_delete_Some in H1 as [_ H1].
    apply lookup_delete_Some in H2 as [_ H2]. eauto.
Qed.

Lemma update_tool_activity_reachable n out st_new ts :
  reachable (update_tool_activity n out st_new ts).2 = reachable ts.2.
Proof.
  destruct ts as [lg st]. unfold update_tool_activity, mongo_update_tool_activity.
  destruct (tool_activities lg !! n); [|done].
  destruct (reachable st) eqn:Hr; [|by rewrite ?Hr].
  by destruct (documents st !! _).
Qed.

Lemma record_tool_call_ok fc ts : tracking_ok ts -> tracking_ok (record_tool_call fc ts).
Proof.
  intros Hok. unfold record_tool_call. destruct (fc_name fc) as [n|]; [|done].
  destruct ts as [lg st]. apply create_tool_activity_ok.
  by destruct (bool_decide _).
Qed.

Lemma record_tool_call_reachable fc ts :
  reachable (record_tool_call fc ts).2 = reachable ts.2.
Proof.
  unfold record_tool_call. destruct (fc_name fc) as [n|]; [|done].
  destruct ts as [lg st]. rewrite create_tool_activity_reachable.
  by destruct (bool_decide _).
Qed.

Lemma on_event_sound ev ts : tracking_sound ts -> tracking_sound (on_event ev ts).
Proof.
  intros Hs. destruct ev as [gens|out n|err n]; cbn [on_event].
  - unfold on_llm_end.
    apply (fold_left_preserves tracking_sound); [|done].
    intros a gl Ha. apply (fold_left_preserves tracking_sound); [|done].
    intros a' g Ha'. unfold on_generation.
    apply (fold_left_preserves tracking_sound).
    + intros a'' fc [Hok Hr]. split; [by apply record_tool_call_ok|].
      by rewrite record_tool_call_reachable.
    + destruct (function_call g) as [fc|]; [|done].
      destruct Ha' as [Hok Hr]. split; [by apply record_tool_call_ok|].
      by rewrite record_tool_call_reachable.
  - unfold on_tool_end. destruct n as [n|]; [|done].
    destruct (_ && _); [|done]. destruct Hs as [Hok Hr].
    split; [by apply update_tool_activity_ok|].
    by rewrite update_tool_activity_reachable.
  - unfold on_tool_error. destruct n as [n|]; [|done].
    destruct (_ && _); [|done]. destruct Hs as [Hok Hr].
    split; [by apply update_tool_activity_ok|].
    by rewrite update_tool_activity_reachable.
Qed.

Lemma run_callbacks_sound evs ts :
  tracking_sound ts -> tracking_sound (run_callbacks evs ts).
Proof.
  intros Hs. unfold run_callbacks.
  apply (fold_left_preserves tracking_sound); [|done].
  intros a ev Ha. by apply on_event_sound.
Qed.

(** The loop of [_update_pending_tool_activities] over any list of names:
    the names of the list are forgotten, the documents they tracked are
    resolved, and every other document is left as it was. *)
Lemma update_pending_fold (out st_new : string) (l : list string) :
  forall ts : Tracking,
  tracking_sound ts ->
  let ts' := fold_left (fun acc n => update_tool_activity n out st_new acc) l ts in
  tracking_sound ts' /\
  (forall n, tool_activities ts'.1 !! n
             = if bool_decide (n ∈ l) then None else tool_activities ts.1 !! n) /\
  (forall n id, n ∈ l -> tool_activities ts.1 !! n = Some id ->
     exists doc0, documents ts.2 !! id = Some doc0 /\
                  documents ts'.2 !! id = Some (resolved doc0 st_new out)) /\
  (forall id, (forall n, n ∈ l -> tool_activities ts.1 !! n <> Some id) ->
     documents ts'.2 !! id = documents ts.2 !! id).
Proof.
  induction l as [|x l IH]; intros ts Hs; cbn [fold_left].
  - split; [done|]. split; [done|]. split; [|done].
    intros n id Hn. by apply elem_of_nil in Hn.
  - destruct ts as [lg st]. destruct Hs as [[Hdoc Hinj] Hr]. cbn in Hdoc, Hinj, Hr.
    destruct (tool_activities lg !! x) as [idx|] eqn:Hx.
    + destruct (Hdoc x idx Hx) as (docx & Hdx & _).
      assert (Hs1 : tracking_sound (update_tool_activity x out st_new (lg, st))).
      { split; [by apply update_tool_activity_ok|].
        by rewrite update_tool_activity_reachable. }
      rewrite (update_tool_activity_tracked x out st_new lg st idx docx) in * by done.
      destruct (IH _ Hs1) as (Hs' & Hta & Hres & Hframe). cbn in Hta, Hres, Hframe.
      assert (Hfresh : forall n, n ∈ l ->
                delete x (tool_activities lg) !! n <> Some idx).
      { intros n _ Hn. apply lookup_delete_Some in Hn as [Hne Hn].
        apply Hne. eauto. }
      split; [exact Hs'|]. split; [|split]; cbn [fst snd].
      * intros n. rewrite Hta. destruct (decide (n = x)) as [->|Hne].
        -- rewrite lookup_delete_eq.
           rewrite (bool_decide_eq_true_2 (x ∈ x :: l)); [|by left].
           by destruct (bool_decide _).
        -- rewrite lookup_delete_ne by done.
           destruct (decide (n ∈ l)) as [Hin|Hnin].
           ++ rewrite !bool_decide_eq_true_2; [done|by right|done].
           ++ rewrite !bool_decide_eq_false_2; [done| |done].
              intros Hin. apply elem_of_cons in Hin as [?|?]; done.
      * intros n id Hn Hl. destruct (decide (n = x)) as [->|Hne].
        -- assert (id = idx) as -> by congruence.
           exists docx. split; [done|].
           rewrite (Hframe idx Hfresh).
           apply list_lookup_insert_eq. by apply lookup_lt_Some in Hdx.
        -- apply elem_of_cons in Hn as [?|Hn]; [done|].
           assert (Hl' : delete x (tool_activities lg) !! n = Some id)
             by (by rewrite lookup_delete_ne).
           destruct (Hres n id Hn Hl') as (doc0 & Hd0 & Hd0').
           exists doc0. split; [|done].
           rewrite list_lookup_insert_ne in Hd0; [done|].
           intros ->. apply Hne. eauto.
      * intros id Hid. rewrite Hframe.
        -- apply list_lookup_insert_ne. intros ->.
           apply (Hid x); [by left|done].
        -- intros n Hn Hl. apply lookup_delete_Some in Hl as [_ Hl].
           apply (Hid n); [by right|done].
    + rewrite update_tool_activity_untracked by done.
      assert (Hs0 : tracking_sound (lg, st)) by done.
      destruct (IH _ Hs0) as (Hs' & Hta & Hres & Hframe). cbn in Hta, Hres, Hframe.
      split; [exact Hs'|]. split; [|split]; cbn [fst snd].
      * intros n. rewrite Hta. destruct (decide (n = x)) as [->|Hne].
        -- rewrite (bool_decide_eq_true_2 (x ∈ x :: l)); [|by left].
           rewrite Hx. by destruct (bool_decide _).
        -- destruct (decide (n ∈ l)) as [Hin|Hnin].
           ++ rewrite !bool_decide_eq_true_2; [done|by right|done].
           ++ rewrite !bool_decide_eq_false_2; [done| |done].
              intros Hin. apply elem_of_cons in Hin as [?|?]; done.
      * intros n id Hn Hl. apply elem_of_cons in Hn as [->|Hn]; [congruence|].
        eauto.
      * intros id Hid. apply Hframe. intros n Hn. apply Hid. by right.
Qed.

(** [_update_pending_tool_activities] on a sound tracking state. *)
Lemma update_pending_resolves (st_new out : string) (ts : Tracking) :
  tracking_sound ts ->
  let ts' := _update_pending_tool_activities st_new out ts in
  tool_activities ts'.1 = ∅ /\
  (forall n id, tool_activities ts.1 !! n = Some id ->
     exists doc0, documents ts.2 !! id = Some doc0 /\ status doc0 = "running" /\
                  documents ts'.2 !! id = Some (resolved doc0 st_new out)) /\
  (forall id, (forall n, tool_activities ts.1 !! n <> Some id) ->
     documents ts'.2 !! id = documents ts.2 !! id).
Proof.
  intros Hs ts'. subst ts'. unfold _update_pending_tool_activities.
  destruct (update_pending_fold out st_new
              (map fst (map_to_list (tool_activities ts.1))) ts Hs)
    as (_ & Hta & Hres & Hframe).
  assert (Hkeys : forall n id, tool_activities ts.1 !! n = Some id ->
            n ∈ map fst (map_to_list (tool_activities ts.1))).
  { intros n id Hn. apply list_elem_of_In, in_map_iff. exists (n, id).
    split; [done|]. by apply list_elem_of_In, elem_of_map_to_list. }
  split; [|split].
  - apply map_eq. intros n. rewrite Hta, lookup_empty.
    destruct (tool_activities ts.1 !! n) as [id|] eqn:Hn.
    + rewrite bool_decide_eq_true_2; [done|]. eauto.
    + by destruct (bool_decide _).
  - intros n id Hn.
    destruct (Hres n id (Hkeys n id Hn) Hn) as (doc0 & Hd & Hd').
    exists doc0. split; [done|]. split; [|done].
    destruct Hs as [[Hdoc _] _]. destruct (Hdoc n id Hn) as (doc & Hd2 & Hrun).
    congruence.
  - intros id Hid. apply Hframe. intros n _. apply Hid.
Qed.

(** ** Deadline of an execution *)

Lemma prepare_execution_tracking query sid aid wid clk es :
  tool_activities (exec_logger (prepare_execution query sid aid wid clk es).1) = ∅ /\
  exec_activities (prepare_execution query sid aid wid clk es).1 = exec_activities es.
Proof.
  unfold prepare_execution.
  set (lg := match aid, wid with
             | Some a, Some w => _
             | _, _ => _
             end).
  assert (Hlg : tool_activities lg = ∅).
  { subst lg. destruct aid as [a|]; [|done]. destruct wid as [w|]; [|done].
    by destruct (_ && _). }
  destruct sid as [s|]; [|done].
  destruct (nonempty s); [|done].
  by destruct (session_add_message _ _ _ _ _ _).
Qed.

Lemma empty_tracking_sound lg st :
  tool_activities lg = ∅ -> reachable st = true -> tracking_sound (lg, st).
Proof.
  intros Hta Hr. split; [|done]. split; cbn; intros *; rewrite Hta, lookup_empty; done.
Qed.

(** C4, as the code has it. When the awaited agent call ends with the
    60 second timeout, every activity the tool logger still tracks at that
    moment (each of them a running document) is updated to status ["failed"]
    with output ["Execution timeout"], no activity stays tracked, and the
    call raises a plain [Exception] with the message
    ["Agent execution timed out after 60 seconds"]. The activities
    collection is assumed to answer. *)
Theorem timeout_fails_tracked_activities (agent : Agent) (query : string)
    (sid : option string) (aid wid : option Z) (clk_user clk_bot : Readings)
    (es : ExecState) :
  reachable (exec_activities es) = true ->
  let prepared := prepare_execution query sid aid wid clk_user es in
  let run := agent prepared.2 in
  outcome run = Raise TimeoutError ->
  let awaited :=
    run_callbacks (callbacks run) (exec_logger prepared.1, exec_activities prepared.1) in
  let final := execute_agent_with_context agent query sid aid wid clk_user clk_bot es in
  final.2 = Raise (Exception "Agent execution timed out after 60 seconds") /\
  tool_activities (exec_logger final.1) = ∅ /\
  (forall n id, tool_activities awaited.1 !! n = Some id ->
     exists doc0,
       documents awaited.2 !! id = Some doc0 /\ status doc0 = "running" /\
       documents (exec_activities final.1) !! id
       = Some (resolved doc0 "failed" "Execution timeout")).
Proof.
  intros Hr prepared run Hout awaited final.
  destruct (prepare_execution_tracking query sid aid wid clk_user es) as [Hta Hst].
  fold prepared in Hta, Hst.
  assert (Hs : tracking_sound awaited).
  { subst awaited. apply run_callbacks_sound, empty_tracking_sound; [done|].
    by rewrite Hst. }
  destruct (update_pending_resolves "failed" "Execution timeout" awaited Hs)
    as (Hempty & Hres & _).
  assert (Hfinal : final
            = (mkExec (_update_pending_tool_activities "failed" "Execution timeout"
                         awaited).1
                      (_update_pending_tool_activities "failed" "Execution timeout"
                         awaited).2
                      (exec_conversations prepared.1),
               Raise (Exception "Agent execution timed out after 60 seconds"))).
  { subst final. unfold execute_agent_with_context. fold prepared.
    destruct prepared as [es1 q] eqn:Ep. cbn [fst snd] in *.
    unfold finish_execution. fold run. rewrite Hout. fold awaited.
    by destruct (_update_pending_tool_activities _ _ awaited). }
  rewrite Hfinal. cbn [fst snd exec_logger exec_activities].
  split; [done|]. split; [exact Hempty|]. intros n id Hn.
  destruct (Hres n id Hn) as (doc0 & H1 & H2 & H3). eauto.
Qed.

Lemma timeout_fails_tracked_activities_witness :
  reachable (exec_activities idle_state) = true /\
  outcome (slow_agent "send it") = Raise TimeoutError /\
  (execute_agent_with_context slow_agent "send it" None (Some 7%Z) (Some 3%Z)
     noon later idle_state).2
  = Raise (Exception "Agent execution timed out after 60 seconds") /\
  exists doc0,
    status doc0 = "running" /\
    documents (exec_activities
                 (execute_agent_with_context slow_agent "send it" None
                    (Some 7%Z) (Some 3%Z) noon later idle_state).1) !! 0%nat
    = Some (resolved doc0 "failed" "Execution timeout").
Proof.
  split; [reflexivity|]. split; [reflexivity|].
  destruct (timeout_fails_tracked_activities slow_agent "send it" None
              (Some 7%Z) (Some 3%Z) noon later idle_state eq_refl eq_refl)
    as (H1 & _ & H3).
  split; [exact H1|].
  destruct (H3 "send" 0%nat) as (doc0 & _ & Hrun & Hdoc);
    [vm_compute; reflexivity|].
  exists doc0. split; [exact Hrun | exact Hdoc].
Defined.

(** C4, as stated, fails: on a timeout with one tracked activity, the error
    raised is a plain [Exception] carrying a message, not a [TimeoutError],
    and the reason stored with the failed activity is ["Execution timeout"],
    not ["timeout"]. *)
Lemma timeout_is_reported_as_plain_exception :
  let final := execute_agent_with_context slow_agent "send it" None
                 (Some 7%Z) (Some 3%Z) noon later idle_state in
  final.2 = Raise (Exception "Agent execution timed out after 60 seconds") /\
  final.2 <> Raise TimeoutError /\
  documents (exec_activities final.1)
  = [mkActivity 7 3 "send" "{}" "failed" (Some "Execution timeout")] /\
  Some "Execution timeout" <> Some "timeout".
Proof.
  cbv zeta.
  assert (E : (execute_agent_with_context slow_agent "send it" None
                 (Some 7%Z) (Some 3%Z) noon later idle_state).2
              = Raise (Exception "Agent execution timed out after 60 seconds"))
    by (vm_compute; reflexivity).
  split; [exact E|]. split; [rewrite E; discriminate|].
  split; [vm_compute; reflexivity|discriminate].
Qed.

(** ** Activities that are never resolved *)

(** C5 fails on the code. Two calls of the same tool in one model response
    create two documents, but the logger tracks activities by tool name, so
    the second overwrites the first entry. Whether the execution then times
    out or returns, only the second document receives a terminal update and
    the first stays ["running"]. *)
Theorem overwritten_activity_stays_running :
  let timed_out := execute_agent_with_context double_send_timeout "send twice" None
                     (Some 7%Z) (Some 3%Z) noon later idle_state in
  let succeeded := execute_agent_with_context double_send_success "send twice" None
                     (Some 7%Z) (Some 3%Z) noon later idle_state in
  documents (exec_activities timed_out.1)
  = [mkActivity 7 3 "send" "{}" "running" None;
     mkActivity 7 3 "send" "{}" "failed" (Some "Execution timeout")] /\
  update_log (exec_activities timed_out.1) = [(1%nat, "failed")] /\
  documents (exec_activities succeeded.1)
  = [mkActivity 7 3 "send" "{}" "running" None;
     mkActivity 7 3 "send" "{}" "completed" (Some "sent")] /\
  update_log (exec_activities succeeded.1) = [(1%nat, "completed")] /\
  tool_activities (exec_logger timed_out.1) = ∅ /\
  tool_activities (exec_logger succeeded.1) = ∅.
Proof. cbv zeta. repeat split; vm_compute; reflexivity. Qed.

(** ** Two concurrent calls of [initialize] *)

Lemma init_reset_swallowed e m :
  env_exit_prior e <> Raise CancelledError ->
  exists m', init_reset e m = (m', None) /\
             _is_initializing m' = _is_initializing m.
Proof.
  intros Hexit. unfold init_reset.
  pose proof (force_cleanup_swallows (env_exit_prior e) m Hexit) as Hnone.
  pose proof (force_cleanup_frame (env_exit_prior e) m) as (_ & _ & _ & _ & Hf & _).
  destruct (_force_cleanup (env_exit_prior e) m) as [[m' printed] raised].
  cbn in Hnone, Hf. subst raised. eexists. split; [done|]. cbn. exact Hf.
Qed.

Lemma init_finish_flag e m : _is_initializing (init_finish e m).1 = false.
Proof.
  unfold init_finish, init_failed.
  destruct (check_tools m); [destruct (env_agents e) as [[[] ?]|]|];
    try destruct (_force_cleanup _ _) as [[? ?] [?|]]; done.
Qed.

Lemma progress_load_next e i cfg :
  env_mcp_servers e !! i = Some cfg ->
  progress e (PcLoad (S i)) = progress e (PcLoad i) ++ spawns_of (env_servers e) cfg.
Proof.
  intros Hi. cbn [progress]. rewrite (take_S_r _ _ _ Hi), flat_map_app.
  simpl. by rewrite app_nil_r.
Qed.

Lemma progress_load_end e i :
  env_mcp_servers e !! i = None -> progress e (PcLoad i) = spawn_set e.
Proof.
  intros Hi. cbn [progress]. unfold spawn_set.
  rewrite take_ge; [done|]. by apply lookup_ge_None.
Qed.

Lemma duo_inv_init e : duo_inv e duo_init.
Proof. by constructor. Qed.

(** A slice of the first call keeps the invariant. *)
Lemma duo_inv_step_first e sh p1 p2 sh' p1' :
  env_exit_prior e <> Raise CancelledError ->
  duo_inv e (mkDuo sh p1 p2) ->
  step_call e sh p1 = Some (sh', p1') ->
  duo_inv e (mkDuo sh' p1' p2).
Proof.
  intros Hexit [Hlock Hexcl Hflag Hearly Hstacks Hspawned] Hstep.
  cbn [shared first second] in *.
  destruct p1 as [| | |i| |early|early]; cbn [step_call] in Hstep.
  - (* PcAcquire *)
    destruct (lock sh) eqn:Hl; [done|]. injection Hstep as <- <-.
    cbn [holds_lock orb] in Hlock. symmetry in Hlock.
    constructor; cbn; rewrite ?Hlock; try done.
    cbn in Hspawned. by rewrite Hspawned, app_nil_r.
  - (* PcCheck *)
    cbn [holds_lock andb] in Hexcl.
    assert (Hf2 : has_flag p2 = false) by (by destruct p2).
    rewrite Hf2 in Hflag. cbn in Hflag. rewrite Hflag in Hstep.
    injection Hstep as <- <-.
    constructor; cbn; rewrite ?Hf2; try done.
  - (* PcCleanup *)
    destruct (init_reset_swallowed e (mgr sh) Hexit) as (m' & Hreset & Hf).
    rewrite Hreset in Hstep. injection Hstep as <- <-.
    constructor; cbn; try done.
    + by rewrite Hf.
    + rewrite Hstacks. cbn. lia.
  - (* PcLoad *)
    destruct (env_mcp_servers e !! i) as [cfg|] eqn:Hi; injection Hstep as <- <-.
    + constructor; cbn [shared first second lock mgr stacks_created spawned];
        try done.
      * by rewrite load_server_flag.
      * rewrite Hspawned. cbn [holds_lock].
        rewrite (progress_load_next e i cfg Hi). by rewrite app_assoc.
    + constructor; cbn [shared first second]; try done.
      rewrite Hspawned. cbn [holds_lock].
      rewrite (progress_load_end e i Hi). done.
  - (* PcFinish *)
    injection Hstep as <- <-.
    cbn [holds_lock andb] in Hexcl.
    assert (Hf2 : has_flag p2 = false) by (by destruct p2).
    constructor; cbn [shared first second lock mgr stacks_created spawned];
      try done.
    rewrite init_finish_flag. by rewrite Hf2.
  - (* PcRelease *)
    injection Hstep as <- <-.
    cbn [holds_lock andb] in Hexcl.
    cbn [leaves_early] in Hearly. apply orb_false_elim in Hearly as [-> He2].
    constructor; cbn [shared first second lock mgr stacks_created spawned];
      try done.
    rewrite Hspawned. cbn [holds_lock progress].
    destruct p2 as [| | |?| |?|[|]]; try done; cbn; by rewrite ?app_nil_r.
  - done.
Qed.

(** The invariant does not depend on which call is named first. *)
Lemma duo_inv_swap e sh p1 p2 :
  duo_inv e (mkDuo sh p1 p2) -> duo_inv e (mkDuo sh p2 p1).
Proof.
  intros [Hlock Hexcl Hflag Hearly Hstacks Hspawned].
  cbn [shared first second] in *.
  constructor; cbn [shared first second].
  - by rewrite orb_comm.
  - by rewrite andb_comm.
  - by rewrite orb_comm.
  - by rewrite orb_comm.
  - lia.
  - rewrite Hspawned.
    destruct (holds_lock p1) eqn:H1; destruct (holds_lock p2) eqn:H2; try done.
    apply orb_false_elim in Hearly as [He1 He2].
    destruct p1 as [| | |?| |?|[|]]; try done;
      destruct p2 as [| | |?| |?|[|]]; try done; cbn; by rewrite ?app_nil_r.
Qed.

Lemma duo_inv_schedule_one e d pick :
  env_exit_prior e <> Raise CancelledError ->
  duo_inv e d -> duo_inv e (schedule_one e d pick).
Proof.
  intros Hexit Hinv. destruct d as [sh p1 p2]. unfold schedule_one.
  cbn [shared first second]. destruct pick.
  - destruct (step_call e sh p1) as [[sh' p1']|] eqn:Hstep; [|done].
    by apply (duo_inv_step_first e sh p1 p2).
  - destruct (step_call e sh p2) as [[sh' p2']|] eqn:Hstep; [|done].
    apply duo_inv_swap. apply (duo_inv_step_first e sh p2 p1); [done| |done].
    by apply duo_inv_swap.
Qed.

Lemma duo_inv_run e picks d :
  env_exit_prior e <> Raise CancelledError ->
  duo_inv e d -> duo_inv e (run_schedule e picks d).
Proof.
  intros Hexit Hinv. unfold run_schedule.
  apply (fold_left_preserves (duo_inv e)); [|done].
  intros d' pick Hd'. by apply duo_inv_schedule_one.
Qed.

(** C1 fails on the code. Whatever the schedule of two calls of [initialize]
    issued on a fresh manager (the awaited stack exit not being cancelled):
    once both calls have returned, neither has taken the early return at the
    [_is_initializing] test, two exit stacks have been created, and the
    processes of the config list have been spawned twice. The test sits
    inside the block guarded by the lock and the flag is cleared before the
    lock is released, so the second call waits for the lock, finds the flag
    cleared, and builds again. *)
Theorem concurrent_initialize_spawns_twice (e : InitEnv) (picks : list bool) :
  env_exit_prior e <> Raise CancelledError ->
  let d := run_schedule e picks duo_init in
  returned (first d) && returned (second d) = true ->
  returned_early (first d) = false /\
  returned_early (second d) = false /\
  stacks_created (shared d) = 2%nat /\
  spawned (shared d) = spawn_set e ++ spawn_set e.
Proof.
  intros Hexit d Hret.
  destruct (duo_inv_run e picks duo_init Hexit (duo_inv_init e))
    as [_ _ _ Hearly Hstacks Hspawned].
  fold d in Hearly, Hstacks, Hspawned.
  apply andb_prop in Hret as [Hr1 Hr2].
  apply orb_false_elim in Hearly as [He1 He2].
  destruct (first d) as [| | |?| |?|b1]; try done.
  destruct (second d) as [| | |?| |?|b2]; try done.
  cbn in He1, He2. subst b1 b2. done.
Qed.

Lemma concurrent_initialize_spawns_twice_witness :
  env_exit_prior half_up <> Raise CancelledError /\
  returned (first (run_schedule half_up interleaved duo_init))
  && returned (second (run_schedule half_up interleaved duo_init)) = true /\
  stacks_created (shared (run_schedule half_up interleaved duo_init)) = 2%nat /\
  spawned (shared (run_schedule half_up interleaved duo_init)) = ["b"; "b"].
Proof.
  assert (H : env_exit_prior half_up <> Raise CancelledError) by discriminate.
  assert (R : returned (first (run_schedule half_up interleaved duo_init))
              && returned (second (run_schedule half_up interleaved duo_init))
              = true) by (vm_compute; reflexivity).
  split; [exact H|]. split; [exact R|].
  destruct (concurrent_initialize_spawns_twice half_up interleaved H R)
    as (_ & _ & H3 & H4).
  split; [exact H3 | exact H4].
Defined.

(** *** The scheduling model agrees with [initialize] *)

Lemma run_schedule_cons e pick picks d :
  run_schedule e (pick :: picks) d = run_schedule e picks (schedule_one e d pick).
Proof. done. Qed.

Lemma run_schedule_app e picks1 picks2 d :
  run_schedule e (picks1 ++ picks2) d
  = run_schedule e picks2 (run_schedule e picks1 d).
Proof. unfold run_schedule. apply fold_left_app. Qed.

Lemma run_schedule_done e k sh early p2 :
  run_schedule e (repeat true k) (mkDuo sh (PcDone early) p2)
  = mkDuo sh (PcDone early) p2.
Proof. induction k as [|k IH]; [done|]. simpl repeat. by rewrite run_schedule_cons. Qed.

(** [k] slices in the loop load the next [k] configs. *)
Lemma run_schedule_load e k :
  forall i sh p2,
  (i + k <= length (env_mcp_servers e))%nat ->
  run_schedule e (repeat true k) (mkDuo sh (PcLoad i) p2)
  = mkDuo (mkShared (lock sh)
             (load_servers (env_servers e) (take k (drop i (env_mcp_servers e)))
                (mgr sh))
             (stacks_created sh)
             (spawned sh ++ flat_map (spawns_of (env_servers e))
                              (take k (drop i (env_mcp_servers e)))))
          (PcLoad (i + k)) p2.
Proof.
  induction k as [|k IH]; intros i sh p2 Hle.
  - cbn. rewrite take_0, app_nil_r, Nat.add_0_r. by destruct sh.
  - simpl repeat. rewrite run_schedule_cons.
    destruct (lookup_lt_is_Some_2 (env_mcp_servers e) i) as [cfg Hcfg]; [lia|].
    unfold schedule_one. cbn [first shared second step_call]. rewrite Hcfg.
    rewrite IH by lia. cbn [lock mgr stacks_created spawned].
    rewrite (drop_S _ _ _ Hcfg). cbn [take flat_map].
    unfold load_servers. cbn [fold_left].
    rewrite <- app_assoc. by replace (S i + k)%nat with (i + S k)%nat by lia.
Qed.

(** A call that runs alone on a manager with the lock free does what the
    function [initialize] does. *)
Lemma solo_call_is_initialize e sh p2 :
  lock sh = false ->
  _is_initializing (mgr sh) = false ->
  exists k s,
    run_schedule e (repeat true (length (env_mcp_servers e) + 6))
      (mkDuo sh PcAcquire p2)
    = mkDuo (mkShared false (initialize e (mgr sh)).1 k s) (PcDone false) p2.
Proof.
  intros Hlock Hflag.
  replace (length (env_mcp_servers e) + 6)%nat
    with (3 + (length (env_mcp_servers e) + 3))%nat by lia.
  rewrite repeat_app, run_schedule_app.
  change (repeat true 3) with [true; true; true].
  rewrite !run_schedule_cons.
  change (run_schedule e [] ?d) with d.
  unfold initialize. rewrite Hflag.
  unfold schedule_one at 3. cbn [first shared second step_call]. rewrite Hlock.
  unfold schedule_one at 2. cbn [first shared second step_call mgr]. rewrite Hflag.
  unfold schedule_one at 1. cbn [first shared second step_call mgr lock
                                  stacks_created spawned].
  destruct (init_reset e (with_flag true (mgr sh))) as [m1 [exc|]] eqn:Hreset.
  - replace (length (env_mcp_servers e) + 3)%nat
      with (S (length (env_mcp_servers e) + 2))%nat by lia.
    cbn [repeat]. rewrite run_schedule_cons.
    unfold schedule_one. cbn [first shared second step_call].
    rewrite run_schedule_done. cbn [lock mgr stacks_created spawned fst].
    eauto.
  - rewrite repeat_app, run_schedule_app.
    rewrite run_schedule_load by (cbn; lia).
    rewrite drop_0, take_ge by done. cbn [lock mgr stacks_created spawned].
    change (repeat true 3) with [true; true; true].
    rewrite !run_schedule_cons. change (run_schedule e [] ?d) with d.
    unfold schedule_one at 3. cbn [first shared second step_call].
    rewrite (lookup_ge_None_2 (env_mcp_servers e) (0 + length (env_mcp_servers e)))
      by lia.
    unfold schedule_one at 2. cbn [first shared second step_call mgr lock
                                    stacks_created spawned].
    unfold schedule_one at 1. cbn [first shared second step_call mgr lock
                                    stacks_created spawned].
    unfold build_registry. cbn [fst]. eauto.
Qed.

(** * Further properties of the modelled code *)

(** ** The list of tools used *)

Lemma create_tool_activity_tools_used n args ts :
  tools_used (_create_tool_activity n args ts).1 = tools_used ts.1.
Proof.
  destruct ts as [lg st]. unfold _create_tool_activity.
  destruct (logger_agent_id lg) as [aid|]; [|done].
  destruct (logger_workspace_id lg) as [wid|]; [|done].
  destruct (negb (aid =? 0)%Z && negb (wid =? 0)%Z); [|done].
  by destruct (create_tool_activity _ _ _ _ _) as [st' [id|]].
Qed.

Lemma update_tool_activity_tools_used n out st_new ts :
  tools_used (update_tool_activity n out st_new ts).1 = tools_used ts.1.
Proof.
  destruct ts as [lg st]. unfold update_tool_activity.
  destruct (tool_activities lg !! n); [|done].
  by destruct (mongo_update_tool_activity _ _ _ _) as [st' [|]].
Qed.

Lemma record_tool_call_tools_used fc ts :
  tools_used (record_tool_call fc ts).1 = note_tool (tools_used ts.1) fc.
Proof.
  unfold record_tool_call, note_tool. destruct (fc_name fc) as [n|]; [|done].
  destruct ts as [lg st]. rewrite create_tool_activity_tools_used. cbn.
  by destruct (bool_decide _).
Qed.

Lemma fold_record_tools_used fcs ts :
  tools_used (fold_left (fun acc fc => record_tool_call fc acc) fcs ts).1
  = fold_left note_tool fcs (tools_used ts.1).
Proof.
  revert ts. induction fcs as [|fc fcs IH]; intros ts; [done|].
  cbn [fold_left]. by rewrite IH, record_tool_call_tools_used.
Qed.

Lemma on_generation_tools_used g ts :
  tools_used (on_generation g ts).1
  = fold_left note_tool
      (match function_call g with Some fc => [fc] | None => [] end ++ tool_calls g)
      (tools_used ts.1).
Proof.
  unfold on_generation. rewrite fold_record_tools_used, fold_left_app.
  destruct (function_call g) as [fc|]; [|done].
  cbn [fold_left]. by rewrite record_tool_call_tools_used.
Qed.

Lemma on_event_tools_used ev ts :
  tools_used (on_event ev ts).1 = fold_left note_tool (calls_of ev) (tools_used ts.1).
Proof.
  destruct ev as [gens|out n|err n]; cbn [on_event calls_of].
  - unfold on_llm_end. revert ts.
    induction gens as [|gl gens IH]; intros ts; [done|].
    cbn [fold_left flat_map]. rewrite IH, fold_left_app. f_equal.
    clear IH. revert ts. induction gl as [|g gl IH]; intros ts; [done|].
    cbn [fold_left flat_map]. rewrite IH, fold_left_app.
    by rewrite on_generation_tools_used.
  - unfold on_tool_end. destruct n as [n|]; [|done].
    destruct (_ && _); [|done]. apply update_tool_activity_tools_used.
  - unfold on_tool_error. destruct n as [n|]; [|done].
    destruct (_ && _); [|done]. apply update_tool_activity_tools_used.
Qed.

Lemma run_callbacks_tools_used evs ts :
  tools_used (run_callbacks evs ts).1
  = fold_left note_tool (flat_map calls_of evs) (tools_used ts.1).
Proof.
  unfold run_callbacks. revert ts.
  induction evs as [|ev evs IH]; intros ts; [done|].
  cbn [fold_left flat_map]. by rewrite IH, fold_left_app, on_event_tools_used.
Qed.

Lemma note_tool_NoDup used fc : NoDup used -> NoDup (note_tool used fc).
Proof.
  intros Hnd. unfold note_tool. destruct (fc_name fc) as [n|]; [|done].
  destruct (bool_decide (n ∈ used)) eqn:E; [done|].
  apply bool_decide_eq_false in E.
  apply NoDup_app. split; [done|]. split; [|apply NoDup_singleton].
  intros x Hx Hx'. apply list_elem_of_singleton in Hx' as ->. done.
Qed.

Lemma note_tool_elem used fc n :
  n ∈ note_tool used fc <-> n ∈ used \/ fc_name fc = Some n.
Proof.
  unfold note_tool. destruct (fc_name fc) as [m|] eqn:E.
  - destruct (bool_decide (m ∈ used)) eqn:Hm.
    + apply bool_decide_eq_true in Hm. split; [auto|].
      intros [?|Heq]; [done|]. by simplify_eq.
    + rewrite elem_of_app, list_elem_of_singleton. split.
      * intros [? | ->]; auto.
      * intros [?|Heq]; [auto|]. simplify_eq. auto.
  - split; [auto|]. intros [?|?]; done.
Qed.

Lemma fold_note_tool_NoDup fcs used :
  NoDup used -> NoDup (fold_left note_tool fcs used).
Proof.
  revert used. induction fcs as [|fc fcs IH]; intros used Hnd; [done|].
  cbn [fold_left]. by apply IH, note_tool_NoDup.
Qed.

Lemma fold_note_tool_elem fcs used n :
  n ∈ fold_left note_tool fcs used
  <-> n ∈ used \/ exists fc, fc ∈ fcs /\ fc_name fc = Some n.
Proof.
  revert used. induction fcs as [|fc fcs IH]; intros used; cbn [fold_left].
  - split; [auto|]. intros [?|(fc & Hfc & _)]; [done|]. by apply elem_of_nil in Hfc.
  - rewrite IH, note_tool_elem. split.
    + intros [[?|?]|(fc' & Hin & Hn)]; [auto| |].
      * right. exists fc. split; [by left|done].
      * right. exists fc'. split; [by right|done].
    + intros [?|(fc' & Hin & Hn)]; [auto|].
      apply elem_of_cons in Hin as [->|Hin]; [auto|]. right. eauto.
Qed.

Lemma prepare_execution_split query sid aid wid clk es :
  prepare_execution query sid aid wid clk es
  = (mkExec (mkLogger [] ∅ (effective_context aid wid (exec_logger es)).1
                      (effective_context aid wid (exec_logger es)).2)
            (exec_activities es)
            (prepare_conversation query sid clk (exec_conversations es)).1,
     (prepare_conversation query sid clk (exec_conversations es)).2).
Proof.
  unfold prepare_execution, prepare_conversation, effective_context.
  assert (Hlg : (match aid, wid with
                 | Some a, Some w =>
                     if negb (a =? 0)%Z && negb (w =? 0)%Z
                     then set_context a w (reset (exec_logger es))
                     else reset (exec_logger es)
                 | _, _ => reset (exec_logger es)
                 end)
                = mkLogger [] ∅
                    (match aid, wid with
                     | Some a, Some w =>
                         if negb (a =? 0)%Z && negb (w =? 0)%Z
                         then (Some a, Some w)
                         else (logger_agent_id (exec_logger es),
                               logger_workspace_id (exec_logger es))
                     | _, _ => (logger_agent_id (exec_logger es),
                                logger_workspace_id (exec_logger es))
                     end).1
                    (match aid, wid with
                     | Some a, Some w =>
                         if negb (a =? 0)%Z && negb (w =? 0)%Z
                         then (Some a, Some w)
                         else (logger_agent_id (exec_logger es),
                               logger_workspace_id (exec_logger es))
                     | _, _ => (logger_agent_id (exec_logger es),
                                logger_workspace_id (exec_logger es))
                     end).2).
  { destruct aid as [a|]; [|done]. destruct wid as [w|]; [|done].
    by destruct (_ && _). }
  rewrite Hlg. destruct sid as [s|]; [|done].
  destruct (nonempty s); [|done].
  by destruct (session_add_message _ _ _ _ _ _).
Qed.

Lemma update_pending_tools_used st_new out ts :
  tools_used (_update_pending_tool_activities st_new out ts).1 = tools_used ts.1.
Proof.
  unfold _update_pending_tool_activities.
  generalize (map fst (map_to_list (tool_activities ts.1))). intros l.
  revert ts. induction l as [|n l IH]; intros ts; [done|].
  cbn [fold_left]. by rewrite IH, update_tool_activity_tools_used.
Qed.

(** What [finish_execution] hands back, and the conversation store it
    leaves, read off the outcome of the awaited call. *)
Lemma finish_execution_answer sid run clk es :
  (finish_execution sid run clk es).2
  = match outcome run with
    | Raise TimeoutError =>
        Raise (Exception "Agent execution timed out after 60 seconds")
    | Raise e => Raise e
    | Return res =>
        Return (mkExecResult res
                  (fold_left note_tool (flat_map calls_of (callbacks run))
                     (tools_used (exec_logger es))))
    end /\
  exec_conversations (finish_execution sid run clk es).1
  = match outcome run, sid with
    | Return res, Some session_id =>
        if nonempty session_id && nonempty (_extract_response_content res)
        then (session_add_message session_id "assistant"
                (_extract_response_content res) (Some _get_agent_type) clk
                (exec_conversations es)).1
        else exec_conversations es
    | _, _ => exec_conversations es
    end.
Proof.
  unfold finish_execution.
  pose proof (run_callbacks_tools_used (callbacks run)
                (exec_logger es, exec_activities es)) as Htools. cbn [fst] in Htools.
  destruct (outcome run) as [res|[|e|]].
  - destruct (bool_decide _).
    + destruct (run_callbacks _ _) as [lg st]. cbn [fst snd] in *.
      rewrite Htools. by destruct sid.
    + pose proof (update_pending_tools_used "completed"
                    (_extract_response_content res)
                    (run_callbacks (callbacks run)
                       (exec_logger es, exec_activities es))) as Hp.
      destruct (_update_pending_tool_activities _ _ _) as [lg st].
      cbn [fst snd] in *. rewrite Hp, Htools. by destruct sid.
  - destruct (_update_pending_tool_activities _ _ _). by destruct sid.
  - destruct (_update_pending_tool_activities _ _ _). by destruct sid.
  - destruct (_update_pending_tool_activities _ _ _). by destruct sid.
Qed.

Lemma execute_agent_with_context_unfold agent query sid aid wid clk_user clk_bot es :
  execute_agent_with_context agent query sid aid wid clk_user clk_bot es
  = finish_execution sid
      (agent (prepare_execution query sid aid wid clk_user es).2) clk_bot
      (prepare_execution query sid aid wid clk_user es).1.
Proof.
  unfold execute_agent_with_context. by destruct (prepare_execution _ _ _ _ _ _).
Qed.

(** X1. The list of tools reported with a successful execution holds the
    tool names the model asked for during that execution, each once, in the
    order of their first request; names from earlier executions are not
    carried over. *)
Theorem tools_used_are_distinct_requests (agent : Agent) (query : string)
    (sid : option string) (aid wid : option Z) (clk_user clk_bot : Readings)
    (es : ExecState) (res : AgentResult) :
  let run := agent (prepare_execution query sid aid wid clk_user es).2 in
  outcome run = Return res ->
  exists tools,
    (execute_agent_with_context agent query sid aid wid clk_user clk_bot es).2
    = Return (mkExecResult res tools) /\
    tools = fold_left note_tool (flat_map calls_of (callbacks run)) [] /\
    NoDup tools /\
    (forall n, n ∈ tools
               <-> exists fc, fc ∈ flat_map calls_of (callbacks run)
                              /\ fc_name fc = Some n).
Proof.
  intros run Hout.
  exists (fold_left note_tool (flat_map calls_of (callbacks run)) []).
  split; [|split; [done|split]].
  - rewrite execute_agent_with_context_unfold. fold run.
    destruct (finish_execution_answer sid run clk_bot
                (prepare_execution query sid aid wid clk_user es).1) as [-> _].
    rewrite Hout. by rewrite prepare_execution_split.
  - apply fold_note_tool_NoDup, NoDup_nil_2.
  - intros n. rewrite fold_note_tool_elem. split; [|auto].
    intros [Hn|?]; [|done]. by apply elem_of_nil in Hn.
Qed.

Lemma tools_used_are_distinct_requests_witness :
  (execute_agent_with_context three_calls_agent "do it" None None None noon later
     idle_state).2
  = Return (mkExecResult (ResultDict (Some "ok") None None "{...}") ["send"; "ping"]).
Proof.
  destruct (tools_used_are_distinct_requests three_calls_agent "do it" None None None
              noon later idle_state (ResultDict (Some "ok") None None "{...}")
              eq_refl) as (tools & Hres & Htools & _).
  rewrite Hres, Htools. reflexivity.
Defined.

(** X2. Tool-activity tracking never changes what an execution answers:
    the value returned or the exception raised, and the conversation store
    left behind, are the same whatever the agent and workspace ids, the
    logger's earlier contents and the state of the activities collection. *)
Theorem answer_is_independent_of_tracking (agent : Agent) (query : string)
    (sid : option string) (aid1 wid1 aid2 wid2 : option Z)
    (clk_user clk_bot : Readings) (es1 es2 : ExecState) :
  exec_conversations es1 = exec_conversations es2 ->
  (execute_agent_with_context agent query sid aid1 wid1 clk_user clk_bot es1).2
  = (execute_agent_with_context agent query sid aid2 wid2 clk_user clk_bot es2).2 /\
  exec_conversations
    (execute_agent_with_context agent query sid aid1 wid1 clk_user clk_bot es1).1
  = exec_conversations
      (execute_agent_with_context agent query sid aid2 wid2 clk_user clk_bot es2).1.
Proof.
  intros Hcm. rewrite !execute_agent_with_context_unfold.
  rewrite !prepare_execution_split. cbn [fst snd]. rewrite Hcm.
  set (run := agent _).
  destruct (finish_execution_answer sid run clk_bot
              (mkExec (mkLogger [] ∅ (effective_context aid1 wid1 (exec_logger es1)).1
                         (effective_context aid1 wid1 (exec_logger es1)).2)
                      (exec_activities es1)
                      (prepare_conversation query sid clk_user
                         (exec_conversations es2)).1)) as [-> ->].
  destruct (finish_execution_answer sid run clk_bot
              (mkExec (mkLogger [] ∅ (effective_context aid2 wid2 (exec_logger es2)).1
                         (effective_context aid2 wid2 (exec_logger es2)).2)
                      (exec_activities es2)
                      (prepare_conversation query sid clk_user
                         (exec_conversations es2)).1)) as [-> ->].
  done.
Qed.

Lemma answer_is_independent_of_tracking_witness :
  (execute_agent_with_context three_calls_agent "do it" (Some "s1") (Some 7%Z)
     (Some 3%Z) noon later idle_state).2
  = (execute_agent_with_context three_calls_agent "do it" (Some "s1") None None
       noon later (mkExec logger_init (mkStore false [] []) chatted)).2.
Proof.
  apply (answer_is_independent_of_tracking three_calls_agent "do it" (Some "s1")
           (Some 7%Z) (Some 3%Z) None None noon later idle_state
           (mkExec logger_init (mkStore false [] []) chatted)).
  reflexivity.
Defined.

(** ** Invariants of the tracking state *)

(** A property of the tracking state that does not look at [tools_used] and
    is kept by creating and by updating an activity is kept by every
    callback and by the final resolution. *)
Section TrackingInvariant.
Variable P : Tracking -> Prop.
Hypothesis P_used : forall lg st used,
  P (lg, st) ->
  P (mkLogger used (tool_activities lg) (logger_agent_id lg) (logger_workspace_id lg), st).
Hypothesis P_create : forall n args ts, P ts -> P (_create_tool_activity n args ts).
Hypothesis P_update : forall n out st_new ts, P ts -> P (update_tool_activity n out st_new ts).

Lemma record_tool_call_inv fc ts : P ts -> P (record_tool_call fc ts).
Proof.
  intros Hp. unfold record_tool_call. destruct (fc_name fc) as [n|]; [|done].
  destruct ts as [lg st]. apply P_create.
  destruct (bool_decide _); [done|]. by apply P_used.
Qed.

Lemma on_event_inv ev ts : P ts -> P (on_event ev ts).
Proof.
  intros Hp. destruct ev as [gens|out n|err n]; cbn [on_event].
  - unfold on_llm_end. apply (fold_left_preserves P); [|done].
    intros a gl Ha. apply (fold_left_preserves P); [|done].
    intros a' g Ha'. unfold on_generation.
    apply (fold_left_preserves P).
    + intros a'' fc Ha''. by apply record_tool_call_inv.
    + destruct (function_call g); [|done]. by apply record_tool_call_inv.
  - unfold on_tool_end. destruct n as [n|]; [|done].
    destruct (_ && _); [|done]. by apply P_update.
  - unfold on_tool_error. destruct n as [n|]; [|done].
    destruct (_ && _); [|done]. by apply P_update.
Qed.

Lemma run_callbacks_inv evs ts : P ts -> P (run_callbacks evs ts).
Proof.
  intros Hp. unfold run_callbacks. apply (fold_left_preserves P); [|done].
  intros a ev Ha. by apply on_event_inv.
Qed.

Lemma update_pending_inv st_new out ts :
  P ts -> P (_update_pending_tool_activities st_new out ts).
Proof.
  intros Hp. unfold _update_pending_tool_activities.
  apply (fold_left_preserves P); [|done].
  intros a n Ha. by apply P_update.
Qed.

End TrackingInvariant.

(** The tracking state [finish_execution] leaves behind. *)
Lemma finish_execution_tracking sid run clk es :
  let ts := run_callbacks (callbacks run) (exec_logger es, exec_activities es) in
  (exec_logger (finish_execution sid run clk es).1,
   exec_activities (finish_execution sid run clk es).1)
  = match outcome run with
    | Return res =>
        if bool_decide (tool_activities ts.1 = ∅) then ts
        else _update_pending_tool_activities "completed"
               (_extract_response_content res) ts
    | Raise e =>
        _update_pending_tool_activities (resolution_of (Raise e)).1
          (resolution_of (Raise e)).2 ts
    end.
Proof.
  intros ts. unfold finish_execution. fold ts.
  destruct (outcome run) as [res|[|e|]]; cbn [resolution_of fst snd].
  - by destruct (if bool_decide _ then _ else _).
  - by destruct (_update_pending_tool_activities _ _ _).
  - by destruct (_update_pending_tool_activities _ _ _).
  - by destruct (_update_pending_tool_activities _ _ _).
Qed.

(** A property kept as in [TrackingInvariant] holds of what an execution
    leaves behind when it holds of the prepared state. *)
Lemma finish_execution_inv (P : Tracking -> Prop) sid run clk es :
  (forall lg st used,
     P (lg, st) ->
     P (mkLogger used (tool_activities lg) (logger_agent_id lg)
          (logger_workspace_id lg), st)) ->
  (forall n args ts, P ts -> P (_create_tool_activity n args ts)) ->
  (forall n out st_new ts, P ts -> P (update_tool_activity n out st_new ts)) ->
  P (exec_logger es, exec_activities es) ->
  P (exec_logger (finish_execution sid run clk es).1,
     exec_activities (finish_execution sid run clk es).1).
Proof.
  intros Hu Hc Hup Hp. rewrite finish_execution_tracking.
  pose proof (run_callbacks_inv P Hu Hc Hup (callbacks run) _ Hp) as Hr.
  destruct (outcome run) as [res|e].
  - destruct (bool_decide _); [done|]. by apply update_pending_inv.
  - by apply update_pending_inv.
Qed.

(** ** Documents an execution creates and documents it leaves alone *)

Lemma created_under_used d0 ctx r0 lg st used :
  created_under d0 ctx r0 (lg, st) ->
  created_under d0 ctx r0
    (mkLogger used (tool_activities lg) (logger_agent_id lg)
       (logger_workspace_id lg), st).
Proof. intros [? ? ? ? ? ?]. by constructor. Qed.

Lemma created_under_create d0 ctx r0 n args ts :
  created_under d0 ctx r0 ts ->
  created_under d0 ctx r0 (_create_tool_activity n args ts).
Proof.
  destruct ts as [lg st]. intros Hcu.
  pose proof Hcu as [Ha Hw Hr Hprior Hcreated Htracked].
  cbn [fst snd] in *. unfold _create_tool_activity.
  destruct (logger_agent_id lg) as [aid|] eqn:Eaid; [|exact Hcu].
  destruct (logger_workspace_id lg) as [wid|] eqn:Ewid; [|exact Hcu].
  destruct (negb (aid =? 0)%Z && negb (wid =? 0)%Z) eqn:Eset; [|exact Hcu].
  unfold create_tool_activity. destruct (reachable st) eqn:Er; [|exact Hcu].
  assert (Hlen : (length d0 <= length (documents st))%nat).
  { destruct (decide (length d0 <= length (documents st))%nat) as [|Hgt]; [done|].
    destruct (lookup_lt_is_Some_2 d0 (length (documents st))) as [doc Hdoc]; [lia|].
    apply Hprior, lookup_lt_Some in Hdoc. lia. }
  constructor; cbn [fst snd logger_agent_id logger_workspace_id reachable
                    documents tool_activities].
  - congruence.
  - congruence.
  - congruence.
  - intros i doc Hi. apply lookup_app_l_Some. by apply Hprior.
  - intros i doc Hi Hdoc. apply lookup_snoc_Some in Hdoc as [[_ Hdoc]|[_ <-]].
    + by apply Hcreated with i.
    + cbn. rewrite <- Ha, <- Hw. repeat split; try done.
      destruct ctx as [c1 c2]. cbn in Ha, Hw. subst c1 c2. exact Eset.
  - intros n' id Hl. destruct (decide (n = n')) as [->|Hne].
    + rewrite lookup_insert_eq in Hl. by simplify_eq.
    + rewrite lookup_insert_ne in Hl by done. eauto.
Qed.

Lemma created_under_update d0 ctx r0 n out st_new ts :
  created_under d0 ctx r0 ts ->
  created_under d0 ctx r0 (update_tool_activity n out st_new ts).
Proof.
  destruct ts as [lg st]. intros Hcu.
  pose proof Hcu as [Ha Hw Hr Hprior Hcreated Htracked].
  cbn [fst snd] in *. unfold update_tool_activity, mongo_update_tool_activity.
  destruct (tool_activities lg !! n) as [id|] eqn:Hn; [|exact Hcu].
  destruct (reachable st) eqn:Er; [|exact Hcu].
  destruct (documents st !! id) as [doc0|] eqn:Hd0; [|exact Hcu].
  pose proof (Htracked n id Hn) as Hid.
  constructor; cbn [fst snd logger_agent_id logger_workspace_id reachable
                    documents tool_activities]; try done.
  - intros i doc Hi. rewrite list_lookup_insert_ne; [by apply Hprior|].
    apply lookup_lt_Some in Hi. lia.
  - intros i doc Hi Hdoc.
    apply list_lookup_insert_Some in Hdoc as [(Heq & <- & _)|[_ Hdoc]].
    + subst i. cbn. by apply (Hcreated id doc0).
    + by apply (Hcreated i doc).
  - intros n' id' Hl. apply lookup_delete_Some in Hl as [_ Hl]. eauto.
Qed.

Lemma created_under_finish sid run clk es d0 ctx r0 :
  created_under d0 ctx r0 (exec_logger es, exec_activities es) ->
  created_under d0 ctx r0
    (exec_logger (finish_execution sid run clk es).1,
     exec_activities (finish_execution sid run clk es).1).
Proof.
  apply (finish_execution_inv (created_under d0 ctx r0)).
  - intros *. apply created_under_used.
  - intros *. apply created_under_create.
  - intros *. apply created_under_update.
Qed.

Lemma created_under_prepared query sid aid wid clk es :
  created_under (documents (exec_activities es))
    (effective_context aid wid (exec_logger es))
    (reachable (exec_activities es))
    (exec_logger (prepare_execution query sid aid wid clk es).1,
     exec_activities (prepare_execution query sid aid wid clk es).1).
Proof.
  rewrite prepare_execution_split. cbn [fst snd exec_logger exec_activities].
  constructor; cbn [fst snd logger_agent_id logger_workspace_id tool_activities];
    try done.
  intros i doc Hi Hdoc. apply lookup_lt_Some in Hdoc. lia.
Qed.

Lemma created_under_executed agent query sid aid wid clk_user clk_bot es :
  let final := execute_agent_with_context agent query sid aid wid clk_user clk_bot es in
  created_under (documents (exec_activities es))
    (effective_context aid wid (exec_logger es))
    (reachable (exec_activities es))
    (exec_logger final.1, exec_activities final.1).
Proof.
  cbv zeta. rewrite execute_agent_with_context_unfold.
  apply created_under_finish, created_under_prepared.
Qed.

Lemma prior_documents_prefix (d0 docs : list ActivityDocument) :
  (forall i doc, d0 !! i = Some doc -> docs !! i = Some doc) ->
  docs = d0 ++ drop (length d0) docs.
Proof.
  intros Hprior. rewrite <- (take_drop (length d0) docs) at 1. f_equal.
  apply list_eq. intros i. destruct (d0 !! i) as [doc|] eqn:Hi.
  - rewrite lookup_take_lt by (by apply lookup_lt_Some in Hi). by apply Hprior.
  - apply lookup_ge_None in Hi. rewrite lookup_take_ge; [done|lia].
Qed.

(** X3. An execution never modifies or removes an activity document that
    existed when it started, whatever its status: the documents it leaves
    are the earlier ones followed by those it created. In particular an
    activity left running by an earlier execution is not resolved by a later
    one. *)
Theorem earlier_documents_are_untouched (agent : Agent) (query : string)
    (sid : option string) (aid wid : option Z) (clk_user clk_bot : Readings)
    (es : ExecState) :
  let final := execute_agent_with_context agent query sid aid wid clk_user clk_bot es in
  exists created,
    documents (exec_activities final.1)
    = documents (exec_activities es) ++ created.
Proof.
  intros final.
  destruct (created_under_executed agent query sid aid wid clk_user clk_bot es)
    as [_ _ _ Hprior _ _].
  eexists. by apply prior_documents_prefix.
Qed.

(** X4. The documents an execution creates carry the agent and workspace
    ids the logger works with: the pair passed to the call when both are
    truthy, otherwise the pair an earlier execution left in the logger
    ([reset] keeps it). When that pair is not set, or when the collection
    does not answer, the execution creates no document at all. *)
Theorem created_documents_carry_context (agent : Agent) (query : string)
    (sid : option string) (aid wid : option Z) (clk_user clk_bot : Readings)
    (es : ExecState) (created : list ActivityDocument) :
  let final := execute_agent_with_context agent query sid aid wid clk_user clk_bot es in
  let ctx := effective_context aid wid (exec_logger es) in
  documents (exec_activities final.1) = documents (exec_activities es) ++ created ->
  (forall doc, doc ∈ created ->
     Some (act_agent_id doc) = ctx.1 /\ Some (act_workspace_id doc) = ctx.2) /\
  (context_set ctx = false \/ reachable (exec_activities es) = false ->
   created = []).
Proof.
  intros final ctx Hdocs.
  destruct (created_under_executed agent query sid aid wid clk_user clk_bot es)
    as [_ _ _ _ Hcreated _]. fold final ctx in Hcreated. cbn [snd] in Hcreated.
  assert (Hall : forall doc, doc ∈ created ->
            Some (act_agent_id doc) = ctx.1 /\ Some (act_workspace_id doc) = ctx.2 /\
            context_set ctx = true /\ reachable (exec_activities es) = true).
  { intros doc Hin. apply list_elem_of_lookup in Hin as [i Hi].
    apply (Hcreated (length (documents (exec_activities es)) + i)%nat); [lia|].
    rewrite Hdocs, lookup_app_r by lia.
    by replace (length (documents (exec_activities es)) + i
                - length (documents (exec_activities es)))%nat with i by lia. }
  split.
  - intros doc Hin. destruct (Hall doc Hin) as (? & ? & _). done.
  - intros Hoff. destruct created as [|doc rest]; [done|].
    destruct (Hall doc) as (_ & _ & Hset & Hr); [by left|].
    destruct Hoff; congruence.
Qed.

Lemma created_documents_carry_context_witness :
  documents (exec_activities
               (execute_agent_with_context slow_agent "send it" None None None
                  noon later sticky_state).1)
  = documents (exec_activities sticky_state)
    ++ [mkActivity 7 3 "send" "{}" "failed" (Some "Execution timeout")] /\
  forall doc,
    doc ∈ [mkActivity 7 3 "send" "{}" "failed" (Some "Execution timeout")] ->
    Some (act_agent_id doc) = Some 7%Z /\ Some (act_workspace_id doc) = Some 3%Z.
Proof.
  assert (H : documents (exec_activities
                 (execute_agent_with_context slow_agent "send it" None None None
                    noon later sticky_state).1)
              = documents (exec_activities sticky_state)
                ++ [mkActivity 7 3 "send" "{}" "failed" (Some "Execution timeout")])
    by (vm_compute; reflexivity).
  split; [exact H|].
  apply (created_documents_carry_context slow_agent "send it" None None None
           noon later sticky_state _ H).
Defined.

(** ** Tracked activities *)

Lemma tracking_ok_used lg st used :
  tracking_ok (lg, st) ->
  tracking_ok (mkLogger used (tool_activities lg) (logger_agent_id lg)
                 (logger_workspace_id lg), st).
Proof. by intros [? ?]. Qed.

(** X5. While an execution runs, every tool name the logger tracks refers
    to an existing document whose status is still ["running"], and two
    different names never refer to the same document. This holds when the
    awaited agent call ends, whatever callbacks were delivered and whether
    or not the collection answers. *)
Theorem tracked_activities_are_running (agent : Agent) (query : string)
    (sid : option string) (aid wid : option Z) (clk : Readings) (es : ExecState) :
  let ts := tracking_at_end agent query sid aid wid clk es in
  (forall n id, tool_activities ts.1 !! n = Some id ->
     exists doc, documents ts.2 !! id = Some doc /\ status doc = "running") /\
  (forall n1 n2 id, tool_activities ts.1 !! n1 = Some id ->
     tool_activities ts.1 !! n2 = Some id -> n1 = n2).
Proof.
  intros ts. subst ts. unfold tracking_at_end.
  apply (run_callbacks_inv tracking_ok).
  - intros *. apply tracking_ok_used.
  - intros *. apply create_tool_activity_ok.
  - intros *. apply update_tool_activity_ok.
  - rewrite prepare_execution_split. cbn [fst snd exec_logger exec_activities].
    split; cbn; intros *; by rewrite lookup_empty.
Qed.

Lemma settled_create n args ts id doc :
  tracking_ok ts /\ documents ts.2 !! id = Some doc ->
  tracking_ok (_create_tool_activity n args ts) /\
  documents (_create_tool_activity n args ts).2 !! id = Some doc.
Proof.
  intros [Hok Hdoc]. split; [by apply create_tool_activity_ok|].
  destruct ts as [lg st]. unfold _create_tool_activity.
  destruct (logger_agent_id lg) as [aid|]; [|done].
  destruct (logger_workspace_id lg) as [wid|]; [|done].
  destruct (negb (aid =? 0)%Z && negb (wid =? 0)%Z); [|done].
  unfold create_tool_activity. destruct (reachable st); [|done].
  cbn. by apply lookup_app_l_Some.
Qed.

Lemma settled_update n out st_new ts id doc :
  status doc <> "running" ->
  tracking_ok ts /\ documents ts.2 !! id = Some doc ->
  tracking_ok (update_tool_activity n out st_new ts) /\
  documents (update_tool_activity n out st_new ts).2 !! id = Some doc.
Proof.
  intros Hst [Hok Hdoc]. split; [by apply update_tool_activity_ok|].
  destruct ts as [lg st]. destruct Hok as [Htracked _]. cbn [fst snd] in *.
  unfold update_tool_activity, mongo_update_tool_activity.
  destruct (tool_activities lg !! n) as [id'|] eqn:Hn; [|done].
  destruct (reachable st); [|done].
  destruct (documents st !! id') as [doc'|] eqn:Hd'; [|done].
  cbn. rewrite list_lookup_insert_ne; [done|].
  intros ->. destruct (Htracked n id Hn) as (doc'' & Hd'' & Hrun). congruence.
Qed.

(** X6. A terminal status is final. Starting from a well-formed tracking
    state, a document whose status is not ["running"] is left exactly as it
    is by every callback and by the resolution of pending activities at the
    end of the execution: an activity is never completed or failed twice. *)
Theorem resolved_documents_are_final (evs : list CallbackEvent)
    (st_new out : string) (ts : Tracking) (id : nat) (doc : ActivityDocument) :
  tracking_ok ts ->
  documents ts.2 !! id = Some doc ->
  status doc <> "running" ->
  documents (run_callbacks evs ts).2 !! id = Some doc /\
  documents (_update_pending_tool_activities st_new out (run_callbacks evs ts)).2 !! id
  = Some doc.
Proof.
  intros Hok Hdoc Hst.
  set (P := fun ts' : Tracking =>
              tracking_ok ts' /\ documents ts'.2 !! id = Some doc).
  assert (Hu : forall lg st used,
             P (lg, st) ->
             P (mkLogger used (tool_activities lg) (logger_agent_id lg)
                  (logger_workspace_id lg), st)).
  { intros lg st used [H1 H2]. split; [by apply tracking_ok_used|done]. }
  assert (Hc : forall n args ts', P ts' -> P (_create_tool_activity n args ts')).
  { intros *. apply settled_create. }
  assert (Hup : forall n o s ts', P ts' -> P (update_tool_activity n o s ts')).
  { intros *. by apply settled_update. }
  assert (Hr : P (run_callbacks evs ts)).
  { apply (run_callbacks_inv P Hu Hc Hup). by split. }
  split; [apply Hr|].
  apply (update_pending_inv P Hup st_new out _ Hr).
Qed.

Lemma resolved_documents_are_final_witness :
  documents (_update_pending_tool_activities "completed" "late"
               (run_callbacks [LlmEnd [[mkGeneration (Some send_call) []]];
                               ToolEnd "sent" (Some "send")] one_failed)).2
    !! 0%nat
  = Some (mkActivity 7 3 "send" "{}" "failed" (Some "boom")).
Proof.
  apply (resolved_documents_are_final _ "completed" "late" one_failed 0%nat
           (mkActivity 7 3 "send" "{}" "failed" (Some "boom"))).
  - split; cbn; intros *; by rewrite lookup_empty.
  - reflexivity.
  - discriminate.
Defined.

(** X7. However the awaited agent call ends, the activities still tracked
    at that moment are resolved and none stays tracked: on a cancellation
    they become ["failed"] with output ["Execution cancelled"] and the
    cancellation is raised again; on a timeout they become ["failed"] with
    output ["Execution timeout"]; on any other exception they become
    ["failed"] with the text of the exception, which is raised again
    unchanged; on a normal return they become ["completed"] with the
    response content. The activities collection is assumed to answer. *)
Theorem every_outcome_resolves_tracked (agent : Agent) (query : string)
    (sid : option string) (aid wid : option Z) (clk_user clk_bot : Readings)
    (es : ExecState) :
  reachable (exec_activities es) = true ->
  let run := agent (prepare_execution query sid aid wid clk_user es).2 in
  let ts := tracking_at_end agent query sid aid wid clk_user es in
  let final := execute_agent_with_context agent query sid aid wid clk_user clk_bot es in
  tool_activities (exec_logger final.1) = ∅ /\
  (forall n id, tool_activities ts.1 !! n = Some id ->
     exists doc0,
       documents ts.2 !! id = Some doc0 /\ status doc0 = "running" /\
       documents (exec_activities final.1) !! id
       = Some (resolved doc0 (resolution_of (outcome run)).1
                 (resolution_of (outcome run)).2)) /\
  (outcome run = Raise CancelledError -> final.2 = Raise CancelledError) /\
  (forall e, outcome run = Raise (Exception e) -> final.2 = Raise (Exception e)).
Proof.
  intros Hr run ts final.
  assert (Hs : tracking_sound ts).
  { subst ts. unfold tracking_at_end.
    apply run_callbacks_sound, empty_tracking_sound;
      rewrite prepare_execution_split; done. }
  assert (Hfinal : (exec_logger final.1, exec_activities final.1)
                   = match outcome run with
                     | Return res =>
                         if bool_decide (tool_activities ts.1 = ∅) then ts
                         else _update_pending_tool_activities "completed"
                                (_extract_response_content res) ts
                     | Raise e =>
                         _update_pending_tool_activities
                           (resolution_of (Raise e)).1 (resolution_of (Raise e)).2 ts
                     end).
  { subst final. rewrite execute_agent_with_context_unfold.
    apply finish_execution_tracking. }
  assert (Hanswer : final.2
                    = match outcome run with
                      | Raise TimeoutError =>
                          Raise (Exception "Agent execution timed out after 60 seconds")
                      | Raise e => Raise e
                      | Return res =>
                          Return (mkExecResult res
                            (fold_left note_tool (flat_map calls_of (callbacks run))
                               (tools_used
                                  (exec_logger
                                     (prepare_execution query sid aid wid clk_user es).1))))
                      end).
  { subst final. rewrite execute_agent_with_context_unfold.
    apply finish_execution_answer. }
  assert (Hres : forall st_new out,
            (exec_logger final.1, exec_activities final.1)
            = _update_pending_tool_activities st_new out ts ->
            tool_activities (exec_logger final.1) = ∅ /\
            forall n id, tool_activities ts.1 !! n = Some id ->
              exists doc0,
                documents ts.2 !! id = Some doc0 /\ status doc0 = "running" /\
                documents (exec_activities final.1) !! id
                = Some (resolved doc0 st_new out)).
  { intros st_new out Heq.
    destruct (update_pending_resolves st_new out ts Hs) as (Hempty & Hdocs & _).
    rewrite <- Heq in Hempty, Hdocs. done. }
  split; [|split; [|split]].
  - destruct (outcome run) as [res|e].
    + destruct (bool_decide (tool_activities ts.1 = ∅)) eqn:E.
      * apply bool_decide_eq_true in E.
        by replace (exec_logger final.1) with ts.1 by (by rewrite <- Hfinal).
      * by apply (Hres "completed" (_extract_response_content res)).
    + by apply (Hres (resolution_of (Raise e)).1 (resolution_of (Raise e)).2).
  - intros n id Hn. destruct (outcome run) as [res|e].
    + destruct (bool_decide (tool_activities ts.1 = ∅)) eqn:E.
      * apply bool_decide_eq_true in E. rewrite E, lookup_empty in Hn. done.
      * exact (proj2 (Hres "completed" (_extract_response_content res) Hfinal)
                 n id Hn).
    + exact (proj2 (Hres (resolution_of (Raise e)).1
                      (resolution_of (Raise e)).2 Hfinal) n id Hn).
  - intros Ho. by rewrite Hanswer, Ho.
  - intros e Ho. by rewrite Hanswer, Ho.
Qed.

Lemma every_outcome_resolves_tracked_witness :
  reachable (exec_activities idle_state) = true /\
  (execute_agent_with_context cancelled_agent "send it" None (Some 7%Z) (Some 3%Z)
     noon later idle_state).2 = Raise CancelledError /\
  exists doc0,
    documents (exec_activities
                 (execute_agent_with_context cancelled_agent "send it" None
                    (Some 7%Z) (Some 3%Z) noon later idle_state).1) !! 0%nat
    = Some (resolved doc0 "failed" "Execution cancelled").
Proof.
  split; [reflexivity|].
  destruct (every_outcome_resolves_tracked cancelled_agent "send it" None
              (Some 7%Z) (Some 3%Z) noon later idle_state eq_refl)
    as (_ & Hdocs & Hcancel & _).
  split; [apply Hcancel; reflexivity|].
  destruct (Hdocs "send" 0%nat) as (doc0 & _ & _ & Hdoc);
    [vm_compute; reflexivity|].
  exists doc0. exact Hdoc.
Defined.

(** ** Sessions of the conversation store *)

(** X8. [get_or_create_session] returns the session stored under the id
    exactly as it is (looking a session up does not refresh its
    [last_activity] or touch its messages) and leaves the store unchanged;
    when the id is unknown it stores and returns a new empty session with
    the two clock readings. In both cases the returned session is the one
    stored under the id afterwards, every other id is untouched, and a
    second call returns the same session and store. *)
Theorem get_or_create_session_lookup (sid : string) (t1 t2 t3 t4 : Z)
    (cm : ConversationManager) :
  let r := get_or_create_session sid t1 t2 cm in
  sessions r.1 !! sid = Some r.2 /\
  (forall s, sessions cm !! sid = Some s -> r = (cm, s)) /\
  (sessions cm !! sid = None -> r.2 = mkSession sid [] t1 t2) /\
  (forall k, k <> sid -> sessions r.1 !! k = sessions cm !! k) /\
  get_or_create_session sid t3 t4 r.1 = r.
Proof.
  intros r. subst r. unfold get_or_create_session.
  destruct (sessions cm !! sid) as [s|] eqn:E; cbn [fst snd sessions].
  - rewrite E. repeat split; try done. by intros s' [= ->].
  - rewrite lookup_insert_eq. repeat split; try done.
    intros k Hk. by rewrite lookup_insert_ne.
Qed.

Lemma session_add_message_frame sid r c a clk cm k :
  k <> sid ->
  sessions (session_add_message sid r c a clk cm).1 !! k = sessions cm !! k.
Proof.
  intros Hne. unfold session_add_message, get_or_create_session.
  destruct (sessions cm !! sid) eqn:E; cbn.
  - by rewrite lookup_insert_ne.
  - by rewrite !lookup_insert_ne.
Qed.

Lemma session_add_message_id sid r c a clk cm :
  keyed cm -> session_id (session_add_message sid r c a clk cm).2 = sid.
Proof.
  intros Hk. unfold session_add_message, get_or_create_session.
  destruct (sessions cm !! sid) as [s|] eqn:E; cbn; [|done]. by apply Hk.
Qed.

Lemma session_add_message_keyed sid r c a clk cm :
  keyed cm -> keyed (session_add_message sid r c a clk cm).1.
Proof.
  intros Hk k s Hs. destruct (decide (k = sid)) as [->|Hne].
  - rewrite session_add_message_lookup in Hs. injection Hs as <-.
    by apply session_add_message_id.
  - rewrite session_add_message_frame in Hs by done. by apply Hk.
Qed.

Lemma prepare_conversation_frame query sid clk cm k :
  sid <> Some k ->
  sessions (prepare_conversation query sid clk cm).1 !! k = sessions cm !! k.
Proof.
  intros Hne. unfold prepare_conversation. destruct sid as [s|]; [|done].
  destruct (nonempty s); [|done].
  destruct (session_add_message s "user" query None clk cm) as [cm' session] eqn:E.
  cbn [fst]. change cm' with (cm', session).1. rewrite <- E.
  apply session_add_message_frame. congruence.
Qed.

Lemma prepare_conversation_keyed query sid clk cm :
  keyed cm -> keyed (prepare_conversation query sid clk cm).1.
Proof.
  intros Hk. unfold prepare_conversation. destruct sid as [s|]; [|done].
  destruct (nonempty s); [|done].
  destruct (session_add_message s "user" query None clk cm) as [cm' session] eqn:E.
  cbn [fst]. change cm' with (cm', session).1. rewrite <- E.
  by apply session_add_message_keyed.
Qed.

(** The conversation store an execution leaves, in two steps. *)
Lemma execute_conversations agent query sid aid wid clk_user clk_bot es :
  let cm1 := (prepare_conversation query sid clk_user (exec_conversations es)).1 in
  let run := agent (prepare_conversation query sid clk_user (exec_conversations es)).2 in
  exec_conversations
    (execute_agent_with_context agent query sid aid wid clk_user clk_bot es).1
  = match outcome run, sid with
    | Return res, Some session_id =>
        if nonempty session_id && nonempty (_extract_response_content res)
        then (session_add_message session_id "assistant"
                (_extract_response_content res) (Some _get_agent_type) clk_bot cm1).1
        else cm1
    | _, _ => cm1
    end.
Proof.
  cbv zeta. rewrite execute_agent_with_context_unfold.
  destruct (finish_execution_answer sid
              (agent (prepare_execution query sid aid wid clk_user es).2) clk_bot
              (prepare_execution query sid aid wid clk_user es).1) as [_ ->].
  by rewrite prepare_execution_split.
Qed.

(** X9. An execution only ever touches the conversation session it was
    called with: every session stored under another id is exactly as before,
    and a call without a session id ([None] or the empty string) leaves the
    whole store unchanged. *)
Theorem execution_touches_only_its_session (agent : Agent) (query : string)
    (sid : option string) (aid wid : option Z) (clk_user clk_bot : Readings)
    (es : ExecState) :
  let final := execute_agent_with_context agent query sid aid wid clk_user clk_bot es in
  (forall k, sid <> Some k ->
     sessions (exec_conversations final.1) !! k
     = sessions (exec_conversations es) !! k) /\
  (sid = None \/ sid = Some "" ->
     exec_conversations final.1 = exec_conversations es).
Proof.
  intros final. subst final. rewrite execute_conversations. split.
  - intros k Hk.
    destruct (outcome _) as [res|e]; [|by apply prepare_conversation_frame].
    destruct sid as [s|]; [|by apply prepare_conversation_frame].
    destruct (_ && _); [|by apply prepare_conversation_frame].
    rewrite session_add_message_frame by congruence.
    by apply prepare_conversation_frame.
  - intros [-> | ->]; cbn; by destruct (outcome _).
Qed.

Lemma execution_touches_only_its_session_witness :
  sessions (exec_conversations
              (execute_agent_with_context echo_agent "hello" (Some "s2") None None
                 noon later idle_state).1) !! "s1"
  = sessions (exec_conversations idle_state) !! "s1".
Proof.
  apply (execution_touches_only_its_session echo_agent "hello" (Some "s2") None None
           noon later idle_state).
  discriminate.
Defined.

(** X10. Every session is stored under its own id, and this is kept by
    everything that writes the store: looking up or creating a session, an
    execution (whatever its outcome), and the sweep of expired sessions. *)
Theorem sessions_stay_keyed (agent : Agent) (query sid' : string)
    (sid : option string) (aid wid : option Z) (clk_user clk_bot : Readings)
    (t1 t2 now : Z) (es : ExecState) :
  keyed (exec_conversations es) ->
  keyed (get_or_create_session sid' t1 t2 (exec_conversations es)).1 /\
  keyed (exec_conversations
           (execute_agent_with_context agent query sid aid wid clk_user clk_bot es).1) /\
  keyed (cleanup_expired_sessions now (exec_conversations es)).
Proof.
  intros Hk. split; [|split].
  - unfold get_or_create_session.
    destruct (sessions (exec_conversations es) !! sid') eqn:E; [done|].
    intros k s. cbn. destruct (decide (k = sid')) as [->|Hne].
    + rewrite lookup_insert_eq. by intros [= <-].
    + rewrite lookup_insert_ne by done. apply Hk.
  - rewrite execute_conversations.
    pose proof (prepare_conversation_keyed query sid clk_user _ Hk) as Hk1.
    destruct (outcome _) as [res|e]; [|done].
    destruct sid as [s|]; [|done].
    destruct (_ && _); [|done]. by apply session_add_message_keyed.
  - intros k s Hs. rewrite cleanup_expired_sessions_lookup in Hs.
    destruct (sessions (exec_conversations es) !! k) as [s'|] eqn:E; [|done].
    destruct (is_expired now s'); [done|]. injection Hs as <-. by apply Hk.
Qed.

Lemma sessions_stay_keyed_witness :
  keyed (exec_conversations idle_state) /\
  keyed (exec_conversations
           (execute_agent_with_context echo_agent "hello" (Some "s2") None None
              noon later idle_state).1).
Proof.
  assert (H : keyed (exec_conversations idle_state)).
  { intros k s. cbn. intros Hs.
    apply lookup_singleton_Some in Hs as [<- <-]. done. }
  split; [exact H|].
  apply (sessions_stay_keyed echo_agent "hello" "s2" (Some "s2") None None noon later
           0 0 0 idle_state H).
Defined.

(** X11. Once at least ten messages have been appended to a session, the
    context string shows the last ten appends and nothing else: between the
    header and the closing line it has one line per append, in order, with
    the role, agent type and content that were passed to [add_message]
    (["User: "] and the content for role ["user"], otherwise ["Assistant"],
    the agent type as [" (... agent)"] if there is one, [": "] and the
    content). Whatever the session held before, and every older append, no
    longer reaches the prompt. *)
Theorem context_shows_last_appends (s : ConversationSession) (aps : list Append) :
  (10 <= length aps)%nat ->
  get_context_string (append_all aps s)
  = String.concat nl
      (["Previous conversation context:"]
       ++ map (fun a =>
               if String.eqb (ap_role a) "user" then "User: " +:+ ap_content a
               else
                 match ap_agent_type a with
                 | Some t =>
                     if String.eqb t "" then "Assistant: " +:+ ap_content a
                     else "Assistant (" +:+ t +:+ " agent): " +:+ ap_content a
                 | None => "Assistant: " +:+ ap_content a
                 end)
            (drop (length aps - 10) aps)
       ++ ["---"]).
Proof.
  intros Hlen.
  assert (HK : (0 < MAX_CONVERSATION_MESSAGES)%nat)
    by (unfold MAX_CONVERSATION_MESSAGES; lia).
  change 10%nat with MAX_CONVERSATION_MESSAGES in *.
  assert (Hm : messages (append_all aps s)
               = map message_of (drop (length aps - MAX_CONVERSATION_MESSAGES) aps)).
  { rewrite append_all_messages.
    destruct aps as [|a0 aps0] eqn:E; [simpl in Hlen; lia|]. rewrite <- E in *.
    rewrite slice_last_drop by done. rewrite length_app, length_map.
    replace (length (messages s) + length aps - MAX_CONVERSATION_MESSAGES)%nat
      with (length (messages s) + (length aps - MAX_CONVERSATION_MESSAGES))%nat
      by lia.
    rewrite <- drop_drop, drop_app_length. symmetry. apply (fmap_drop message_of). }
  assert (Hl : length (messages (append_all aps s)) = MAX_CONVERSATION_MESSAGES).
  { rewrite Hm, length_map, length_drop. lia. }
  rewrite get_context_string_render.
  - rewrite Hl, Nat.sub_diag, drop_0, Hm. do 2 f_equal. f_equal.
    rewrite map_map. apply map_ext. intros a. by rewrite context_line_spelled.
  - intros E. rewrite E in Hl. unfold MAX_CONVERSATION_MESSAGES in Hl.
    simpl in Hl. lia.
Qed.

Lemma context_shows_last_appends_witness :
  get_context_string (append_all twelve_appends one_exchange)
  = "Previous conversation context:" +:+ nl
    +:+ "User: q2" +:+ nl +:+ "Assistant (user_agent agent): a2" +:+ nl
    +:+ "User: q3" +:+ nl +:+ "Assistant (user_agent agent): a3" +:+ nl
    +:+ "User: q4" +:+ nl +:+ "Assistant (user_agent agent): a4" +:+ nl
    +:+ "User: q5" +:+ nl +:+ "Assistant (user_agent agent): a5" +:+ nl
    +:+ "User: q6" +:+ nl +:+ "Assistant (user_agent agent): a6" +:+ nl
    +:+ "---".
Proof.
  rewrite (context_shows_last_appends one_exchange twelve_appends)
    by (vm_compute; lia).
  vm_compute. reflexivity.
Defined.

(** X12. What protects a session from the sweep is the time of its last
    append, not its age: after a message has been added at clock reading
    [r_act clk], a sweep at [now] keeps the session, with that message as
    its last one, exactly when [now] is at most 24 hours later. *)
Theorem appended_session_survives_sweep (sid r c : string) (a : option string)
    (clk : Readings) (now : Z) (cm : ConversationManager) :
  let added := session_add_message sid r c a clk cm in
  last_activity added.2 = r_act clk /\
  sessions (cleanup_expired_sessions now added.1) !! sid
  = if bool_decide (now - r_act clk <= timedelta_hours 24)%Z
    then Some added.2 else None.
Proof.
  intros added.
  assert (Hact : last_activity added.2 = r_act clk).
  { subst added. unfold session_add_message.
    by destruct (get_or_create_session _ _ _ _). }
  split; [exact Hact|].
  rewrite cleanup_expired_sessions_lookup.
  subst added. rewrite session_add_message_lookup.
  unfold is_expired. rewrite Hact.
  destruct (decide (now - r_act clk <= timedelta_hours 24)%Z) as [Hle|Hgt].
  - rewrite bool_decide_eq_false_2 by (unfold timedelta_hours, CONVERSATION_CLEANUP_HOURS in *; lia).
    by rewrite bool_decide_eq_true_2.
  - rewrite bool_decide_eq_true_2 by (unfold timedelta_hours, CONVERSATION_CLEANUP_HOURS in *; lia).
    by rewrite bool_decide_eq_false_2.
Qed.

(** ** Outcomes of [initialize] *)

Lemma load_server_frame servers m cfg :
  sub_agents (load_server servers m cfg) = sub_agents m /\
  agent (load_server servers m cfg) = agent m /\
  tool_logger (load_server servers m cfg) = tool_logger m.
Proof. unfold load_server. by destruct (servers cfg). Qed.

Lemma load_servers_frame servers cfgs m :
  sub_agents (load_servers servers cfgs m) = sub_agents m /\
  agent (load_servers servers cfgs m) = agent m /\
  _is_initializing (load_servers servers cfgs m) = _is_initializing m /\
  tool_logger (load_servers servers cfgs m) = tool_logger m.
Proof.
  revert m. induction cfgs as [|cfg cfgs IH]; intros m; [done|].
  unfold load_servers in *. cbn [fold_left].
  destruct (IH (load_server servers m cfg)) as (-> & -> & -> & ->).
  destruct (load_server_frame servers m cfg) as (-> & -> & ->).
  by rewrite load_server_flag.
Qed.

Lemma loaded_fields e lg :
  stack (loaded e lg) = Some (spawn_set e) /\
  all_tools (loaded e lg) = flat_map (discovered (env_servers e)) (env_mcp_servers e) /\
  sub_agents (loaded e lg) = None /\ agent (loaded e lg) = None /\
  _is_initializing (loaded e lg) = true /\ tool_logger (loaded e lg) = lg.
Proof.
  unfold loaded.
  destruct (load_servers_frame (env_servers e) (env_mcp_servers e)
              (mkManager (Some []) ∅ [] None None true lg)) as (-> & -> & -> & ->).
  by rewrite load_servers_stack, load_servers_all_tools.
Qed.

(** With the flag clear and the earlier stack exit not cancelled,
    [initialize] is the tail of the function applied to [loaded]. *)
Lemma initialize_loaded e m :
  _is_initializing m = false ->
  env_exit_prior e <> Raise CancelledError ->
  initialize e m = init_finish e (loaded e (tool_logger m)).
Proof.
  intros Hflag Hexit. unfold initialize. rewrite Hflag.
  unfold init_reset.
  pose proof (force_cleanup_swallows (env_exit_prior e) (with_flag true m) Hexit)
    as Hnone.
  pose proof (force_cleanup_frame (env_exit_prior e) (with_flag true m))
    as (_ & _ & _ & _ & Hf & Hlg).
  destruct (_force_cleanup (env_exit_prior e) (with_flag true m))
    as [[m' printed] raised].
  cbn [fst snd] in *. subst raised. unfold build_registry. cbn [fst].
  unfold loaded, reset_state, with_stack. cbn. by rewrite Hf, Hlg.
Qed.



(** X14. When [initialize] fails because no tool was loaded or because one
    of the three constructors raised (flag clear, neither stack exit
    cancelled), it raises that error after closing the exit stack it had
    opened: the manager is left without exit stack and without [agent], with
    the flag cleared, and the tools loaded before the failure stay in
    [all_tools]. What is left in [sub_agents] depends on where the failure
    was: nothing when no tool was loaded or when [ChatOpenAI] or
    [create_sub_agents] raised; but when [initialize_agent] raised,
    [self.sub_agents] had already been assigned and stays, so the manager
    keeps sub-agents over tools whose processes have been shut down. *)
Theorem initialize_failure (e : InitEnv) (m : MCPClientManager) :
  _is_initializing m = false ->
  env_exit_prior e <> Raise CancelledError ->
  env_exit_failed e <> Raise CancelledError ->
  let r := initialize e m in
  let tools := flat_map (discovered (env_servers e)) (env_mcp_servers e) in
  (tools = [] -> r.2 = Raise (Exception no_tools_message)) /\
  (forall step err, tools <> [] -> env_agents e = Some (step, err) ->
     r.2 = Raise (Exception err)) /\
  (r.2 <> Return tt ->
     stack r.1 = None /\ agent r.1 = None /\
     _is_initializing r.1 = false /\ all_tools r.1 = tools) /\
  (tools = [] -> sub_agents r.1 = None) /\
  (forall err, env_agents e = Some (AtModel, err) -> sub_agents r.1 = None) /\
  (forall err, env_agents e = Some (AtSubAgents, err) -> sub_agents r.1 = None) /\
  (forall err, tools <> [] -> env_agents e = Some (AtAgent, err) ->
     sub_agents r.1 = Some (mkAgentHandle tools)).
Proof.
  intros Hflag Hexit Hexit2 r tools. subst r.
  rewrite (initialize_loaded e m Hflag Hexit).
  destruct (loaded_fields e (tool_logger m)) as (Hs & Ht & Hsa & Hag & Hf & Hlg).
  fold tools in Ht. unfold init_finish, check_tools, init_failed. rewrite Ht.
  assert (Hforce : forall m0,
            exists p, _force_cleanup (env_exit_failed e) m0
                      = (with_stack None m0, p, None)
                      \/ (stack m0 = None /\
                          _force_cleanup (env_exit_failed e) m0 = (m0, p, None))).
  { intros m0. unfold _force_cleanup. destruct (stack m0) eqn:Es.
    - destruct (env_exit_failed e) as [[]|[| |]]; try done; eexists; by left.
    - exists []. by right. }
  destruct tools as [|t tools'] eqn:Etools.
  - destruct (Hforce (loaded e (tool_logger m))) as [p [-> | [Hnone ->]]];
      cbn [fst snd with_flag with_stack stack agent _is_initializing all_tools
           sub_agents]; rewrite ?Hsa, ?Hag, ?Ht;
      (split; [done|]); (split; [done|]); (split; [done|]); (split; [done|]);
      (split; [|split]);
      try done.
  - destruct (env_agents e) as [[step err]|] eqn:Eag.
    + destruct step;
        match goal with
        | |- context [_force_cleanup _ ?m0] =>
            destruct (Hforce m0) as [p [-> | [Hnone ->]]]
        end;
        cbn [fst snd with_flag with_stack with_sub_agents stack agent
             _is_initializing all_tools sub_agents];
        rewrite ?Hsa, ?Hag, ?Ht;
        (split; [done|]);
        (split; [by intros step' err' _ [= <- <-]|]);
        (split; [done|]); (split; [done|]);
        (split; [|split]); try done;
        try (intros err' _ _; done); try (intros err' _; done).
    + cbn [fst snd]. split; [done|]. split; [done|]. split; [done|].
      split; [done|]. split; [done|]. split; [done|]. done.
Qed.

Lemma initialize_failure_witness :
  (initialize last_step_fails manager_init).2 = Raise (Exception "no API key") /\
  stack (initialize last_step_fails manager_init).1 = None /\
  agent (initialize last_step_fails manager_init).1 = None /\
  sub_agents (initialize last_step_fails manager_init).1
  = Some (mkAgentHandle [send_tool; send_tool]).
Proof.
  destruct (initialize_failure last_step_fails manager_init)
    as (_ & H1 & H2 & _ & _ & _ & H3);
    [reflexivity | discriminate | discriminate |].
  assert (E : (initialize last_step_fails manager_init).2
              = Raise (Exception "no API key")).
  { apply (H1 AtAgent); [discriminate|reflexivity]. }
  split; [exact E|].
  destruct H2 as (H4 & H5 & _ & _); [rewrite E; discriminate|].
  split; [exact H4|]. split; [exact H5|].
  apply (H3 "no API key"); [discriminate|reflexivity].
Defined.

(** X15. [initialize] starts from scratch: two managers with the same tool
    logger and a clear flag are taken to the same manager and the same
    outcome, whatever tools, agents and exit stack each held before
    (provided the exit of an earlier stack is not cancelled). *)
Theorem initialize_discards_previous_state (e : InitEnv) (m1 m2 : MCPClientManager) :
  _is_initializing m1 = false -> _is_initializing m2 = false ->
  tool_logger m1 = tool_logger m2 ->
  env_exit_prior e <> Raise CancelledError ->
  initialize e m1 = initialize e m2.
Proof.
  intros H1 H2 Hlg Hexit.
  by rewrite (initialize_loaded e m1 H1 Hexit), (initialize_loaded e m2 H2 Hexit), Hlg.
Qed.

Lemma initialize_discards_previous_state_witness :
  initialize half_up ready = initialize half_up manager_init.
Proof.
  apply (initialize_discards_previous_state half_up ready manager_init);
    [reflexivity | reflexivity | reflexivity | discriminate].
Defined.

(** X16. If the calling task is cancelled while [initialize] awaits the
    exit of an earlier stack, the cancellation leaves the function with
    [_is_initializing] still set: neither handler catches it. From then on
    every call of [initialize] on that manager returns at once without doing
    anything, and [cleanup] does not clear the flag either. *)
Theorem cancelled_initialize_blocks_later_calls (e e' : InitEnv)
    (m : MCPClientManager) (tasks : list LoopTask) (sleep exit : Awaited unit)
    (now : Z) (cm : ConversationManager) :
  _is_initializing m = false ->
  stack m <> None ->
  env_exit_prior e = Raise CancelledError ->
  let r := initialize e m in
  r.2 = Raise CancelledError /\
  _is_initializing r.1 = true /\
  initialize e' r.1 = (r.1, Return tt) /\
  _is_initializing (cleanup tasks sleep exit now r.1 cm).1.1.1.1 = true.
Proof.
  intros Hflag Hstack Hexit r.
  assert (Hr : r = (with_stack None (with_flag true m), Raise CancelledError)).
  { subst r. unfold initialize. rewrite Hflag.
    unfold init_reset, _force_cleanup. cbn [with_flag stack].
    destruct (stack m) as [l|] eqn:Es; [|done]. by rewrite Hexit. }
  rewrite Hr. cbn [fst snd]. split; [done|]. split; [done|]. split.
  - done.
  - by rewrite cleanup_flag.
Qed.

Lemma cancelled_initialize_blocks_later_calls_witness :
  (initialize cancelled_exit ready).2 = Raise CancelledError /\
  initialize half_up (initialize cancelled_exit ready).1
  = ((initialize cancelled_exit ready).1, Return tt).
Proof.
  destruct (cancelled_initialize_blocks_later_calls cancelled_exit half_up ready
              loop_tasks (Return tt) (Return tt) 0 stale) as (H1 & _ & H3 & _);
    [reflexivity | discriminate | reflexivity |].
  split; [exact H1 | exact H3].
Defined.

(** ** Tools by server *)







(** ** Serialised builds *)

(** X18. Two calls of [initialize] on one manager never build at the same
    time: at every point of every schedule at most one call is inside the
    locked block, the flag is set exactly while that call is between setting
    and clearing it, and the processes spawned so far are those of the call
    inside the block after those of a call that has finished, never an
    interleaving of the two. *)
Theorem initialize_calls_are_serialised (e : InitEnv) (picks : list bool) :
  env_exit_prior e <> Raise CancelledError ->
  let d := run_schedule e picks duo_init in
  holds_lock (first d) && holds_lock (second d) = false /\
  lock (shared d) = holds_lock (first d) || holds_lock (second d) /\
  _is_initializing (mgr (shared d)) = has_flag (first d) || has_flag (second d) /\
  spawned (shared d)
  = if holds_lock (first d)
    then progress e (second d) ++ progress e (first d)
    else progress e (first d) ++ progress e (second d).
Proof.
  intros Hexit d.
  destruct (duo_inv_run e picks duo_init Hexit (duo_inv_init e))
    as [Hlock Hexcl Hflag _ _ Hspawned].
  done.
Qed.

Lemma initialize_calls_are_serialised_witness :
  env_exit_prior half_up <> Raise CancelledError /\
  holds_lock (first (run_schedule half_up [true; true; false; true; false] duo_init))
  && holds_lock (second (run_schedule half_up [true; true; false; true; false] duo_init))
  = false.
Proof.
  assert (H : env_exit_prior half_up <> Raise CancelledError) by discriminate.
  split; [exact H|].
  apply (initialize_calls_are_serialised half_up [true; true; false; true; false] H).
Defined.

(** ** Connections *)

Lemma active_after_again cid c sessions' tasks' :
  active_after cid (mkConnections (active_after cid c) sessions' tasks')
  = active_after cid c.
Proof.
  unfold active_after. destruct cid as [k|]; [|done]. cbn [active_connections].
  destruct (nonempty k && bool_decide (is_Some (active_connections c !! k))) eqn:E.
  - rewrite lookup_delete_eq.
    rewrite (bool_decide_eq_false_2 (is_Some None)); [|by intros [? ?]].
    by rewrite andb_false_r.
  - by rewrite E.
Qed.

Lemma disconnect_known done ws cid c sid :
  connection_sessions c !! ws = Some sid ->
  disconnect done (Some ws) cid c
  = (mkConnections (active_after cid c) (delete ws (connection_sessions c))
       (match connection_tasks (conn_tasks c) !! sid with
        | Some _ => cleanup_task sid (conn_tasks c)
        | None => conn_tasks c
        end),
     match connection_tasks (conn_tasks c) !! sid with
     | Some task => if done task then None else Some task
     | None => None
     end).
Proof.
  intros Es. unfold disconnect, active_after. rewrite Es.
  by destruct (connection_tasks (conn_tasks c) !! sid).
Qed.

Lemma disconnect_unknown done ws cid c :
  (forall w, ws = Some w -> connection_sessions c !! w = None) ->
  disconnect done ws cid c
  = (mkConnections (active_after cid c) (connection_sessions c) (conn_tasks c), None).
Proof.
  intros Es. unfold disconnect, active_after. destruct ws as [w|]; [|done].
  by rewrite (Es w eq_refl).
Qed.

(** X19. [disconnect] releases what the socket held and nothing else: the
    socket has no session id afterwards; the task registered for its session
    is removed from the table and is the one cancelled, unless it had already
    finished; the session ids of other sockets and the tasks of other
    sessions are untouched; and disconnecting the same socket again changes
    nothing and cancels nothing. *)
Theorem disconnect_releases_only_its_session (done done' : string -> bool)
    (ws : string) (cid : option string) (c : Connections) :
  let r := disconnect done (Some ws) cid c in
  get_session_id ws r.1 = None /\
  (forall ws', ws' <> ws -> get_session_id ws' r.1 = get_session_id ws' c) /\
  (forall sid, get_session_id ws c = Some sid ->
     connection_tasks (conn_tasks r.1) !! sid = None /\
     r.2 = match connection_tasks (conn_tasks c) !! sid with
           | Some task => if done task then None else Some task
           | None => None
           end) /\
  (forall sid, get_session_id ws c <> Some sid ->
     connection_tasks (conn_tasks r.1) !! sid
     = connection_tasks (conn_tasks c) !! sid) /\
  (get_session_id ws c = None -> r.2 = None) /\
  disconnect done' (Some ws) cid r.1 = (r.1, None).
Proof.
  intros r. subst r. unfold get_session_id.
  destruct (connection_sessions c !! ws) as [sid|] eqn:Es.
  - rewrite (disconnect_known done ws cid c sid Es). cbn [fst snd].
    cbn [connection_sessions conn_tasks].
    split; [apply lookup_delete_eq|].
    split; [intros ws' Hne; by rewrite lookup_delete_ne|].
    split.
    { intros sid' [= <-]. split; [|done].
      destruct (connection_tasks (conn_tasks c) !! sid) eqn:Et; [|done].
      cbn. apply lookup_delete_eq. }
    split.
    { intros sid' Hne.
      destruct (connection_tasks (conn_tasks c) !! sid) eqn:Et; [|done].
      cbn. rewrite lookup_delete_ne; [done|congruence]. }
    split; [done|].
    rewrite disconnect_unknown.
    + cbn [connection_sessions conn_tasks]. by rewrite active_after_again.
    + intros w [= <-]. cbn. apply lookup_delete_eq.
  - rewrite (disconnect_unknown done (Some ws) cid c) by (by intros w [= <-]).
    cbn [fst snd connection_sessions conn_tasks].
    split; [done|]. split; [done|]. split; [done|]. split; [done|].
    split; [done|].
    rewrite disconnect_unknown by (by intros w [= <-]).
    cbn [connection_sessions conn_tasks]. by rewrite active_after_again.
Qed.

Lemma connect_lookup ws cid uuid c :
  get_session_id ws (connect ws cid uuid c).1 = Some uuid /\
  (forall ws', ws' <> ws ->
     get_session_id ws' (connect ws cid uuid c).1 = get_session_id ws' c) /\
  conn_tasks (connect ws cid uuid c).1 = conn_tasks c.
Proof.
  unfold connect, get_session_id. cbn.
  split; [apply lookup_insert_eq|]. split; [|done].
  intros ws' Hne. by rewrite lookup_insert_ne.
Qed.

(** X20. A socket that connects, has a task registered for its session and
    disconnects leaves the tables as they were: with a session id that no
    task is registered for yet, the connected socket maps to that id, and
    after [register_task] and [disconnect] the socket table and the task
    table are back to what they were before, the registered task having
    been cancelled if it was still running. *)
Theorem connect_register_disconnect (done : string -> bool)
    (ws uuid task : string) (c : Connections) :
  get_session_id ws c = None ->
  connection_tasks (conn_tasks c) !! uuid = None ->
  let connected := (connect ws None uuid c).1 in
  let busy' := mkConnections (active_connections connected)
                 (connection_sessions connected)
                 (register_task uuid task (conn_tasks connected)) in
  let r := disconnect done (Some ws) None busy' in
  get_session_id ws connected = Some uuid /\
  connection_sessions r.1 = connection_sessions c /\
  connection_tasks (conn_tasks r.1) = connection_tasks (conn_tasks c) /\
  active_connections r.1 = active_connections c /\
  r.2 = if done task then None else Some task.
Proof.
  intros Hws Htask connected busy' r.
  assert (Hs : connection_sessions busy' !! ws = Some uuid).
  { subst busy' connected. cbn. apply lookup_insert_eq. }
  subst r. rewrite (disconnect_known done ws None busy' uuid Hs).
  subst busy' connected. unfold get_session_id in *.
  cbn [fst snd connect connection_sessions conn_tasks active_connections
       register_task connection_tasks active_after].
  rewrite !lookup_insert_eq. cbn [cleanup_task connection_tasks].
  split; [done|]. split; [by apply delete_insert_id|].
  split; [by apply delete_insert_id|]. done.
Qed.

Lemma connect_register_disconnect_witness :
  connection_sessions
    (disconnect (fun _ => false) (Some "ws3") None
       (mkConnections ∅ (<["ws3" := "s3"]> (connection_sessions two_sockets))
          (register_task "s3" "Task-11" (conn_tasks two_sockets)))).1
  = connection_sessions two_sockets /\
  (disconnect (fun _ => false) (Some "ws3") None
     (mkConnections ∅ (<["ws3" := "s3"]> (connection_sessions two_sockets))
        (register_task "s3" "Task-11" (conn_tasks two_sockets)))).2
  = Some "Task-11".
Proof.
  destruct (connect_register_disconnect (fun _ => false) "ws3" "s3" "Task-11"
              two_sockets) as (_ & H1 & _ & _ & H2);
    [vm_compute; reflexivity | vm_compute; reflexivity |].
  split; [exact H1 | exact H2].
Defined.

(** ** Messages to a client id *)

(** X25. A delivery that fails unregisters the client id and nothing else:
    when [send_text] on the socket registered for a non-empty client id
    raises an exception other than a cancellation, [send_personal_message]
    returns normally, the id is no longer registered, every other id is, the
    session ids of all sockets and all registered tasks are untouched (no
    task is cancelled), and every later message to that id is dropped
    without a write being attempted. *)
Theorem failed_delivery_unregisters_client (send_text send_text' : string -> Awaited unit)
    (cid ws : string) (e : PyException) (c : Connections) :
  nonempty cid = true ->
  active_connections c !! cid = Some ws ->
  send_text ws = Raise e ->
  e <> CancelledError ->
  let r := send_personal_message send_text cid c in
  r = (mkConnections (delete cid (active_connections c)) (connection_sessions c)
         (conn_tasks c), Some ws, Return tt) /\
  active_connections r.1.1 !! cid = None /\
  (forall k, k <> cid -> active_connections r.1.1 !! k = active_connections c !! k) /\
  send_personal_message send_text' cid r.1.1 = (r.1.1, None, Return tt).
Proof.
  intros Hcid Hws Hsend He r.
  assert (Hr : r = (mkConnections (delete cid (active_connections c))
                      (connection_sessions c) (conn_tasks c), Some ws, Return tt)).
  { subst r. unfold send_personal_message. rewrite Hws, Hsend.
    rewrite (disconnect_unknown (fun _ => false) None (Some cid) c) by done.
    unfold active_after. rewrite Hcid, Hws. cbn [andb fst].
    rewrite bool_decide_eq_true_2 by (by eexists).
    by destruct e. }
  rewrite Hr. cbn [fst snd active_connections].
  split; [done|]. split; [apply lookup_delete_eq|].
  split; [intros k Hk; by rewrite lookup_delete_ne|].
  unfold send_personal_message. cbn [active_connections].
  by rewrite lookup_delete_eq.
Qed.

Lemma failed_delivery_unregisters_client_witness :
  send_personal_message closed_socket "alice"
    (connect "ws3" (Some "alice") "s3" two_sockets).1
  = (mkConnections (delete "alice" (<["alice" := "ws3"]> ∅))
       (<["ws3" := "s3"]> (connection_sessions two_sockets))
       (conn_tasks two_sockets), Some "ws3", Return tt).
Proof.
  destruct (failed_delivery_unregisters_client closed_socket closed_socket "alice"
              "ws3" (Exception "connection closed")
              (connect "ws3" (Some "alice") "s3" two_sockets).1)
    as (H & _); [reflexivity | vm_compute; reflexivity | reflexivity | discriminate |].
  exact H.
Defined.

(** X26. The registration of a client id is not tied to the socket that
    made it. When a second socket connects under a non-empty client id
    already in use, messages to the id go to the second socket; when the
    first socket is then disconnected with that id, the id is unregistered
    although the second socket is still connected and keeps its session id:
    messages to the id are dropped from then on. *)
Theorem stale_disconnect_unregisters_client (done : string -> bool)
    (send_text : string -> Awaited unit)
    (ws1 ws2 u1 u2 cid : string) (c : Connections) :
  nonempty cid = true ->
  ws1 <> ws2 ->
  let c2 := (connect ws2 (Some cid) u2 (connect ws1 (Some cid) u1 c).1).1 in
  let r := (disconnect done (Some ws1) (Some cid) c2).1 in
  (send_personal_message send_text cid c2).1.2 = Some ws2 /\
  get_session_id ws2 r = Some u2 /\
  get_session_id ws1 r = None /\
  active_connections r !! cid = None /\
  send_personal_message send_text cid r = (r, None, Return tt).
Proof.
  intros Hcid Hne c2 r.
  assert (Hact : active_connections c2 !! cid = Some ws2).
  { subst c2. unfold connect. cbn [fst active_connections]. rewrite Hcid.
    apply lookup_insert_eq. }
  assert (Hs1 : connection_sessions c2 !! ws1 = Some u1).
  { subst c2. unfold connect. cbn [fst connection_sessions].
    rewrite lookup_insert_ne by done. apply lookup_insert_eq. }
  assert (Hs2 : connection_sessions c2 !! ws2 = Some u2).
  { subst c2. unfold connect. cbn [fst connection_sessions]. apply lookup_insert_eq. }
  assert (Hr : active_connections r = delete cid (active_connections c2) /\
               connection_sessions r = delete ws1 (connection_sessions c2)).
  { subst r. rewrite (disconnect_known done ws1 (Some cid) c2 u1 Hs1).
    cbn [fst active_connections connection_sessions]. unfold active_after.
    rewrite Hcid, Hact. cbn [andb].
    by rewrite bool_decide_eq_true_2 by (by eexists). }
  destruct Hr as [Hra Hrs].
  assert (Hnone : active_connections r !! cid = None).
  { rewrite Hra. apply lookup_delete_eq. }
  split.
  { unfold send_personal_message. rewrite Hact.
    by destruct (send_text ws2) as [[]|[| |]]. }
  split.
  { unfold get_session_id. rewrite Hrs. by rewrite lookup_delete_ne. }
  split.
  { unfold get_session_id. rewrite Hrs. apply lookup_delete_eq. }
  split; [exact Hnone|].
  unfold send_personal_message. by rewrite Hnone.
Qed.

Lemma stale_disconnect_unregisters_client_witness :
  get_session_id "ws4"
    (disconnect (fun _ => false) (Some "ws3") (Some "alice")
       (connect "ws4" (Some "alice") "s4"
          (connect "ws3" (Some "alice") "s3" two_sockets).1).1).1 = Some "s4" /\
  active_connections
    (disconnect (fun _ => false) (Some "ws3") (Some "alice")
       (connect "ws4" (Some "alice") "s4"
          (connect "ws3" (Some "alice") "s3" two_sockets).1).1).1 !! "alice" = None.
Proof.
  destruct (stale_disconnect_unregisters_client (fun _ => false) closed_socket
              "ws3" "ws4" "s3" "s4" "alice" two_sockets)
    as (_ & H1 & _ & H2 & _); [reflexivity | discriminate |].
  split; [exact H1 | exact H2].
Defined.

(** ** Answers to a query *)

Lemma filter_terminal_app (l1 l2 : list WsMessage) :
  List.filter is_terminal (l1 ++ l2)
  = List.filter is_terminal l1 ++ List.filter is_terminal l2.
Proof. apply List.filter_app. Qed.

(** What [run_selected] adds to the messages already sent. *)
Lemma run_selected_messages shown_repr agent ty query sid aid wid clk_user clk_bot sent es :
  let executed :=
    execute_agent_with_context agent query sid aid wid clk_user clk_bot es in
  run_selected shown_repr agent ty query sid aid wid clk_user clk_bot sent es
  = (sent ++ [StatusMsg "executing" ("Executing with " +:+ ty +:+ " agent...")]
          ++ match executed.2 with
             | Return res =>
                 [FinalResponseMsg
                    (_extract_response_content (with_repr shown_repr (result res))) ty;
                  StatusMsg "completed" ("Query completed by " +:+ ty +:+ " agent")]
             | Raise CancelledError =>
                 [StatusMsg "cancelled" "Query processing was cancelled"]
             | Raise e => [ErrorMsg ("Error processing query: " +:+ py_str e)]
             end,
     executed.1,
     match executed.2 with
     | Return res =>
         Return (Some (mkQueryResponse res ty
                         ("Response generated by " +:+ ty +:+ " agent") sid))
     | Raise CancelledError => Raise CancelledError
     | Raise _ => Return None
     end).
Proof.
  cbv zeta. unfold run_selected.
  destruct (execute_agent_with_context _ _ _ _ _ _ _ _) as [es' [res|[|e|]]];
    cbn [fst snd]; by rewrite <- app_assoc.
Qed.

(** X21. Every processed query is answered exactly once. The messages
    handed to [send_message] start with the status ["processing"], and
    exactly one of them closes the query: it is the last message when the
    query is refused, fails or is
    cancelled, and the final response right before the status ["completed"]
    when it succeeds. A refusal, a failure or a timeout of the agent is
    reported as an error message and the coroutine returns [None]; the only
    exception that leaves it is the cancellation. *)
Theorem every_query_is_answered_once (shown_repr : string) (agent : Agent)
    (m : MCPClientManager) (query : string) (agent_type sid : option string) (aid wid : option Z)
    (clk_user clk_bot : Readings) (es : ExecState) :
  let r := process_query_with_streaming shown_repr agent m query agent_type sid
             aid wid clk_user clk_bot es in
  (exists rest, r.1.1 = StatusMsg "processing" "Processing your query..." :: rest) /\
  length (List.filter is_terminal r.1.1) = 1%nat /\
  match r.2 with
  | Return (Some resp) =>
      exists pre,
        r.1.1 = pre ++ [FinalResponseMsg
                          (_extract_response_content
                             (with_repr shown_repr (result (response resp))))
                          (agent_used resp);
                        StatusMsg "completed"
                          ("Query completed by " +:+ agent_used resp +:+ " agent")]
  | Return None => exists pre text, r.1.1 = pre ++ [ErrorMsg text]
  | Raise e =>
      e = CancelledError /\
      exists pre,
        r.1.1 = pre ++ [StatusMsg "cancelled" "Query processing was cancelled"]
  end.
Proof.
  intros r. subst r. unfold process_query_with_streaming.
  destruct (truthy agent_type).
  - destruct (sub_agents m) as [h|] eqn:Esa.
    + destruct (has_sub_agent m (default "" agent_type)).
      * rewrite run_selected_messages. cbn [fst snd].
        destruct (execute_agent_with_context _ _ _ _ _ _ _ _).2 as [res|[|e|]];
          (split; [eexists; reflexivity|]); (split; [reflexivity|]);
          cbn [response agent_used];
          first [ by eexists (_ :: _ :: _ :: _)
                | by eexists (_ :: _ :: _ :: _), _
                | split; [done|]; by eexists (_ :: _ :: _ :: _) ].
      * cbn [fst snd]. split; [eexists; reflexivity|]. split; [reflexivity|].
        by eexists [_], _.
    + cbn [fst snd]. split; [eexists; reflexivity|]. split; [reflexivity|].
      by eexists [_], _.
  - destruct (has_sub_agent m "user_agent").
    + rewrite run_selected_messages. cbn [fst snd].
      destruct (execute_agent_with_context _ _ _ _ _ _ _ _).2 as [res|[|e|]];
        (split; [eexists; reflexivity|]); (split; [reflexivity|]);
        cbn [response agent_used];
        first [ by eexists (_ :: _ :: _ :: _ :: _)
              | by eexists (_ :: _ :: _ :: _ :: _), _
              | split; [done|]; by eexists (_ :: _ :: _ :: _ :: _) ].
    + cbn [fst snd]. split; [eexists; reflexivity|]. split; [reflexivity|].
      by eexists [_; _], _.
Qed.

(** X22. Which teardown makes a manager refuse queries. After [cleanup]
    (neither of its waits cancelled) the manager has no agents: a routed
    query is answered with the error ["User agent not initialized"], a query
    that names an agent type with the error of the failed membership test on
    [None]; in both cases no agent is executed and the state is untouched.
    After [_force_cleanup] alone, which is what the WebSocket handlers call
    on disconnect, the exit stack is [None] but a manager that had agents
    still has them: a routed query is not refused, it is handed to the
    agent and executed, whatever the agent does now that the sessions of
    its tools are closed. *)
Theorem queries_after_teardown (shown_repr : string) (agent : Agent)
    (m : MCPClientManager) (tasks : list LoopTask) (sleep exit : Awaited unit)
    (now : Z) (cm : ConversationManager)
    (query ty : string) (sid : option string) (aid wid : option Z)
    (clk_user clk_bot : Readings) (es : ExecState) :
  sleep <> Raise CancelledError ->
  exit <> Raise CancelledError ->
  let cleaned := (cleanup tasks sleep exit now m cm).1.1.1.1 in
  let forced := (_force_cleanup exit m).1.1 in
  process_query_with_streaming shown_repr agent cleaned query None sid aid wid
    clk_user clk_bot es
  = ([StatusMsg "processing" "Processing your query...";
      StatusMsg "routing" "Routing to your personalized agent...";
      ErrorMsg "User agent not initialized"], es, Return None) /\
  (nonempty ty = true ->
   process_query_with_streaming shown_repr agent cleaned query (Some ty) sid aid wid
     clk_user clk_bot es
   = ([StatusMsg "processing" "Processing your query...";
       ErrorMsg "Error processing query: argument of type 'NoneType' is not iterable"],
      es, Return None)) /\
  (sub_agents m <> None ->
   stack forced = None /\
   exists closing,
     (process_query_with_streaming shown_repr agent forced query None sid aid wid
        clk_user clk_bot es).1
     = ([StatusMsg "processing" "Processing your query...";
         StatusMsg "routing" "Routing to your personalized agent...";
         AgentRoutingMsg "user_agent";
         StatusMsg "executing" "Executing with user_agent agent..."] ++ closing,
        (execute_agent_with_context agent query sid aid wid clk_user clk_bot es).1)).
Proof.
  intros Hsleep Hexit cleaned forced.
  assert (Hcl : sub_agents cleaned = None).
  { subst cleaned. by rewrite (cleanup_swallowed tasks sleep exit now m cm). }
  split; [|split].
  - unfold process_query_with_streaming, has_sub_agent. by rewrite Hcl.
  - intros Hty. unfold process_query_with_streaming. cbn [truthy].
    unfold nonempty in Hty. by rewrite Hty, Hcl.
  - intros Hsa. split; [apply force_cleanup_stack|].
    pose proof (force_cleanup_frame exit m) as (_ & _ & Hsa' & _).
    fold forced in Hsa'.
    unfold process_query_with_streaming, has_sub_agent. cbn [truthy].
    rewrite Hsa'. destruct (sub_agents m); [|done]. cbn [String.eqb Ascii.eqb].
    rewrite run_selected_messages. cbn [fst snd].
    eexists. rewrite <- !app_assoc. reflexivity.
Qed.

Lemma queries_after_teardown_witness :
  (process_query_with_streaming "{...}" echo_agent
     (cleanup loop_tasks (Return tt) (Raise TimeoutError) next_day ready stale).1.1.1.1
     "hello" None (Some "s1") None None noon later idle_state).2 = Return None /\
  stack (_force_cleanup (Raise TimeoutError) ready).1.1 = None /\
  (process_query_with_streaming "{...}" echo_agent
     (_force_cleanup (Raise TimeoutError) ready).1.1
     "hello" None (Some "s1") None None noon later idle_state).1.2
  = (execute_agent_with_context echo_agent "hello" (Some "s1") None None noon later
       idle_state).1.
Proof.
  destruct (queries_after_teardown "{...}" echo_agent ready loop_tasks (Return tt)
              (Raise TimeoutError) next_day stale "hello" "user_agent" (Some "s1")
              None None noon later idle_state)
    as (H1 & _ & H3); [discriminate | discriminate |].
  split; [by rewrite H1|].
  destruct H3 as (Hs & closing & Hc); [discriminate|].
  split; [exact Hs|]. by rewrite Hc.
Defined.

Lemma execute_returns agent query sid aid wid clk_user clk_bot es res :
  (execute_agent_with_context agent query sid aid wid clk_user clk_bot es).2
  = Return res ->
  outcome (agent (prepare_conversation query sid clk_user (exec_conversations es)).2)
  = Return (result res).
Proof.
  rewrite execute_agent_with_context_unfold.
  destruct (finish_execution_answer sid
              (agent (prepare_execution query sid aid wid clk_user es).2) clk_bot
              (prepare_execution query sid aid wid clk_user es).1) as [-> _].
  rewrite prepare_execution_split. cbn [fst snd].
  destruct (outcome _) as [r|[|e|]]; try done. by intros [= <-].
Qed.

Lemma extract_with_repr r res :
  has_text res = true ->
  _extract_response_content (with_repr r res) = _extract_response_content res.
Proof.
  destruct res as [o c t repr|c o t repr].
  - unfold with_repr, _extract_response_content, has_text, py_or, truthy, nonempty.
    destruct o as [so|], c as [sc|], t as [st|];
      repeat (cbn [negb orb];
              first
                [ match goal with
                  | H : String.eqb ?s "" = _ |- context [String.eqb ?s ""] => rewrite H
                  end
                | match goal with
                  | |- context [String.eqb ?s ""] => destruct (String.eqb s "") eqn:?
                  end ]);
      cbn [negb orb]; congruence.
  - unfold with_repr, _extract_response_content, has_text.
    by destruct c, o, t.
Qed.

(** X23. The answer shown to the client is the answer recorded in the
    history: when a query with a session id succeeds and the result carries
    a text of its own (an output, content or text), the content of the final
    response message is the extracted response content, and, if it is not
    empty, it is the content of the assistant message that ends the
    session's history afterwards. *)
Theorem shown_answer_is_recorded (shown_repr : string) (agent : Agent)
    (m : MCPClientManager) (query s : string) (agent_type : option string)
    (aid wid : option Z) (clk_user clk_bot : Readings) (es : ExecState)
    (resp : QueryResponse) :
  nonempty s = true ->
  let r := process_query_with_streaming shown_repr agent m query agent_type (Some s)
             aid wid clk_user clk_bot es in
  r.2 = Return (Some resp) ->
  has_text (result (response resp)) = true ->
  let shown := _extract_response_content (result (response resp)) in
  In (FinalResponseMsg shown (agent_used resp)) r.1.1 /\
  (nonempty shown = true ->
   exists session pre,
     sessions (exec_conversations r.1.2) !! s = Some session /\
     messages session
     = pre ++ [mkMessage "assistant" shown (Some "user_agent") (r_msg clk_bot)]).
Proof.
  intros Hs r Hret Htext shown.
  assert (Hsel : forall ty sent,
            r = run_selected shown_repr agent ty query (Some s) aid wid clk_user
                  clk_bot sent es ->
            In (FinalResponseMsg shown (agent_used resp)) r.1.1 /\
            (nonempty shown = true ->
             exists session pre,
               sessions (exec_conversations r.1.2) !! s = Some session /\
               messages session
               = pre ++ [mkMessage "assistant" shown (Some "user_agent")
                           (r_msg clk_bot)])).
  { intros ty sent Hr. rewrite Hr in Hret |- *. clear Hr.
    rewrite run_selected_messages in Hret |- *. cbn [fst snd] in Hret |- *.
    destruct (execute_agent_with_context agent query (Some s) aid wid clk_user
                clk_bot es).2 as [res|[|e|]] eqn:Eres; try done.
    injection Hret as <-. subst shown. cbn [response agent_used] in *.
    rewrite (extract_with_repr shown_repr (result res) Htext).
    split.
    - apply in_or_app. right. right. by left.
    - intros Hne.
      pose proof (execute_returns agent query (Some s) aid wid clk_user clk_bot es
                    res Eres) as Hout.
      pose proof (execute_conversations agent query (Some s) aid wid clk_user
                    clk_bot es) as Hcm. cbv zeta in Hcm.
      rewrite Hout, Hs, Hne in Hcm. cbn [andb] in Hcm. rewrite Hcm.
      destruct (session_add_message_ends s "assistant"
                  (_extract_response_content (result res)) (Some _get_agent_type)
                  clk_bot
                  (prepare_conversation query (Some s) clk_user
                     (exec_conversations es)).1) as [pre Hpre].
      eexists _, pre. split; [apply session_add_message_lookup|exact Hpre]. }
  subst r. unfold process_query_with_streaming in *.
  destruct (truthy agent_type).
  - destruct (sub_agents m) as [h|]; [|done].
    destruct (has_sub_agent m (default "" agent_type)); [|done].
    by eapply Hsel.
  - destruct (has_sub_agent m "user_agent"); [|done]. by eapply Hsel.
Qed.

Lemma shown_answer_is_recorded_witness :
  exists session pre,
    sessions (exec_conversations
                (process_query_with_streaming "{....}" echo_agent ready "and now?"
                   None (Some "s1") None None noon later idle_state).1.2) !! "s1"
    = Some session /\
    messages session
    = pre ++ [mkMessage "assistant" "done" (Some "user_agent") 22].
Proof.
  destruct (shown_answer_is_recorded "{....}" echo_agent ready "and now?" "s1" None
              None None noon later idle_state
              (mkQueryResponse
                 (mkExecResult (ResultDict (Some "done") None None "{...}") [])
                 "user_agent" "Response generated by user_agent agent" (Some "s1"))
              eq_refl) as [_ H];
    [vm_compute; reflexivity | reflexivity |].
  apply H. reflexivity.
Defined.

(** X24. A failure of the agent reaches the client as text and ends the
    query without an exception: when the manager has its agents and the
    awaited agent call times out, the last message is the error
    ["Error processing query: Agent execution timed out after 60 seconds"]
    and the coroutine returns [None]; when the agent raises another
    exception, the error carries that exception's text. Only a cancellation
    is raised again, after the status ["cancelled"]. *)
Theorem failures_are_reported_as_text (shown_repr : string) (agent : Agent) (m : MCPClientManager)
    (query : string) (sid : option string) (aid wid : option Z)
    (clk_user clk_bot : Readings) (es : ExecState) :
  sub_agents m <> None ->
  let run := agent (prepare_conversation query sid clk_user (exec_conversations es)).2 in
  let r := process_query_with_streaming shown_repr agent m query None sid aid wid
             clk_user clk_bot es in
  (outcome run = Raise TimeoutError ->
     r.2 = Return None /\
     last r.1.1
     = Some (ErrorMsg
               "Error processing query: Agent execution timed out after 60 seconds")) /\
  (forall e, outcome run = Raise (Exception e) ->
     r.2 = Return None /\
     last r.1.1 = Some (ErrorMsg ("Error processing query: " +:+ e))) /\
  (outcome run = Raise CancelledError ->
     r.2 = Raise CancelledError /\
     last r.1.1 = Some (StatusMsg "cancelled" "Query processing was cancelled")).
Proof.
  intros Hsa run r.
  assert (Hexec : (execute_agent_with_context agent query sid aid wid clk_user
                     clk_bot es).2
                  = match outcome run with
                    | Raise TimeoutError =>
                        Raise (Exception "Agent execution timed out after 60 seconds")
                    | Raise e => Raise e
                    | Return res =>
                        Return (mkExecResult res
                                  (fold_left note_tool
                                     (flat_map calls_of (callbacks run)) []))
                    end).
  { rewrite execute_agent_with_context_unfold.
    destruct (finish_execution_answer sid
                (agent (prepare_execution query sid aid wid clk_user es).2) clk_bot
                (prepare_execution query sid aid wid clk_user es).1) as [-> _].
    by rewrite prepare_execution_split. }
  assert (Hr : r = run_selected shown_repr agent "user_agent" query sid aid wid clk_user clk_bot
                     ([StatusMsg "processing" "Processing your query..."]
                      ++ [StatusMsg "routing" "Routing to your personalized agent..."]
                      ++ [AgentRoutingMsg "user_agent"]) es).
  { subst r. unfold process_query_with_streaming, has_sub_agent. cbn [truthy].
    destruct (sub_agents m); [|done]. by rewrite <- app_assoc. }
  rewrite Hr, run_selected_messages. cbn [fst snd]. rewrite Hexec.
  split; [|split].
  - intros ->. split; [done|]. by rewrite !last_app.
  - intros e ->. split; [done|]. by rewrite !last_app.
  - intros ->. split; [done|]. by rewrite !last_app.
Qed.

Lemma failures_are_reported_as_text_witness :
  sub_agents ready <> None /\
  (process_query_with_streaming "" failing_agent ready "hello" None None None None
     noon later idle_state).2 = Return None /\
  last (process_query_with_streaming "" failing_agent ready "hello" None None None
          None noon later idle_state).1.1
  = Some (ErrorMsg "Error processing query: rate limited").
Proof.
  assert (H : sub_agents ready <> None) by discriminate.
  split; [exact H|].
  destruct (failures_are_reported_as_text "" failing_agent ready "hello" None None None
              noon later idle_state H) as (_ & He & _).
  apply (He "rate limited"). reflexivity.
Defined.
